(** * Payment gateway: a shallow embedding of the orchestration core

    The development follows the TypeScript sources of the gateway:
    - [saga.service.ts]         the step orchestrator with compensation,
    - [webhook.service.ts]      URL validation, enqueue, delivery, retries,
    - [payment.service.ts]      the charge saga and webhook reconciliation,
    - [refund.service.ts]       refund creation under amount conservation,
    - [idempotency.service.ts]  and [middleware/idempotency.ts].

    Conventions of the embedding.
    - An [async] function is a state transformer over the world it touches
      (database tables, cache, queue); [await] is sequencing.
    - [throw] and [try]/[catch] are modelled by the outcome type of module
      [Js]; a function that may throw returns [Js.Threw e].
    - Calls to the logger and to the metrics registry have no influence on
      control flow or on stored data and are left out.
    - Monetary amounts are integers counting ten-thousandths of a currency
      unit, the domain of the [DECIMAL(19,4)] columns. The refund service
      computes with amounts: there a [number] is a binary64 floating-point
      value, [parseFloat] of a column rounds to the nearest one, and a
      [number] written to a column is rounded to four decimals by the
      server. The amount of a refund request is a [number] that JSON can
      carry, so it is not NaN.
    - Time stamps are integers (milliseconds).
    - Database and cache calls answer; a lost connection is not modelled.
      A statement that waits for a row lock answers when the lock is
      released; where the lock is held by the transaction that awaits the
      statement, the call does not return (module [Tx]).
      An [INSERT] of models/payment.ts and models/refund.ts checks the
      constraints of the schema (primary key, [UNIQUE], [CHECK]), since
      refunds are summed per payment and payments are addressed by
      merchant-chosen identifiers; rows of the other tables are only read
      back through the key they were inserted with. *)

From Stdlib Require Import ZArith List String Ascii Bool Lia DecimalString.
From Stdlib Require Import Floats.
From stdpp Require Import base option list gmap strings.
Import ListNotations.
Local Open Scope string_scope.

(** ** JavaScript exceptions and effectful computations *)

Module Js.

(** A thrown value: an [Error] object (with the class name stored in its
    [name] property and its [message]) or any other value, of which only
    [String(value)] is ever inspected. *)
Inductive Thrown : Type :=
| ErrorObject (name message : string)
| Value (text : string).

(** [error instanceof Error ? error : new Error(String(error))] *)
Definition toError (error : Thrown) : Thrown :=
  match error with
  | ErrorObject n m => ErrorObject n m
  | Value t => ErrorObject "Error" t
  end.

(** [error instanceof Error ? error.message : String(error)] *)
Definition messageOf (error : Thrown) : string :=
  match error with
  | ErrorObject _ m => m
  | Value t => t
  end.

(** [error instanceof K] for an error class [K]. *)
Definition instanceOf (K : string) (error : Thrown) : bool :=
  match error with
  | ErrorObject n _ => String.eqb n K
  | Value _ => false
  end.

Inductive Outcome (A : Type) : Type :=
| Returned (a : A)
| Threw (e : Thrown).
Arguments Returned {A} a.
Arguments Threw {A} e.

(** A computation over a world [W]. *)
Definition M (W A : Type) : Type := W -> Outcome A * W.

Definition ret {W A} (a : A) : M W A := fun w => (Returned a, w).

Definition throw {W A} (e : Thrown) : M W A := fun w => (Threw e, w).

Definition bind {W A B} (m : M W A) (k : A -> M W B) : M W B :=
  fun w =>
    match m w with
    | (Returned a, w') => k a w'
    | (Threw e, w') => (Threw e, w')
    end.

(** [try { m } catch (e) { handler e }]: effects of [m] up to the throw
    stay. *)
Definition try_catch {W A} (m : M W A) (handler : Thrown -> M W A) : M W A :=
  fun w =>
    match m w with
    | (Returned a, w') => (Returned a, w')
    | (Threw e, w') => handler e w'
    end.

Definition get {W} : M W W := fun w => (Returned w, w).
Definition modify {W} (f : W -> W) : M W unit := fun w => (Returned tt, f w).

End Js.

Import Js.

Declare Scope js_scope.
Delimit Scope js_scope with js.
Notation "'do' x <- m ; k" := (Js.bind m (fun x => k))
  (at level 10, x name, m at level 100, k at level 200) : js_scope.
Notation "m ;; k" := (Js.bind m (fun _ => k))
  (at level 100, k at level 200, right associativity) : js_scope.
Local Open Scope js_scope.

(** ** saga.service.ts *)

Module SagaStep.
Section Step.
Context {W C : Type}.

(** [interface SagaStep<TContext>] *)
Record t : Type := mk {
  name : string;
  execute : C -> M W C;
  compensate : option (C -> M W unit);
}.
End Step.
Arguments t : clear implicits.
End SagaStep.

Module SagaResult.
Section Result.
Context {C : Type}.

(** [interface SagaResult<TContext>] *)
Record t : Type := mk {
  success : bool;
  context : C;
  error : option Thrown;
  failedStep : option string;
  completedSteps : list string;
}.
End Result.
Arguments t : clear implicits.
End SagaResult.

Module SagaOrchestrator.
Section Orchestrator.
Context {W C : Type}.

Abbreviation Step := (SagaStep.t W C).

(** The [for (const step of this.steps)] loop inside the [try] block.
    The locals [context] and [completedSteps] are returned next to the
    outcome, because the [catch] block reads them as they are at the
    moment of the throw. *)
Fixpoint for_steps (steps : list Step) (context : C)
    (completedSteps : list Step) (w : W)
  : Outcome unit * (C * list Step) * W :=
  match steps with
  | [] => (Returned tt, (context, completedSteps), w)
  | step :: rest =>
      match SagaStep.execute step context w with
      | (Returned context', w') =>
          for_steps rest context' (completedSteps ++ [step]) w'
      | (Threw e, w') => (Threw e, (context, completedSteps), w')
      end
  end.

(** One iteration of the compensation loop at index [i]:
    [if (step?.compensate) { try { await step.compensate(context) }
    catch (compensationError) { } }]. *)
Definition compensate_at (completedSteps : list Step) (context : C)
    (i : nat) : M W unit :=
  match completedSteps !! i with
  | Some step =>
      match SagaStep.compensate step with
      | Some compensate =>
          try_catch (compensate context) (fun compensationError => ret tt)
      | None => ret tt
      end
  | None => ret tt
  end.

(** [for (let i = completedSteps.length - 1; i >= 0; i--)]; the counter
    [n] is [i + 1]. *)
Fixpoint compensation_loop (completedSteps : list Step) (context : C)
    (n : nat) : M W unit :=
  match n with
  | O => ret tt
  | S i =>
      compensate_at completedSteps context i ;;
      compensation_loop completedSteps context i
  end.

(** [SagaOrchestrator.execute] *)
Definition execute (steps : list Step) (initialContext : C)
  : M W (SagaResult.t C) :=
  fun w =>
    match for_steps steps initialContext [] w with
    | (Returned _, (context, completedSteps), w1) =>
        (Returned
           {| SagaResult.success := true;
              SagaResult.context := context;
              SagaResult.error := None;
              SagaResult.failedStep := None;
              SagaResult.completedSteps :=
                map SagaStep.name completedSteps |}, w1)
    | (Threw error, (context, completedSteps), w1) =>
        let failedStepIndex := length completedSteps in
        let failedStep := steps !! failedStepIndex in
        (compensation_loop completedSteps context (length completedSteps) ;;
         ret {| SagaResult.success := false;
                SagaResult.context := context;
                SagaResult.error := Some (toError error);
                SagaResult.failedStep := SagaStep.name <$> failedStep;
                SagaResult.completedSteps :=
                  map SagaStep.name completedSteps |}) w1
    end.

(** *** Vocabulary of the specification *)

(** The steps of [pre] all complete, one after the other, from [context]
    and [w]; the result is the context and the world they leave. *)
Fixpoint completes (pre : list Step) (context : C) (w : W)
  : option (C * W) :=
  match pre with
  | [] => Some (context, w)
  | step :: rest =>
      match SagaStep.execute step context w with
      | (Returned context', w') => completes rest context' w'
      | (Threw _, _) => None
      end
  end.

(** The world after the compensation of [step] was invoked on [context],
    whether it returned or threw; a step without compensation leaves the
    world alone. *)
Definition compensated (step : Step) (context : C) (w : W) : W :=
  match SagaStep.compensate step with
  | Some compensate => snd (compensate context w)
  | None => w
  end.

(** The compensations of [order], invoked from left to right. *)
Definition sweep (order : list Step) (context : C) (w : W) : W :=
  fold_left (fun w step => compensated step context w) order w.

End Orchestrator.
End SagaOrchestrator.

(** ** Strings and JSON values *)

Module Str.

(** [String.prototype.toLowerCase], on the ASCII letters. *)
Definition lower_ascii (c : ascii) : ascii :=
  let n := nat_of_ascii c in
  if (65 <=? n)%nat && (n <=? 90)%nat then ascii_of_nat (n + 32) else c.

Fixpoint toLowerCase (s : string) : string :=
  match s with
  | EmptyString => EmptyString
  | String c rest => String (lower_ascii c) (toLowerCase rest)
  end.

(** [String.prototype.toUpperCase], on the ASCII letters. *)
Definition upper_ascii (c : ascii) : ascii :=
  let n := nat_of_ascii c in
  if (97 <=? n)%nat && (n <=? 122)%nat then ascii_of_nat (n - 32) else c.

Fixpoint toUpperCase (s : string) : string :=
  match s with
  | EmptyString => EmptyString
  | String c rest => String (upper_ascii c) (toUpperCase rest)
  end.

(** [s.startsWith(p)] *)
Definition startsWith (p s : string) : bool := String.prefix p s.

(** [s.endsWith(p)] *)
Definition endsWith (p s : string) : bool :=
  (String.length p <=? String.length s)%nat
  && String.eqb
       (String.substring (String.length s - String.length p)
          (String.length p) s) p.

(** [n.toString()] for an integer [n]. *)
Definition ofZ (n : Z) : string := NilZero.string_of_int (Z.to_int n).

(** JavaScript truthiness of a string that may be [null] or [undefined]:
    the empty string counts as absent. *)
Definition truthy (s : option string) : option string :=
  match s with
  | Some EmptyString => None
  | other => other
  end.

End Str.

(** ** JavaScript numbers and [DECIMAL] columns *)

Module Number.

(** A [number] is a binary64 floating-point value. *)
Definition t : Type := float.

(** The number nearest to the fraction [p/q], for [0 <= p] and [0 < q],
    ties to even, with the given sign: the quotient with enough bits and
    the position of the remainder, rounded to the format. *)
Definition nearest (negative : bool) (p q : Z) : t :=
  match p with
  | Zpos _ =>
      let '(m, e, l) := SFdiv_core_binary prec emax p 0 q 0 in
      SF2Prim (binary_round_aux prec emax negative m e l)
  | _ => if negative then neg_zero else zero
  end.

(** [parseFloat(text)] for the text of a [DECIMAL(19,4)] value or of a sum
    of such values, given in ten-thousandths. *)
Definition ofDecimal (n : Z) : t :=
  nearest (n <? 0)%Z (Z.abs n) 10000.

(** The exact value of a finite number: its sign, and its absolute value
    as a fraction. *)
Definition exact (x : t) : option (bool * Z * Z) :=
  match Prim2SF x with
  | S754_zero s => Some (s, 0%Z, 1%Z)
  | S754_finite s m e =>
      Some (s,
            if (0 <=? e)%Z then (Zpos m * 2 ^ e)%Z else Zpos m,
            if (0 <=? e)%Z then 1%Z else (2 ^ (- e))%Z)
  | _ => None
  end.

(** The fraction [(p/q) / 10^t]. *)
Definition scale10 (p q t : Z) : Z * Z :=
  if (0 <=? t)%Z then (p, (q * 10 ^ t)%Z) else ((p * 10 ^ (- t))%Z, q).

(** The decimal exponent [n] of a positive fraction,
    [10^(n-1) <= p/q < 10^n], searched downwards from [n]. *)
Fixpoint exponent10 (fuel : nat) (n p q : Z) : Z :=
  match fuel with
  | O => n
  | S fuel' =>
      let '(a, b) := scale10 p q (n - 1) in
      if (b <=? a)%Z then n else exponent10 fuel' (n - 1)%Z p q
  end.

(** The search starts above the exponent: [p/q < 2^(l+1) < 10^n] for
    [l = log2 p - log2 q] and [n = floor (0.30103 (l+1)) + 2], and
    [10^(n-4) < 2^(l-1) <= p/q]. *)
Definition magnitude (p q : Z) : Z :=
  let l := (Z.log2 p - Z.log2 q)%Z in
  exponent10 4 ((l + 1) * 30103 / 100000 + 2)%Z p q.

(** The decimal [s * 10^t] reads as the positive number [x]. *)
Definition reads_as (x : t) (s t : Z) : bool :=
  let '(a, b) := scale10 s 1 (- t) in
  PrimFloat.eqb (nearest false a b) x.

(** The digits of Number::toString in the specification of ECMAScript:
    the least [k] and the integer [s] of [k] digits for which [s * 10^(n-k)]
    reads as [x]; of two such [s] the one nearest to [x], the even one on a
    tie. For every [k] the candidates are the two integers around
    [x / 10^(n-k)]. Seventeen digits always suffice. *)
Fixpoint shortest (fuel : nat) (k : Z) (x : t) (p q n : Z) : Z * Z :=
  let t := (n - k)%Z in
  let '(a, b) := scale10 p q t in
  let lo := (a / b)%Z in
  let hi := (lo + 1)%Z in
  let lo_nearer :=
    (2 * a <? (2 * lo + 1) * b)%Z
    || ((2 * a =? (2 * lo + 1) * b)%Z && Z.even lo) in
  let first := if lo_nearer then lo else hi in
  let second := if lo_nearer then hi else lo in
  if reads_as x first t then (first, t)
  else if reads_as x second t then (second, t)
  else
    match fuel with
    | O => (first, t)
    | S fuel' => shortest fuel' (k + 1)%Z x p q n
    end.

(** [s * 10^t] without trailing zeros in [s]. *)
Fixpoint strip (fuel : nat) (s t : Z) : Z * Z :=
  match fuel with
  | O => (s, t)
  | S fuel' =>
      if (s mod 10 =? 0)%Z then strip fuel' (s / 10)%Z (t + 1)%Z else (s, t)
  end.

(** The digits of a finite number: its sign and the decimal [s * 10^t]
    that Number::toString prints; [s = 0] for zero. *)
Definition digits (x : t) : option (bool * Z * Z) :=
  match exact x with
  | None => None
  | Some (negative, p, q) =>
      if (p =? 0)%Z then Some (negative, 0%Z, 0%Z)
      else
        let n := magnitude p q in
        let '(s, t) := shortest 16 1 (PrimFloat.abs x) p q n in
        let '(s, t) := strip 17 s t in
        Some (negative, s, t)
  end.

Definition zeros (n : Z) : string :=
  string_of_list_ascii (repeat "0"%char (Z.to_nat n)).

(** Number::toString(x), radix 10. *)
Definition toString (x : t) : string :=
  match digits x with
  | None =>
      if PrimFloat.is_nan x then "NaN"
      else if PrimFloat.ltb x zero then "-Infinity" else "Infinity"
  | Some (negative, s, t) =>
      if (s =? 0)%Z then "0"
      else
        let text := Str.ofZ s in
        let k := Z.of_nat (String.length text) in
        let n := (t + k)%Z in
        let sign := if negative then "-" else "" in
        sign +:+
        (if (k <=? n)%Z && (n <=? 21)%Z then text +:+ zeros (n - k)
         else if (0 <? n)%Z && (n <=? 21)%Z then
           String.substring 0 (Z.to_nat n) text +:+ "."
           +:+ String.substring (Z.to_nat n) (Z.to_nat (k - n)) text
         else if (-6 <? n)%Z && (n <=? 0)%Z then
           "0." +:+ zeros (- n) +:+ text
         else
           let e := (n - 1)%Z in
           let exponent :=
             (if (e <? 0)%Z then "-" else "+")
             +:+ Str.ofZ (Z.abs e) in
           if (k =? 1)%Z then text +:+ "e" +:+ exponent
           else
             String.substring 0 1 text +:+ "."
             +:+ String.substring 1 (Z.to_nat (k - 1)) text
             +:+ "e" +:+ exponent)
  end.

(** [floor(a/b + 1/2)] for [0 <= a] and [0 < b]. *)
Definition round_half_up (a b : Z) : Z := ((2 * a + b) / (2 * b))%Z.

(** [x.toFixed(2)]: the integer [n] nearest to [100 x], the larger one on a
    tie, printed with two decimals; Number::toString from [1e21] on. *)
Definition toFixed2 (x : t) : string :=
  match exact x with
  | None => toString x
  | Some (negative, p, q) =>
      if (10 ^ 21 * q <=? p)%Z then toString x
      else
        let n := round_half_up (100 * p) q in
        let text := Str.ofZ n in
        let k := String.length text in
        let padded := if (k <=? 2)%nat then zeros (3 - Z.of_nat k) +:+ text
                      else text in
        let k' := String.length padded in
        (if negative && negb (p =? 0)%Z then "-" else "")
        +:+ String.substring 0 (k' - 2) padded +:+ "."
        +:+ String.substring (k' - 2) 2 padded
  end.

(** What a [DECIMAL(19,4)] column stores for a [number] parameter: the
    driver sends [String(x)], the server reads the decimal and rounds it
    to four decimals, ties away from zero; [None] where the server refuses
    the value (not a finite number, or 10^15 and beyond). In
    ten-thousandths. *)
Definition toDecimal (x : t) : option Z :=
  match digits x with
  | None => None
  | Some (negative, s, t) =>
      let n4 :=
        if (0 <=? t + 4)%Z then (s * 10 ^ (t + 4))%Z
        else round_half_up s (10 ^ (- (t + 4))) in
      if (10 ^ 19 <=? n4)%Z then None
      else Some (if negative then (- n4)%Z else n4)
  end.

End Number.

(** A JSON value, the content of a [Record<string, unknown>]; [JNumber]
    holds an integer, or an amount read from a column in ten-thousandths,
    [JDouble] a [number] as the code computed it. *)
#[local] Set Warnings "-register-all".
Inductive Json : Type :=
| JNull
| JBool (b : bool)
| JNumber (n : Z)
| JDouble (x : Number.t)
| JString (s : string)
| JObject (fields : list (string * Json)).
#[local] Set Warnings "register-all".

Module JsonObject.

(** [{ ...fields, key: value }]: an existing key keeps its place and takes
    the new value, a new key goes last. *)
Fixpoint set (key : string) (value : Json) (fields : list (string * Json))
  : list (string * Json) :=
  match fields with
  | [] => [(key, value)]
  | (k, v) :: rest =>
      if String.eqb k key then (k, value) :: rest
      else (k, v) :: set key value rest
  end.

Definition ofOption (s : option string) : Json :=
  match s with Some x => JString x | None => JNull end.

End JsonObject.

(** ** Data model (models/*.ts and the SQL schema) *)

Module PaymentStatus.
Inductive t : Type :=
| pending | processing | completed | failed | refunded | partially_refunded.

Definition eqb (a b : t) : bool :=
  match a, b with
  | pending, pending | processing, processing | completed, completed
  | failed, failed | refunded, refunded
  | partially_refunded, partially_refunded => true
  | _, _ => false
  end.

Definition toString (s : t) : string :=
  match s with
  | pending => "pending"
  | processing => "processing"
  | completed => "completed"
  | failed => "failed"
  | refunded => "refunded"
  | partially_refunded => "partially_refunded"
  end.
End PaymentStatus.

Module RefundStatus.
Inductive t : Type := pending | completed | failed.

Definition eqb (a b : t) : bool :=
  match a, b with
  | pending, pending | completed, completed | failed, failed => true
  | _, _ => false
  end.

Definition toString (s : t) : string :=
  match s with
  | pending => "pending" | completed => "completed" | failed => "failed"
  end.
End RefundStatus.

Module WebhookStatus.
Inductive t : Type := pending | sent | failed.

Definition eqb (a b : t) : bool :=
  match a, b with
  | pending, pending | sent, sent | failed, failed => true
  | _, _ => false
  end.
End WebhookStatus.

Module IdempotencyStatus.
Inductive t : Type := processing | completed.
End IdempotencyStatus.

Module Payment.
(** [interface Payment]; [amount] in ten-thousandths. *)
Record t : Type := mk {
  id : string;
  external_id : option string;
  merchant_id : string;
  amount : Z;
  currency : string;
  status : PaymentStatus.t;
  provider : string;
  provider_transaction_id : option string;
  description : option string;
  metadata : Json;
  webhook_url : option string;
  created_at : Z;
  updated_at : Z;
}.

Definition with_status (s : PaymentStatus.t) (now : Z) (p : t) : t :=
  mk (id p) (external_id p) (merchant_id p) (amount p) (currency p) s
     (provider p) (provider_transaction_id p) (description p) (metadata p)
     (webhook_url p) (created_at p) now.

Definition with_provider_transaction_id (x : string) (now : Z) (p : t) : t :=
  mk (id p) (external_id p) (merchant_id p) (amount p) (currency p)
     (status p) (provider p) (Some x) (description p) (metadata p)
     (webhook_url p) (created_at p) now.
End Payment.

Module Transaction.
(** [interface Transaction]; the [status] column holds a payment status. *)
Record t : Type := mk {
  id : string;
  payment_id : string;
  status : PaymentStatus.t;
  provider_response : option Json;
  error_message : option string;
  created_at : Z;
}.
End Transaction.

Module Refund.
(** [interface Refund]; [amount] in ten-thousandths. *)
Record t : Type := mk {
  id : string;
  payment_id : string;
  amount : Z;
  status : RefundStatus.t;
  reason : option string;
  provider_refund_id : option string;
  created_at : Z;
  updated_at : Z;
}.

Definition with_status (s : RefundStatus.t) (now : Z) (r : t) : t :=
  mk (id r) (payment_id r) (amount r) s (reason r) (provider_refund_id r)
     (created_at r) now.

Definition with_provider_refund_id (x : string) (now : Z) (r : t) : t :=
  mk (id r) (payment_id r) (amount r) (status r) (reason r) (Some x)
     (created_at r) now.
End Refund.

Module WebhookEvent.
(** [interface WebhookEvent] of webhook.service.ts *)
Record t : Type := mk {
  id : string;
  payment_id : option string;
  event_type : string;
  payload : Json;
  url : string;
  signature : option string;
  attempts : Z;
  max_attempts : Z;
  next_retry_at : option Z;
  last_error : option string;
  status : WebhookStatus.t;
  created_at : Z;
  sent_at : option Z;
}.
End WebhookEvent.

Module AuditContext.
(** [interface AuditContext] *)
Record t : Type := mk {
  actor : option string;
  actor_type : option string;
  ip_address : option string;
  user_agent : option string;
}.
End AuditContext.

Module AuditLog.
(** A row of [audit_logs]. *)
Record t : Type := mk {
  id : string;
  entity_type : string;
  entity_id : string;
  action : string;
  old_value : option Json;
  new_value : option Json;
  context : option AuditContext.t;
  created_at : Z;
}.
End AuditLog.

Module IdempotencyRecord.
(** [interface IdempotencyRecord] *)
Record t : Type := mk {
  key : string;
  merchant_id : string;
  request_hash : string;
  request_path : string;
  request_method : string;
  response : option Json;
  status_code : option Z;
  status : IdempotencyStatus.t;
  created_at : option Z;
  expires_at : Z;
}.
End IdempotencyRecord.

(** ** Providers, HTTP and configuration (providers/base.provider.ts,
    config/index.ts) *)

Module ProviderStatus.
(** ['pending' | 'completed' | 'failed'] of a provider response *)
Inductive t : Type := pending | completed | failed.
End ProviderStatus.

Module PaymentRequest.
Record t : Type := mk {
  amount : Z;
  currency : string;
  paymentId : string;
  description : option string;
  metadata : option Json;
}.
End PaymentRequest.

Module PaymentResponse.
Record t : Type := mk {
  success : bool;
  transactionId : string;
  status : ProviderStatus.t;
  rawResponse : Json;
  errorCode : option string;
  errorMessage : option string;
}.
End PaymentResponse.

Module RefundRequest.
Record t : Type := mk {
  transactionId : string;
  amount : Number.t;
  reason : option string;
}.
End RefundRequest.

Module RefundResponse.
Record t : Type := mk {
  success : bool;
  refundId : string;
  status : ProviderStatus.t;
  rawResponse : Json;
  errorCode : option string;
  errorMessage : option string;
}.
End RefundResponse.

Module HttpResponse.
(** What the delivery code reads of a [fetch] response. *)
Record t : Type := mk {
  ok : bool;
  status : Z;
  text : string;
}.
End HttpResponse.

Module Url.
(** What the validation reads of a parsed [URL]. *)
Record t : Type := mk {
  protocol : string;
  hostname : string;
}.
End Url.

Module Env.
(** The configuration of a process and the behaviour of what lies outside
    the repository: platform functions ([URL], [crypto], [uuid], [JSON]),
    the remote providers and the merchants' endpoints. A remote answer may
    depend on the number of remote calls made so far, so that two calls
    with equal arguments may be answered differently. *)
Record t : Type := mk {
  isProduction : bool;
  webhook_secret : string;
  maxRetries : Z;
  retryDelays : list Z;
  ttlSeconds : Z;
  uuid : nat -> string;
  parseUrl : string -> option Url.t;
  hmac : string -> string -> string;
  sha256 : string -> string;
  stringify : Json -> string;
  toISOString : Z -> string;
  provider_processPayment :
    string -> nat -> PaymentRequest.t -> Outcome PaymentResponse.t;
  provider_processRefund :
    string -> nat -> RefundRequest.t -> Outcome RefundResponse.t;
  fetch : nat -> WebhookEvent.t -> Outcome HttpResponse.t;
}.
End Env.

(** ** The world: database tables, cache, queue, clock *)

Module World.
Record t : Type := mk {
  payments : list Payment.t;
  transactions : list Transaction.t;
  refunds : list Refund.t;
  webhook_events : list WebhookEvent.t;
  audit_logs : list AuditLog.t;
  idempotency_keys : list IdempotencyRecord.t;
  (** Redis: key to value and instant of expiry *)
  redis : gmap string (IdempotencyRecord.t * Z);
  (** [getChannel()] returns a channel *)
  channel : bool;
  (** webhook ids published to [QUEUES.WEBHOOK_EVENTS] *)
  queue : list string;
  (** pending [setTimeout] callbacks: due instant and webhook id to publish *)
  timers : list (Z * string);
  (** webhook ids for which an HTTP POST was issued, oldest first *)
  deliveries : list string;
  (** [Date.now()] and SQL [NOW()] *)
  now : Z;
  uuid_next : nat;
  remote_calls : nat;
}.

Definition with_payments (x : list Payment.t) (w : t) : t :=
  mk x (transactions w) (refunds w) (webhook_events w) (audit_logs w)
     (idempotency_keys w) (redis w) (channel w) (queue w) (timers w)
     (deliveries w) (now w) (uuid_next w) (remote_calls w).

Definition with_transactions (x : list Transaction.t) (w : t) : t :=
  mk (payments w) x (refunds w) (webhook_events w) (audit_logs w)
     (idempotency_keys w) (redis w) (channel w) (queue w) (timers w)
     (deliveries w) (now w) (uuid_next w) (remote_calls w).

Definition with_refunds (x : list Refund.t) (w : t) : t :=
  mk (payments w) (transactions w) x (webhook_events w) (audit_logs w)
     (idempotency_keys w) (redis w) (channel w) (queue w) (timers w)
     (deliveries w) (now w) (uuid_next w) (remote_calls w).

Definition with_webhook_events (x : list WebhookEvent.t) (w : t) : t :=
  mk (payments w) (transactions w) (refunds w) x (audit_logs w)
     (idempotency_keys w) (redis w) (channel w) (queue w) (timers w)
     (deliveries w) (now w) (uuid_next w) (remote_calls w).

Definition with_audit_logs (x : list AuditLog.t) (w : t) : t :=
  mk (payments w) (transactions w) (refunds w) (webhook_events w) x
     (idempotency_keys w) (redis w) (channel w) (queue w) (timers w)
     (deliveries w) (now w) (uuid_next w) (remote_calls w).

Definition with_idempotency_keys (x : list IdempotencyRecord.t) (w : t) : t :=
  mk (payments w) (transactions w) (refunds w) (webhook_events w)
     (audit_logs w) x (redis w) (channel w) (queue w) (timers w)
     (deliveries w) (now w) (uuid_next w) (remote_calls w).

Definition with_redis (x : gmap string (IdempotencyRecord.t * Z)) (w : t)
  : t :=
  mk (payments w) (transactions w) (refunds w) (webhook_events w)
     (audit_logs w) (idempotency_keys w) x (channel w) (queue w) (timers w)
     (deliveries w) (now w) (uuid_next w) (remote_calls w).

Definition with_queue (x : list string) (w : t) : t :=
  mk (payments w) (transactions w) (refunds w) (webhook_events w)
     (audit_logs w) (idempotency_keys w) (redis w) (channel w) x (timers w)
     (deliveries w) (now w) (uuid_next w) (remote_calls w).

Definition with_timers (x : list (Z * string)) (w : t) : t :=
  mk (payments w) (transactions w) (refunds w) (webhook_events w)
     (audit_logs w) (idempotency_keys w) (redis w) (channel w) (queue w) x
     (deliveries w) (now w) (uuid_next w) (remote_calls w).

Definition with_deliveries (x : list string) (w : t) : t :=
  mk (payments w) (transactions w) (refunds w) (webhook_events w)
     (audit_logs w) (idempotency_keys w) (redis w) (channel w) (queue w)
     (timers w) x (now w) (uuid_next w) (remote_calls w).

Definition with_uuid_next (x : nat) (w : t) : t :=
  mk (payments w) (transactions w) (refunds w) (webhook_events w)
     (audit_logs w) (idempotency_keys w) (redis w) (channel w) (queue w)
     (timers w) (deliveries w) (now w) x (remote_calls w).

Definition with_remote_calls (x : nat) (w : t) : t :=
  mk (payments w) (transactions w) (refunds w) (webhook_events w)
     (audit_logs w) (idempotency_keys w) (redis w) (channel w) (queue w)
     (timers w) (deliveries w) (now w) (uuid_next w) x.

(** The clock moves between operations. *)
Definition with_now (x : Z) (w : t) : t :=
  mk (payments w) (transactions w) (refunds w) (webhook_events w)
     (audit_logs w) (idempotency_keys w) (redis w) (channel w) (queue w)
     (timers w) (deliveries w) x (uuid_next w) (remote_calls w).
End World.

(** ** db/connection.ts *)

Module Db.

(** [uuidv4()] *)
Definition uuidv4 (env : Env.t) : M World.t string :=
  fun w =>
    (Returned (Env.uuid env (World.uuid_next w)),
     World.with_uuid_next (S (World.uuid_next w)) w).

(** The next answer of a remote party. *)
Definition remote {A} (answer : nat -> Outcome A) : M World.t A :=
  fun w =>
    (answer (World.remote_calls w),
     World.with_remote_calls (S (World.remote_calls w)) w).

(** What [ROLLBACK] restores: the tables written through the transaction's
    client. Rows written through the pool (the webhook events), published
    messages and the counters stay. *)
Definition rollback (before after : World.t) : World.t :=
  World.with_payments (World.payments before)
    (World.with_transactions (World.transactions before)
       (World.with_refunds (World.refunds before)
          (World.with_audit_logs (World.audit_logs before)
             (World.with_idempotency_keys (World.idempotency_keys before)
                after)))).

(** [withTransaction(callback)]: commit on return, roll back and rethrow on
    a throw. *)
Definition withTransaction {A} (callback : M World.t A) : M World.t A :=
  fun w =>
    match callback w with
    | (Returned result, w') => (Returned result, w')
    | (Threw error, w') => (Threw error, rollback w w')
    end.

(** [withLock(lockKey, callback)]: the advisory lock orders concurrent
    callers; for one caller it is [withTransaction]. *)
Definition withLock {A} (lockKey : string) (callback : M World.t A)
  : M World.t A :=
  withTransaction callback.

End Db.

(** ** models/payment.ts *)

Module PaymentModel.

Record CreatePaymentInput : Type := mkCreate {
  external_id : option string;
  merchant_id : string;
  amount : Z;
  currency : string;
  provider : string;
  description : option string;
  metadata : option Json;
  webhook_url : option string;
}.

(** [interface UpdatePaymentInput]; the services never pass [metadata]. *)
Record UpdatePaymentInput : Type := mkUpdate {
  status : option PaymentStatus.t;
  provider_transaction_id : option string;
}.

Definition has_id (id : string) (p : Payment.t) : bool :=
  String.eqb (Payment.id p) id.

Definition has_external_id (e : string) (p : Payment.t) : bool :=
  match Payment.external_id p with
  | Some e' => String.eqb e' e
  | None => false
  end.

(** [createPayment]: the [INSERT] fails on the primary key [id], on the
    [UNIQUE] constraint of [external_id] and on [CHECK (amount > 0)]. *)
Definition createPayment (env : Env.t) (input : CreatePaymentInput)
  : M World.t Payment.t :=
  do id <- Db.uuidv4 env;
  fun w =>
    let external := Str.truthy (external_id input) in
    let duplicate :=
      existsb (has_id id) (World.payments w)
      || match external with
         | Some e => existsb (has_external_id e) (World.payments w)
         | None => false
         end in
    if duplicate then
      (Threw (ErrorObject "error"
                "duplicate key value violates unique constraint"), w)
    else if (amount input <=? 0)%Z then
      (Threw (ErrorObject "error"
                "new row violates check constraint"), w)
    else
      let row :=
        {| Payment.id := id;
           Payment.external_id := external;
           Payment.merchant_id := merchant_id input;
           Payment.amount := amount input;
           Payment.currency := Str.toUpperCase (currency input);
           Payment.status := PaymentStatus.pending;
           Payment.provider := Str.toLowerCase (provider input);
           Payment.provider_transaction_id := None;
           Payment.description := Str.truthy (description input);
           Payment.metadata :=
             match metadata input with Some m => m | None => JObject [] end;
           Payment.webhook_url := Str.truthy (webhook_url input);
           Payment.created_at := World.now w;
           Payment.updated_at := World.now w |} in
      (Returned row, World.with_payments (World.payments w ++ [row]) w).

(** [getPaymentById] *)
Definition getPaymentById (id : string) : M World.t (option Payment.t) :=
  fun w => (Returned (find (has_id id) (World.payments w)), w).

(** The [SET] clause built by [updatePayment]. *)
Definition apply_update (input : UpdatePaymentInput) (now : Z)
    (p : Payment.t) : Payment.t :=
  let p1 :=
    match status input with
    | Some s => Payment.with_status s now p
    | None => p
    end in
  match provider_transaction_id input with
  | Some x => Payment.with_provider_transaction_id x now p1
  | None => p1
  end.

(** [UPDATE payments SET ... WHERE id = $n] *)
Definition update_where_id (id : string) (f : Payment.t -> Payment.t)
    (rows : list Payment.t) : list Payment.t :=
  map (fun p => if has_id id p then f p else p) rows.

(** [updatePayment] *)
Definition updatePayment (id : string) (input : UpdatePaymentInput)
  : M World.t (option Payment.t) :=
  match status input, provider_transaction_id input with
  | None, None => getPaymentById id
  | _, _ =>
      fun w =>
        let rows :=
          update_where_id id (apply_update input (World.now w))
            (World.payments w) in
        (Returned (find (has_id id) rows), World.with_payments rows w)
  end.

End PaymentModel.

(** ** models/transaction.ts *)

Module TransactionModel.

Record CreateTransactionInput : Type := mkCreate {
  payment_id : string;
  status : PaymentStatus.t;
  provider_response : option Json;
  error_message : option string;
}.

(** [createTransaction] *)
Definition createTransaction (env : Env.t) (input : CreateTransactionInput)
  : M World.t Transaction.t :=
  do id <- Db.uuidv4 env;
  fun w =>
    let row :=
      {| Transaction.id := id;
         Transaction.payment_id := payment_id input;
         Transaction.status := status input;
         Transaction.provider_response := provider_response input;
         Transaction.error_message := Str.truthy (error_message input);
         Transaction.created_at := World.now w |} in
    (Returned row, World.with_transactions (World.transactions w ++ [row]) w).

End TransactionModel.

(** ** models/refund.ts *)

Module RefundModel.

Record CreateRefundInput : Type := mkCreate {
  payment_id : string;
  amount : Number.t;
  reason : option string;
}.

Record UpdateRefundInput : Type := mkUpdate {
  status : option RefundStatus.t;
  provider_refund_id : option string;
}.

Definition has_id (id : string) (r : Refund.t) : bool :=
  String.eqb (Refund.id r) id.

(** [createRefund]: the [amount] is a [number], of which the column
    stores the rounding to four decimals; the [INSERT] fails on a value
    the column cannot take, on the primary key [id] and on
    [CHECK (amount > 0)]. *)
Definition createRefund (env : Env.t) (input : CreateRefundInput)
  : M World.t Refund.t :=
  do id <- Db.uuidv4 env;
  fun w =>
    match Number.toDecimal (amount input) with
    | None => (Threw (ErrorObject "error" "numeric field overflow"), w)
    | Some stored =>
        if existsb (has_id id) (World.refunds w) then
          (Threw (ErrorObject "error"
                    "duplicate key value violates unique constraint"), w)
        else if (stored <=? 0)%Z then
          (Threw (ErrorObject "error" "new row violates check constraint"),
           w)
        else
          let row :=
            {| Refund.id := id;
               Refund.payment_id := payment_id input;
               Refund.amount := stored;
               Refund.status := RefundStatus.pending;
               Refund.reason := Str.truthy (reason input);
               Refund.provider_refund_id := None;
               Refund.created_at := World.now w;
               Refund.updated_at := World.now w |} in
          (Returned row, World.with_refunds (World.refunds w ++ [row]) w)
    end.

(** [getRefundById], also the [SELECT * FROM refunds WHERE id = $1] of the
    service *)
Definition getRefundById (id : string) : M World.t (option Refund.t) :=
  fun w => (Returned (find (has_id id) (World.refunds w)), w).

Definition apply_update (input : UpdateRefundInput) (now : Z) (r : Refund.t)
  : Refund.t :=
  let r1 :=
    match status input with
    | Some s => Refund.with_status s now r
    | None => r
    end in
  match provider_refund_id input with
  | Some x => Refund.with_provider_refund_id x now r1
  | None => r1
  end.

(** [updateRefund] *)
Definition updateRefund (id : string) (input : UpdateRefundInput)
  : M World.t (option Refund.t) :=
  match status input, provider_refund_id input with
  | None, None => getRefundById id
  | _, _ =>
      fun w =>
        let rows :=
          map (fun r =>
                 if has_id id r then apply_update input (World.now w) r
                 else r)
            (World.refunds w) in
        (Returned (find (has_id id) rows), World.with_refunds rows w)
  end.

(** [SELECT COALESCE(SUM(amount), 0) FROM refunds
     WHERE payment_id = $1 AND status = $2] *)
Definition sum_amount (paymentId : string) (s : RefundStatus.t)
    (rows : list Refund.t) : Z :=
  fold_right Z.add 0%Z
    (map Refund.amount
       (List.filter (fun r =>
                  String.eqb (Refund.payment_id r) paymentId
                  && RefundStatus.eqb (Refund.status r) s) rows)).

(** [getTotalRefundedAmount]: [parseFloat] of the sum, which the server
    computes exactly and sends as text. *)
Definition getTotalRefundedAmount (paymentId : string)
  : M World.t Number.t :=
  fun w =>
    (Returned
       (Number.ofDecimal
          (sum_amount paymentId RefundStatus.completed (World.refunds w))),
     w).

(** [getPendingRefundsAmount] *)
Definition getPendingRefundsAmount (paymentId : string)
  : M World.t Number.t :=
  fun w =>
    (Returned
       (Number.ofDecimal
          (sum_amount paymentId RefundStatus.pending (World.refunds w))),
     w).

End RefundModel.

(** ** services/audit.service.ts *)

Module AuditService.

(** [auditService.log]: the caught error is rethrown, so the [try] block is
    the insertion itself. *)
Definition log (env : Env.t) (entityType entityId action : string)
    (oldValue newValue : option Json) (context : option AuditContext.t)
  : M World.t AuditLog.t :=
  do id <- Db.uuidv4 env;
  fun w =>
    let row :=
      {| AuditLog.id := id;
         AuditLog.entity_type := entityType;
         AuditLog.entity_id := entityId;
         AuditLog.action := action;
         AuditLog.old_value := oldValue;
         AuditLog.new_value := newValue;
         AuditLog.context := context;
         AuditLog.created_at := World.now w |} in
    (Returned row, World.with_audit_logs (World.audit_logs w ++ [row]) w).

Definition status_object (s : string) : Json := JObject [("status", JString s)].

Definition logPaymentCreated (env : Env.t) (paymentId : string)
    (paymentData : Json) (context : option AuditContext.t)
  : M World.t AuditLog.t :=
  log env "payment" paymentId "created" None (Some paymentData) context.

Definition logPaymentStatusChanged (env : Env.t) (paymentId : string)
    (oldStatus newStatus : string) (context : option AuditContext.t)
  : M World.t AuditLog.t :=
  log env "payment" paymentId "status_changed"
    (Some (status_object oldStatus)) (Some (status_object newStatus)) context.

Definition logRefundCreated (env : Env.t) (refundId : string)
    (refundData : Json) (context : option AuditContext.t)
  : M World.t AuditLog.t :=
  log env "refund" refundId "created" None (Some refundData) context.

Definition logRefundStatusChanged (env : Env.t) (refundId : string)
    (oldStatus newStatus : string) (context : option AuditContext.t)
  : M World.t AuditLog.t :=
  log env "refund" refundId "status_changed"
    (Some (status_object oldStatus)) (Some (status_object newStatus)) context.

End AuditService.

(** ** services/webhook.service.ts *)

Module WebhookService.

(** [BLOCKED_HOSTS] *)
Definition BLOCKED_HOSTS : list string :=
  [ "localhost"; "127.0.0.1"; "0.0.0.0"; "::1"; "[::1]";
    "metadata.google.internal"; "169.254.169.254";
    "metadata.google.internal." ].

(** [ALLOWED_PROTOCOLS] *)
Definition ALLOWED_PROTOCOLS (env : Env.t) : list string :=
  if Env.isProduction env then ["https:"] else ["https:"; "http:"].

Definition includes (x : string) (l : list string) : bool :=
  existsb (String.eqb x) l.

Definition is_digit_between (lo hi : nat) (c : ascii) : bool :=
  let n := nat_of_ascii c in
  (48 + lo <=? n)%nat && (n <=? 48 + hi)%nat.

(** [/^172\.(1[6-9]|2[0-9]|3[0-1])\./] *)
Definition matches_172 (hostname : string) : bool :=
  match hostname with
  | String "1" (String "7" (String "2" (String "."
      (String a (String b (String "." _)))))) =>
      (Ascii.eqb a "1" && is_digit_between 6 9 b)
      || (Ascii.eqb a "2" && is_digit_between 0 9 b)
      || (Ascii.eqb a "3" && is_digit_between 0 1 b)
  | _ => false
  end.

(** A pattern [/^literal/i] *)
Definition matches_prefix_i (literal hostname : string) : bool :=
  Str.startsWith (Str.toLowerCase literal) (Str.toLowerCase hostname).

(** [isPrivateIP]: [privateRanges.some(range => range.test(hostname))] *)
Definition isPrivateIP (hostname : string) : bool :=
  existsb (fun range => range hostname)
    [ Str.startsWith "10.";
      matches_172;
      Str.startsWith "192.168.";
      Str.startsWith "169.254.";
      matches_prefix_i "fc00:";
      matches_prefix_i "fd00:";
      matches_prefix_i "fe80:" ].

Record Validation : Type := mkValidation {
  valid : bool;
  error : option string;
}.

(** The body of the [try] block of [validateWebhookUrl] after
    [new URL(urlString)] returned [url]. *)
Definition validateParsedUrl (env : Env.t) (url : Url.t) : Validation :=
  if negb (includes (Url.protocol url) (ALLOWED_PROTOCOLS env)) then
    {| valid := false;
       error :=
         Some ("Invalid protocol: " +:+ Url.protocol url +:+ ". Only "
                 +:+ String.concat ", " (ALLOWED_PROTOCOLS env)
                 +:+ " allowed.") |}
  else
    let hostname := Str.toLowerCase (Url.hostname url) in
    if includes hostname BLOCKED_HOSTS then
      {| valid := false; error := Some ("Blocked host: " +:+ hostname) |}
    else if isPrivateIP hostname then
      {| valid := false;
         error := Some ("Private IP addresses not allowed: " +:+ hostname) |}
    else if Str.endsWith ".internal" hostname
            || Str.endsWith ".local" hostname then
      {| valid := false;
         error := Some ("Internal domains not allowed: " +:+ hostname) |}
    else {| valid := true; error := None |}.

(** [validateWebhookUrl]; [new URL] throws on a string that does not
    parse. *)
Definition validateWebhookUrl (env : Env.t) (urlString : string)
  : Validation :=
  match Env.parseUrl env urlString with
  | Some url => validateParsedUrl env url
  | None =>
      {| valid := false; error := Some "Invalid URL format: Invalid URL" |}
  end.

Record QueueWebhookInput : Type := mkInput {
  payment_id : option string;
  event_type : string;
  url : string;
  payload : list (string * Json);
}.

Definition has_id (id : string) (e : WebhookEvent.t) : bool :=
  String.eqb (WebhookEvent.id e) id.

(** [generateSignature] *)
Definition generateSignature (env : Env.t) (payload : string)
  : M World.t string :=
  fun w =>
    let timestamp := Str.ofZ (World.now w / 1000) in
    let signature :=
      Env.hmac env (timestamp +:+ "." +:+ payload) (Env.webhook_secret env) in
    (Returned ("t=" +:+ timestamp +:+ ",v1=" +:+ signature), w).

(** [publishToQueue] *)
Definition publishToQueue (webhook : WebhookEvent.t) : M World.t unit :=
  fun w =>
    if World.channel w then
      (Returned tt,
       World.with_queue (World.queue w ++ [WebhookEvent.id webhook]) w)
    else (Returned tt, w).

(** The [INSERT INTO webhook_events ... RETURNING *] of [queueWebhook];
    [attempts], [status] and [created_at] take their column defaults. *)
Definition insert_event (row : WebhookEvent.t) : M World.t WebhookEvent.t :=
  fun w =>
    (Returned row,
     World.with_webhook_events (World.webhook_events w ++ [row]) w).

(** [queueWebhook] *)
Definition queueWebhook (env : Env.t) (input : QueueWebhookInput)
  : M World.t WebhookEvent.t :=
  let urlValidation := validateWebhookUrl env (url input) in
  if negb (valid urlValidation) then
    throw (ErrorObject "WebhookUrlValidationError"
             (match Str.truthy (error urlValidation) with
              | Some e => e
              | None => "Invalid webhook URL"
              end))
  else
    do id <- Db.uuidv4 env;
    do w <- get;
    let payloadWithTimestamp :=
      JObject
        (JsonObject.set "timestamp"
           (JString (Env.toISOString env (World.now w)))
           (JsonObject.set "event_type" (JString (event_type input))
              (payload input))) in
    let payloadString := Env.stringify env payloadWithTimestamp in
    do signature <- generateSignature env payloadString;
    do webhook <-
      insert_event
        {| WebhookEvent.id := id;
           WebhookEvent.payment_id := Str.truthy (payment_id input);
           WebhookEvent.event_type := event_type input;
           WebhookEvent.payload := payloadWithTimestamp;
           WebhookEvent.url := url input;
           WebhookEvent.signature := Some signature;
           WebhookEvent.attempts := 0;
           WebhookEvent.max_attempts := Env.maxRetries env;
           WebhookEvent.next_retry_at := None;
           WebhookEvent.last_error := None;
           WebhookEvent.status := WebhookStatus.pending;
           WebhookEvent.created_at := World.now w;
           WebhookEvent.sent_at := None |};
    publishToQueue webhook ;;
    ret webhook.

(** [getWebhookById] *)
Definition getWebhookById (id : string) : M World.t (option WebhookEvent.t) :=
  fun w => (Returned (find (has_id id) (World.webhook_events w)), w).

(** [UPDATE webhook_events SET ... WHERE id = $n] *)
Definition update_where_id (id : string)
    (f : WebhookEvent.t -> WebhookEvent.t) : M World.t unit :=
  fun w =>
    (Returned tt,
     World.with_webhook_events
       (map (fun e => if has_id id e then f e else e)
          (World.webhook_events w)) w).

(** [sendWebhook]: one HTTP POST to the event's URL. *)
Definition sendWebhook (env : Env.t) (webhook : WebhookEvent.t)
  : M World.t HttpResponse.t :=
  modify (fun w =>
            World.with_deliveries
              (World.deliveries w ++ [WebhookEvent.id webhook]) w) ;;
  Db.remote (fun n => Env.fetch env n webhook).

(** [markAsSent] *)
Definition markAsSent (webhookId : string) : M World.t unit :=
  do w <- get;
  update_where_id webhookId
    (fun e =>
       WebhookEvent.mk (WebhookEvent.id e) (WebhookEvent.payment_id e)
         (WebhookEvent.event_type e) (WebhookEvent.payload e)
         (WebhookEvent.url e) (WebhookEvent.signature e)
         (WebhookEvent.attempts e) (WebhookEvent.max_attempts e)
         (WebhookEvent.next_retry_at e) (WebhookEvent.last_error e)
         WebhookStatus.sent (WebhookEvent.created_at e)
         (Some (World.now w))).

(** [this.retryDelays[Math.min(newAttempts - 1, this.retryDelays.length - 1)]
     || 3600000]: an index outside the array gives [undefined], and
    [undefined] and [0] fall back to one hour. *)
Definition retryDelay (retryDelays : list Z) (newAttempts : Z) : Z :=
  let index := Z.min (newAttempts - 1) (Z.of_nat (length retryDelays) - 1) in
  let entry :=
    if (index <? 0)%Z then None else retryDelays !! Z.to_nat index in
  match entry with
  | Some delay => if (delay =? 0)%Z then 3600000%Z else delay
  | None => 3600000%Z
  end.

(** [handleFailure] *)
Definition handleFailure (env : Env.t) (webhook : WebhookEvent.t)
    (errorMessage : string) : M World.t unit :=
  let newAttempts := (WebhookEvent.attempts webhook + 1)%Z in
  if (WebhookEvent.max_attempts webhook <=? newAttempts)%Z then
    update_where_id (WebhookEvent.id webhook)
      (fun e =>
         WebhookEvent.mk (WebhookEvent.id e) (WebhookEvent.payment_id e)
           (WebhookEvent.event_type e) (WebhookEvent.payload e)
           (WebhookEvent.url e) (WebhookEvent.signature e)
           newAttempts (WebhookEvent.max_attempts e)
           (WebhookEvent.next_retry_at e) (Some errorMessage)
           WebhookStatus.failed (WebhookEvent.created_at e)
           (WebhookEvent.sent_at e))
  else
    let delay := retryDelay (Env.retryDelays env) newAttempts in
    do w <- get;
    let nextRetryAt := (World.now w + delay)%Z in
    update_where_id (WebhookEvent.id webhook)
      (fun e =>
         WebhookEvent.mk (WebhookEvent.id e) (WebhookEvent.payment_id e)
           (WebhookEvent.event_type e) (WebhookEvent.payload e)
           (WebhookEvent.url e) (WebhookEvent.signature e)
           newAttempts (WebhookEvent.max_attempts e)
           (Some nextRetryAt) (Some errorMessage)
           (WebhookEvent.status e) (WebhookEvent.created_at e)
           (WebhookEvent.sent_at e)) ;;
    modify (fun w =>
              if World.channel w then
                World.with_timers
                  (World.timers w
                     ++ [((World.now w + delay)%Z, WebhookEvent.id webhook)])
                  w
              else w).

(** [processWebhook] *)
Definition processWebhook (env : Env.t) (webhookId : string)
  : M World.t bool :=
  do found <- getWebhookById webhookId;
  match found with
  | None => ret false
  | Some webhook =>
      match WebhookEvent.status webhook with
      | WebhookStatus.sent => ret true
      | WebhookStatus.failed => ret false
      | WebhookStatus.pending =>
          try_catch
            (do response <- sendWebhook env webhook;
             if HttpResponse.ok response then
               markAsSent webhookId ;; ret true
             else
               throw (ErrorObject "Error"
                        ("HTTP " +:+ Str.ofZ (HttpResponse.status response)
                           +:+ ": " +:+ HttpResponse.text response)))
            (fun error =>
               handleFailure env webhook (messageOf error) ;; ret false)
      end
  end.

(** The rows selected by [retryPendingWebhooks]; the table is kept in order
    of creation. *)
Definition due (now : Z) (e : WebhookEvent.t) : bool :=
  WebhookStatus.eqb (WebhookEvent.status e) WebhookStatus.pending
  && match WebhookEvent.next_retry_at e with
     | None => true
     | Some t => (t <=? now)%Z
     end
  && (WebhookEvent.attempts e <? WebhookEvent.max_attempts e)%Z.

Fixpoint publishAll (rows : list WebhookEvent.t) (processed : Z)
  : M World.t Z :=
  match rows with
  | [] => ret processed
  | webhook :: rest =>
      publishToQueue webhook ;; publishAll rest (processed + 1)%Z
  end.

(** [retryPendingWebhooks] *)
Definition retryPendingWebhooks : M World.t Z :=
  do w <- get;
  publishAll (take 100 (List.filter (due (World.now w)) (World.webhook_events w)))
    0%Z.

End WebhookService.

(** ** providers/index.ts *)

Module Providers.

(** The keys of the [providers] record. *)
Definition getSupportedProviders : list string := ["stripe"; "paypal"].

(** [getProvider]: the registered name, or a [ProviderError]. *)
Definition getProvider {W} (name : string) : M W string :=
  let key := Str.toLowerCase name in
  if WebhookService.includes key getSupportedProviders then ret key
  else throw (ErrorObject "ProviderError" ("Unknown provider: " +:+ name)).

End Providers.

(** ** Transactions that hold row locks (db/connection.ts and the schema)

    [SELECT ... FOR UPDATE] through the client of a transaction locks the
    selected rows until [COMMIT] or [ROLLBACK]. A statement sent through
    the pool runs in another session. The [INSERT INTO webhook_events] of
    [queueWebhook] goes through the pool; the column [payment_id]
    [REFERENCES payments(id)], and to check that reference the server takes
    a key-share lock on the payment row, which waits for a [FOR UPDATE]
    lock of another session. When the transaction that holds the lock is
    the one that awaits the insertion, the insertion waits for the end of
    the transaction and the transaction for the answer of the insertion: no
    time-out is configured, and the call does not return. *)

Module Tx.

(** How an awaited call ends: it returns or throws, or it waits for a lock
    that is not released. *)
Inductive Run (S A : Type) : Type :=
| Ends (outcome : Outcome A) (s : S)
| Waits (s : S).
Arguments Ends {S A} outcome s.
Arguments Waits {S A} s.

(** The state a call leaves behind. *)
Definition after {S A} (run : Run S A) : S :=
  match run with
  | Ends _ s => s
  | Waits s => s
  end.

(** A computation that may wait, over a state [S]. *)
Definition C (S A : Type) : Type := S -> Run S A.

Definition ret {S A} (a : A) : C S A := fun s => Ends (Returned a) s.

Definition throw {S A} (e : Thrown) : C S A := fun s => Ends (Threw e) s.

Definition bind {S A B} (m : C S A) (k : A -> C S B) : C S B :=
  fun s =>
    match m s with
    | Ends (Returned a) s' => k a s'
    | Ends (Threw e) s' => Ends (Threw e) s'
    | Waits s' => Waits s'
    end.

Definition try_catch {S A} (m : C S A) (handler : Thrown -> C S A)
  : C S A :=
  fun s =>
    match m s with
    | Ends (Returned a) s' => Ends (Returned a) s'
    | Ends (Threw e) s' => handler e s'
    | Waits s' => Waits s'
    end.

(** A computation that waits for nothing. *)
Definition call {S A} (m : M S A) : C S A :=
  fun s => let '(outcome, s') := m s in Ends outcome s'.

(** The state inside the callback of [withTransaction]: the world, and the
    ids of the payment rows its client has locked [FOR UPDATE]. *)
Record State : Type := mkState {
  world : World.t;
  locked : list string;
}.

(** A computation inside the callback. *)
Definition T (A : Type) : Type := C State A.

(** A computation that takes no lock and waits for none: a statement
    through the client of the transaction, a call of a provider. *)
Definition lift {A} (m : M World.t A) : T A :=
  fun s =>
    let '(outcome, w') := m (world s) in
    Ends outcome (mkState w' (locked s)).

(** [client.query('SELECT * FROM payments WHERE ... FOR UPDATE')]: the
    selected rows, which stay locked. *)
Definition select_for_update (selected : Payment.t -> bool)
  : T (list Payment.t) :=
  fun s =>
    let rows := List.filter selected (World.payments (world s)) in
    Ends (Returned rows)
      (mkState (world s) (map Payment.id rows ++ locked s)%list).

(** The [INSERT INTO webhook_events] of [queueWebhook], through the pool:
    it waits when the row of its [payment_id] is locked. *)
Definition insert_event (row : WebhookEvent.t) : T WebhookEvent.t :=
  fun s =>
    match WebhookEvent.payment_id row with
    | Some id =>
        if existsb (String.eqb id) (locked s) then Waits s
        else lift (WebhookService.insert_event row) s
    | None => lift (WebhookService.insert_event row) s
    end.

End Tx.

Declare Scope tx_scope.
Delimit Scope tx_scope with tx.
Notation "'do' x <- m ; k" := (Tx.bind m (fun x => k))
  (at level 10, x name, m at level 100, k at level 200) : tx_scope.
Notation "m ;; k" := (Tx.bind m (fun _ => k))
  (at level 100, k at level 200, right associativity) : tx_scope.

Module Locking.

(** [webhookService.queueWebhook], awaited inside a transaction: the
    function of webhook.service.ts, its insertion subject to the locks. *)
Definition queueWebhook (env : Env.t)
    (input : WebhookService.QueueWebhookInput) : Tx.T WebhookEvent.t :=
  let urlValidation :=
    WebhookService.validateWebhookUrl env (WebhookService.url input) in
  if negb (WebhookService.valid urlValidation) then
    Tx.throw (ErrorObject "WebhookUrlValidationError"
                (match Str.truthy (WebhookService.error urlValidation) with
                 | Some e => e
                 | None => "Invalid webhook URL"
                 end))
  else
    (do id <- Tx.lift (Db.uuidv4 env);
     do w <- Tx.lift get;
     let payloadWithTimestamp :=
       JObject
         (JsonObject.set "timestamp"
            (JString (Env.toISOString env (World.now w)))
            (JsonObject.set "event_type"
               (JString (WebhookService.event_type input))
               (WebhookService.payload input))) in
     let payloadString := Env.stringify env payloadWithTimestamp in
     do signature <-
       Tx.lift (WebhookService.generateSignature env payloadString);
     do webhook <-
       Tx.insert_event
         {| WebhookEvent.id := id;
            WebhookEvent.payment_id :=
              Str.truthy (WebhookService.payment_id input);
            WebhookEvent.event_type := WebhookService.event_type input;
            WebhookEvent.payload := payloadWithTimestamp;
            WebhookEvent.url := WebhookService.url input;
            WebhookEvent.signature := Some signature;
            WebhookEvent.attempts := 0;
            WebhookEvent.max_attempts := Env.maxRetries env;
            WebhookEvent.next_retry_at := None;
            WebhookEvent.last_error := None;
            WebhookEvent.status := WebhookStatus.pending;
            WebhookEvent.created_at := World.now w;
            WebhookEvent.sent_at := None |};
     Tx.lift (WebhookService.publishToQueue webhook) ;;
     Tx.ret webhook)%tx.

(** [withTransaction(callback)] for a callback that locks rows: commit on
    return, roll back and rethrow on a throw. While the callback waits
    nothing is committed, and the other sessions see the tables as they
    were. *)
Definition withTransaction {A} (callback : Tx.T A) : Tx.C World.t A :=
  fun w =>
    match callback (Tx.mkState w []) with
    | Tx.Ends (Returned result) s => Tx.Ends (Returned result) (Tx.world s)
    | Tx.Ends (Threw error) s =>
        Tx.Ends (Threw error) (Db.rollback w (Tx.world s))
    | Tx.Waits s => Tx.Waits (Db.rollback w (Tx.world s))
    end.

End Locking.

(** ** services/payment.service.ts *)

Module PaymentService.

Record ProcessPaymentInput : Type := mkInput {
  external_id : option string;
  merchant_id : string;
  amount : Z;
  currency : string;
  provider : string;
  description : option string;
  metadata : option Json;
  webhook_url : option string;
}.

Record ProcessPaymentResult : Type := mkResult {
  payment : option Payment.t;
  success : bool;
  error : option string;
}.

Module Ctx.
(** [interface PaymentSagaContext] *)
Record t : Type := mk {
  input : ProcessPaymentInput;
  payment : option Payment.t;
  providerResponse : option Json;
  auditContext : option AuditContext.t;
}.
End Ctx.

Definition PaymentValidationError (message : string) : Thrown :=
  ErrorObject "PaymentValidationError" message.

Definition validCurrencies : list string :=
  [ "USD"; "EUR"; "GBP"; "JPY"; "CAD"; "AUD"; "CHF"; "CNY"; "HKD"; "NZD";
    "SEK"; "KRW"; "SGD"; "NOK"; "MXN"; "INR"; "RUB"; "ZAR"; "TRY"; "BRL";
    "TWD"; "DKK"; "PLN"; "THB"; "IDR"; "HUF"; "CZK"; "ILS"; "CLP"; "PHP";
    "AED"; "COP"; "SAR"; "MYR"; "RON"; "BGN"; "HRK"; "ISK" ].

(** The status written by step 2:
    [response.success ? (response.status === 'completed' ? 'completed'
     : 'pending') : 'failed'] *)
Definition newStatus (response : PaymentResponse.t) : PaymentStatus.t :=
  if PaymentResponse.success response then
    match PaymentResponse.status response with
    | ProviderStatus.completed => PaymentStatus.completed
    | _ => PaymentStatus.pending
    end
  else PaymentStatus.failed.

Definition payment_payload (p : Payment.t) : list (string * Json) :=
  [ ("id", JString (Payment.id p));
    ("external_id", JsonObject.ofOption (Payment.external_id p));
    ("amount", JNumber (Payment.amount p));
    ("currency", JString (Payment.currency p));
    ("status", JString (PaymentStatus.toString (Payment.status p)));
    ("provider", JString (Payment.provider p));
    ("provider_transaction_id",
     JsonObject.ofOption (Payment.provider_transaction_id p));
    ("created_at", JNumber (Payment.created_at p)) ].

(** Step 1, [create_payment_record] *)
Definition create_payment_record (env : Env.t)
  : SagaStep.t World.t Ctx.t :=
  {| SagaStep.name := "create_payment_record";
     SagaStep.execute := fun ctx =>
       let input := Ctx.input ctx in
       do payment <-
         PaymentModel.createPayment env
           {| PaymentModel.external_id := external_id input;
              PaymentModel.merchant_id := merchant_id input;
              PaymentModel.amount := amount input;
              PaymentModel.currency := currency input;
              PaymentModel.provider := provider input;
              PaymentModel.description := description input;
              PaymentModel.metadata := metadata input;
              PaymentModel.webhook_url := webhook_url input |};
       TransactionModel.createTransaction env
         {| TransactionModel.payment_id := Payment.id payment;
            TransactionModel.status := PaymentStatus.pending;
            TransactionModel.provider_response :=
              Some (JObject [("message", JString "Payment created")]);
            TransactionModel.error_message := None |} ;;
       AuditService.logPaymentCreated env (Payment.id payment)
         (JObject [ ("amount", JNumber (Payment.amount payment));
                    ("currency", JString (Payment.currency payment));
                    ("provider", JString (Payment.provider payment)) ])
         (Ctx.auditContext ctx) ;;
       ret (Ctx.mk (Ctx.input ctx) (Some payment) (Ctx.providerResponse ctx)
              (Ctx.auditContext ctx));
     SagaStep.compensate := Some (fun ctx =>
       match Ctx.payment ctx with
       | Some payment =>
           PaymentModel.updatePayment (Payment.id payment)
             {| PaymentModel.status := Some PaymentStatus.failed;
                PaymentModel.provider_transaction_id := None |} ;;
           AuditService.logPaymentStatusChanged env (Payment.id payment)
             "pending" "failed" (Ctx.auditContext ctx) ;;
           ret tt
       | None => ret tt
       end) |}.

(** Step 2, [process_with_provider] *)
Definition process_with_provider (env : Env.t)
  : SagaStep.t World.t Ctx.t :=
  {| SagaStep.name := "process_with_provider";
     SagaStep.execute := fun ctx =>
       match Ctx.payment ctx with
       | None => throw (ErrorObject "Error" "Payment not found in context")
       | Some payment =>
           let input := Ctx.input ctx in
           PaymentModel.updatePayment (Payment.id payment)
             {| PaymentModel.status := Some PaymentStatus.processing;
                PaymentModel.provider_transaction_id := None |} ;;
           TransactionModel.createTransaction env
             {| TransactionModel.payment_id := Payment.id payment;
                TransactionModel.status := PaymentStatus.processing;
                TransactionModel.provider_response := None;
                TransactionModel.error_message := None |} ;;
           do provider <- Providers.getProvider (provider input);
           do response <-
             Db.remote (fun n =>
               Env.provider_processPayment env provider n
                 {| PaymentRequest.amount := amount input;
                    PaymentRequest.currency := currency input;
                    PaymentRequest.paymentId := Payment.id payment;
                    PaymentRequest.description := description input;
                    PaymentRequest.metadata := metadata input |});
           let newStatus := newStatus response in
           do updated <-
             PaymentModel.updatePayment (Payment.id payment)
               {| PaymentModel.status := Some newStatus;
                  PaymentModel.provider_transaction_id :=
                    Some (PaymentResponse.transactionId response) |};
           TransactionModel.createTransaction env
             {| TransactionModel.payment_id := Payment.id payment;
                TransactionModel.status := newStatus;
                TransactionModel.provider_response :=
                  Some (PaymentResponse.rawResponse response);
                TransactionModel.error_message :=
                  PaymentResponse.errorMessage response |} ;;
           AuditService.logPaymentStatusChanged env (Payment.id payment)
             "processing" (PaymentStatus.toString newStatus)
             (Ctx.auditContext ctx) ;;
           ret (Ctx.mk (Ctx.input ctx)
                  (Some (match updated with
                         | Some u => u
                         | None => payment
                         end))
                  (Some (PaymentResponse.rawResponse response))
                  (Ctx.auditContext ctx))
       end;
     SagaStep.compensate := None |}.

(** Step 3, [send_webhook] *)
Definition send_webhook (env : Env.t) : SagaStep.t World.t Ctx.t :=
  {| SagaStep.name := "send_webhook";
     SagaStep.execute := fun ctx =>
       match Ctx.payment ctx with
       | None => throw (ErrorObject "Error" "Payment not found in context")
       | Some payment =>
           match Str.truthy (Payment.webhook_url payment) with
           | Some url =>
               WebhookService.queueWebhook env
                 {| WebhookService.payment_id := Some (Payment.id payment);
                    WebhookService.event_type :=
                      "payment."
                        +:+ PaymentStatus.toString (Payment.status payment);
                    WebhookService.url := url;
                    WebhookService.payload := payment_payload payment |} ;;
               ret ctx
           | None => ret ctx
           end
       end;
     SagaStep.compensate := None |}.

(** [createPaymentSaga] *)
Definition createPaymentSaga (env : Env.t)
  : list (SagaStep.t World.t Ctx.t) :=
  [ create_payment_record env; process_with_provider env; send_webhook env ].

(** The checks of [processPayment] before the saga. An amount, counted in
    ten-thousandths, has at most four decimal places, so that check has no
    counterpart here. *)
Definition validate (input : ProcessPaymentInput) : option Thrown :=
  if negb (WebhookService.includes (Str.toLowerCase (provider input))
             Providers.getSupportedProviders) then
    Some (PaymentValidationError
            ("Unsupported provider: " +:+ provider input))
  else if (amount input <=? 0)%Z then
    Some (PaymentValidationError "Amount must be greater than 0")
  else
    let currencyUpper := Str.toUpperCase (currency input) in
    if negb (String.length (currency input) =? 3)%nat then
      Some (PaymentValidationError "Currency must be a valid 3-letter code")
    else if negb (WebhookService.includes currencyUpper validCurrencies) then
      Some (PaymentValidationError
              ("Currency " +:+ currencyUpper +:+ " is not supported."))
    else None.

(** [processPayment] *)
Definition processPayment (env : Env.t) (input : ProcessPaymentInput)
    (auditContext : option AuditContext.t)
  : M World.t ProcessPaymentResult :=
  match validate input with
  | Some error => throw error
  | None =>
      do result <-
        SagaOrchestrator.execute (createPaymentSaga env)
          (Ctx.mk input None None auditContext);
      match SagaResult.success result,
            Ctx.payment (SagaResult.context result) with
      | true, Some payment =>
          ret {| payment := Some payment;
                 success :=
                   PaymentStatus.eqb (Payment.status payment)
                     PaymentStatus.completed;
                 error := None |}
      | _, _ =>
          ret {| payment := Ctx.payment (SagaResult.context result);
                 success := false;
                 error :=
                   Some (match Str.truthy
                                 (messageOf <$> SagaResult.error result) with
                         | Some m => m
                         | None => "Payment processing failed"
                         end) |}
      end
  end.

(** [isValidStatusTransition] *)
Definition validTransitions (currentStatus : PaymentStatus.t)
  : list PaymentStatus.t :=
  match currentStatus with
  | PaymentStatus.pending =>
      [ PaymentStatus.processing; PaymentStatus.completed;
        PaymentStatus.failed ]
  | PaymentStatus.processing =>
      [ PaymentStatus.completed; PaymentStatus.failed ]
  | PaymentStatus.completed =>
      [ PaymentStatus.refunded; PaymentStatus.partially_refunded ]
  | PaymentStatus.failed => []
  | PaymentStatus.refunded => []
  | PaymentStatus.partially_refunded => [ PaymentStatus.refunded ]
  end.

Definition isValidStatusTransition (currentStatus newStatus : PaymentStatus.t)
  : bool :=
  existsb (PaymentStatus.eqb newStatus) (validTransitions currentStatus).

(** The status-transition table as the specification prints it. *)
Definition permitted (from to : PaymentStatus.t) : Prop :=
  (from = PaymentStatus.pending
   /\ (to = PaymentStatus.processing \/ to = PaymentStatus.completed
       \/ to = PaymentStatus.failed))
  \/ (from = PaymentStatus.processing
      /\ (to = PaymentStatus.completed \/ to = PaymentStatus.failed))
  \/ (from = PaymentStatus.completed
      /\ (to = PaymentStatus.refunded
          \/ to = PaymentStatus.partially_refunded))
  \/ (from = PaymentStatus.partially_refunded
      /\ to = PaymentStatus.refunded).

(** The row selected [WHERE provider_transaction_id = $1 AND provider = $2] *)
Definition matches_provider (providerTransactionId provider : string)
    (p : Payment.t) : bool :=
  match Payment.provider_transaction_id p with
  | Some x => String.eqb x providerTransactionId
  | None => false
  end
  && String.eqb (Payment.provider p) provider.

(** [updatePaymentFromWebhook]; the [SELECT] locks every matching row and
    the first one is used. *)
Definition updatePaymentFromWebhook (env : Env.t)
    (providerTransactionId provider : string) (newStatus : PaymentStatus.t)
    (providerResponse : Json) : Tx.C World.t (option Payment.t) :=
  Locking.withTransaction
    (do rows <-
       Tx.select_for_update
         (matches_provider providerTransactionId provider);
     match rows with
     | [] => Tx.ret None
     | payment :: _ =>
         if negb (isValidStatusTransition (Payment.status payment) newStatus)
         then Tx.ret (Some payment)
         else
           Tx.lift
             (modify (fun w =>
                World.with_payments
                  (PaymentModel.update_where_id (Payment.id payment)
                     (Payment.with_status newStatus (World.now w))
                     (World.payments w)) w)) ;;
           Tx.lift
             (TransactionModel.createTransaction env
                {| TransactionModel.payment_id := Payment.id payment;
                   TransactionModel.status := newStatus;
                   TransactionModel.provider_response :=
                     Some providerResponse;
                   TransactionModel.error_message := None |}) ;;
           Tx.lift
             (AuditService.logPaymentStatusChanged env (Payment.id payment)
                (PaymentStatus.toString (Payment.status payment))
                (PaymentStatus.toString newStatus)
                (Some {| AuditContext.actor :=
                           Some ("webhook:" +:+ provider);
                         AuditContext.actor_type := Some "webhook";
                         AuditContext.ip_address := None;
                         AuditContext.user_agent := None |})) ;;
           match Str.truthy (Payment.webhook_url payment) with
           | Some url =>
               Locking.queueWebhook env
                 {| WebhookService.payment_id := Some (Payment.id payment);
                    WebhookService.event_type :=
                      "payment." +:+ PaymentStatus.toString newStatus;
                    WebhookService.url := url;
                    WebhookService.payload :=
                      [ ("id", JString (Payment.id payment));
                        ("external_id",
                         JsonObject.ofOption (Payment.external_id payment));
                        ("status",
                         JString (PaymentStatus.toString newStatus));
                        ("provider_response", providerResponse) ] |} ;;
               Tx.ret tt
           | None => Tx.ret tt
           end ;;
           Tx.lift (PaymentModel.getPaymentById (Payment.id payment))
     end)%tx.

End PaymentService.

(** ** services/refund.service.ts *)

Module RefundService.

Record CreateRefundInput : Type := mkInput {
  payment_id : string;
  amount : Number.t;
  reason : option string;
}.

Record RefundResult : Type := mkResult {
  refund : option Refund.t;
  payment : option Payment.t;
  success : bool;
  error : option string;
}.

Definition RefundValidationError (message : string) : Thrown :=
  ErrorObject "RefundValidationError" message.

(** [['completed', 'partially_refunded'].includes(payment.status)] *)
Definition refundable_status (s : PaymentStatus.t) : bool :=
  existsb (PaymentStatus.eqb s)
    [PaymentStatus.completed; PaymentStatus.partially_refunded].

(** The [try] block of [createRefund], lines 99 to 210. *)
Definition process_with_provider (env : Env.t) (input : CreateRefundInput)
    (auditContext : option AuditContext.t) (payment : Payment.t)
    (refund : Refund.t) (paymentAmount totalRefunded : Number.t)
  : Tx.T RefundResult :=
  (do provider <- Tx.lift (Providers.getProvider (Payment.provider payment));
   match Str.truthy (Payment.provider_transaction_id payment) with
   | None =>
       Tx.throw
         (RefundValidationError "Payment has no provider transaction ID")
   | Some transactionId =>
       do response <-
         Tx.lift
           (Db.remote (fun n =>
              Env.provider_processRefund env provider n
                {| RefundRequest.transactionId := transactionId;
                   RefundRequest.amount := amount input;
                   RefundRequest.reason := reason input |}));
       let newRefundStatus :=
         if RefundResponse.success response then RefundStatus.completed
         else RefundStatus.failed in
       Tx.lift
         (RefundModel.updateRefund (Refund.id refund)
            {| RefundModel.status := Some newRefundStatus;
               RefundModel.provider_refund_id :=
                 Some (RefundResponse.refundId response) |}) ;;
       Tx.lift
         (AuditService.logRefundStatusChanged env (Refund.id refund)
            "pending" (RefundStatus.toString newRefundStatus) auditContext) ;;
       if RefundResponse.success response then
         let newTotalRefunded :=
           PrimFloat.add totalRefunded (amount input) in
         let newPaymentStatus :=
           if PrimFloat.leb paymentAmount newTotalRefunded
           then PaymentStatus.refunded
           else PaymentStatus.partially_refunded in
         Tx.lift
           (modify (fun w =>
              World.with_payments
                (PaymentModel.update_where_id (Payment.id payment)
                   (Payment.with_status newPaymentStatus (World.now w))
                   (World.payments w)) w)) ;;
         Tx.lift
           (TransactionModel.createTransaction env
              {| TransactionModel.payment_id := Payment.id payment;
                 TransactionModel.status := newPaymentStatus;
                 TransactionModel.provider_response :=
                   Some (JObject
                           [ ("refund_id",
                              JString (RefundResponse.refundId response));
                             ("refund_amount", JDouble (amount input)) ]);
                 TransactionModel.error_message := None |}) ;;
         Tx.lift
           (AuditService.logPaymentStatusChanged env (Payment.id payment)
              (PaymentStatus.toString (Payment.status payment))
              (PaymentStatus.toString newPaymentStatus) auditContext) ;;
         do updatedPayment <-
           Tx.lift (PaymentModel.getPaymentById (Payment.id payment));
         match Str.truthy (Payment.webhook_url payment) with
         | Some url =>
             Locking.queueWebhook env
               {| WebhookService.payment_id := Some (Payment.id payment);
                  WebhookService.event_type := "refund.completed";
                  WebhookService.url := url;
                  WebhookService.payload :=
                    [ ("refund_id", JString (Refund.id refund));
                      ("payment_id", JString (Payment.id payment));
                      ("amount", JDouble (amount input));
                      ("status", JString "completed");
                      ("payment_status",
                       JString (PaymentStatus.toString newPaymentStatus)) ]
               |} ;;
             Tx.ret tt
         | None => Tx.ret tt
         end ;;
         do updatedRefund <-
           Tx.lift (RefundModel.getRefundById (Refund.id refund));
         Tx.ret {| refund := updatedRefund;
                   payment := updatedPayment;
                   success := true;
                   error := None |}
       else
         do failedRefund <-
           Tx.lift (RefundModel.getRefundById (Refund.id refund));
         Tx.ret {| refund := failedRefund;
                   payment := Some payment;
                   success := false;
                   error :=
                     Some (match Str.truthy
                                   (RefundResponse.errorMessage response)
                           with
                           | Some m => m
                           | None => "Refund failed"
                           end) |}
   end)%tx.

(** The [catch] block of [createRefund], lines 211 to 240. *)
Definition mark_failed (env : Env.t) (auditContext : option AuditContext.t)
    (payment : Payment.t) (refund : Refund.t) (error : Thrown)
  : Tx.T RefundResult :=
  (Tx.lift
     (RefundModel.updateRefund (Refund.id refund)
        {| RefundModel.status := Some RefundStatus.failed;
           RefundModel.provider_refund_id := None |}) ;;
   let errorMessage := messageOf error in
   Tx.lift
     (AuditService.logRefundStatusChanged env (Refund.id refund) "pending"
        "failed" auditContext) ;;
   do failedRefund <- Tx.lift (RefundModel.getRefundById (Refund.id refund));
   Tx.ret {| refund := failedRefund;
             payment := Some payment;
             success := false;
             error := Some errorMessage |})%tx.

(** [RefundService.createRefund] *)
Definition createRefund (env : Env.t) (input : CreateRefundInput)
    (auditContext : option AuditContext.t) : Tx.C World.t RefundResult :=
  Locking.withTransaction
    (do paymentRows <-
       Tx.select_for_update (PaymentModel.has_id (payment_id input));
     match paymentRows with
     | [] => Tx.throw (RefundValidationError "Payment not found")
     | payment :: _ =>
         if negb (refundable_status (Payment.status payment)) then
           Tx.throw
             (RefundValidationError
                ("Cannot refund payment with status: "
                   +:+ PaymentStatus.toString (Payment.status payment)))
         else if PrimFloat.leb (amount input) PrimFloat.zero then
           Tx.throw
             (RefundValidationError "Refund amount must be greater than 0")
         else
           let paymentAmount := Number.ofDecimal (Payment.amount payment) in
           do totalRefunded <-
             Tx.lift (RefundModel.getTotalRefundedAmount (Payment.id payment));
           do pendingRefunds <-
             Tx.lift
               (RefundModel.getPendingRefundsAmount (Payment.id payment));
           let availableForRefund :=
             PrimFloat.sub (PrimFloat.sub paymentAmount totalRefunded)
               pendingRefunds in
           if PrimFloat.ltb availableForRefund (amount input) then
             Tx.throw
               (RefundValidationError
                  ("Refund amount " +:+ Number.toString (amount input)
                     +:+ " exceeds available amount "
                     +:+ Number.toFixed2 availableForRefund))
           else
             do refund <-
               Tx.lift
                 (RefundModel.createRefund env
                    {| RefundModel.payment_id := payment_id input;
                       RefundModel.amount := amount input;
                       RefundModel.reason := reason input |});
             Tx.lift
               (AuditService.logRefundCreated env (Refund.id refund)
                  (JObject
                     [ ("payment_id", JString (Refund.payment_id refund));
                       ("amount", JNumber (Refund.amount refund));
                       ("reason",
                        JsonObject.ofOption (Refund.reason refund)) ])
                  auditContext) ;;
             Tx.try_catch
               (process_with_provider env input auditContext payment refund
                  paymentAmount totalRefunded)
               (mark_failed env auditContext payment refund)
     end)%tx.

End RefundService.

(** ** config/redis.ts, as far as the idempotency service uses it *)

Module Redis.

(** The value under [key]: an entry past its expiry is gone. *)
Definition lookup (key : string) (w : World.t) : option IdempotencyRecord.t :=
  match World.redis w !! key with
  | Some (value, expiry) =>
      if (World.now w <? expiry)%Z then Some value else None
  | None => None
  end.

(** [redis.get(key)] *)
Definition get (key : string) : M World.t (option IdempotencyRecord.t) :=
  fun w => (Returned (lookup key w), w).

(** [redis.setex(key, seconds, value)] *)
Definition setex (key : string) (seconds : Z) (value : IdempotencyRecord.t)
  : M World.t unit :=
  modify (fun w =>
    World.with_redis
      (<[key := (value, (World.now w + seconds * 1000)%Z)]> (World.redis w))
      w).

(** [redis.ttl(key)]: the seconds left, [-2] without an entry. *)
Definition ttl (key : string) : M World.t Z :=
  fun w =>
    (Returned
       match World.redis w !! key with
       | Some (_, expiry) =>
           if (World.now w <? expiry)%Z
           then ((expiry - World.now w) / 1000)%Z
           else (-2)%Z
       | None => (-2)%Z
       end, w).

(** [redis.del(key)] *)
Definition del (key : string) : M World.t unit :=
  modify (fun w => World.with_redis (delete key (World.redis w)) w).

End Redis.

(** ** services/idempotency.service.ts *)

Module IdempotencyService.

Record IdempotencyResult : Type := mkResult {
  exists_ : bool;
  isProcessing : bool;
  response : option Json;
  statusCode : option Z;
}.

Definition IdempotencyConflictError : Thrown :=
  ErrorObject "IdempotencyConflictError"
    "Idempotency key has already been used with different request parameters".

(** [getRedisKey] *)
Definition getRedisKey (key merchantId : string) : string :=
  "idempotency:" +:+ merchantId +:+ ":" +:+ key.

(** [record.status_code || undefined]: zero counts as absent. *)
Definition truthy_code (code : option Z) : option Z :=
  match code with
  | Some c => if (c =? 0)%Z then None else Some c
  | None => None
  end.

(** What [check] answers for a record whose fingerprint matches. *)
Definition result_of (record : IdempotencyRecord.t) : IdempotencyResult :=
  match IdempotencyRecord.status record with
  | IdempotencyStatus.processing =>
      {| exists_ := true; isProcessing := true;
         response := None; statusCode := None |}
  | IdempotencyStatus.completed =>
      {| exists_ := true; isProcessing := false;
         response := IdempotencyRecord.response record;
         statusCode := truthy_code (IdempotencyRecord.status_code record) |}
  end.

(** [WHERE key = $1 AND merchant_id = $2 AND expires_at > NOW()] *)
Definition live_row (key merchantId : string) (now : Z)
    (r : IdempotencyRecord.t) : bool :=
  String.eqb (IdempotencyRecord.key r) key
  && String.eqb (IdempotencyRecord.merchant_id r) merchantId
  && (now <? IdempotencyRecord.expires_at r)%Z.

Definition select_live (key merchantId : string)
  : M World.t (option IdempotencyRecord.t) :=
  fun w =>
    (Returned (find (live_row key merchantId (World.now w))
                 (World.idempotency_keys w)), w).

(** [cacheRecord] *)
Definition cacheRecord (record : IdempotencyRecord.t) : M World.t unit :=
  do w <- get;
  let redisKey :=
    getRedisKey (IdempotencyRecord.key record)
      (IdempotencyRecord.merchant_id record) in
  let ttl :=
    Z.max 0 ((IdempotencyRecord.expires_at record - World.now w) / 1000) in
  if (0 <? ttl)%Z then Redis.setex redisKey ttl record else ret tt.

(** [check] *)
Definition check (key merchantId requestHash : string)
  : M World.t IdempotencyResult :=
  let redisKey := getRedisKey key merchantId in
  do cached <- Redis.get redisKey;
  match cached with
  | Some record =>
      if negb (String.eqb (IdempotencyRecord.request_hash record) requestHash)
      then throw IdempotencyConflictError
      else ret (result_of record)
  | None =>
      do row <- select_live key merchantId;
      match row with
      | Some record =>
          if negb (String.eqb (IdempotencyRecord.request_hash record)
                     requestHash)
          then throw IdempotencyConflictError
          else cacheRecord record ;; ret (result_of record)
      | None =>
          ret {| exists_ := false; isProcessing := false;
                 response := None; statusCode := None |}
      end
  end.

(** [startProcessing]; [key] alone is the primary key of the table, so
    [ON CONFLICT (key) DO NOTHING] skips the insertion when any row has
    it. *)
Definition startProcessing (env : Env.t)
    (key merchantId requestHash requestPath requestMethod : string)
  : M World.t unit :=
  do w0 <- get;
  let expiresAt := (World.now w0 + Env.ttlSeconds env * 1000)%Z in
  Db.withLock ("idempotency:" +:+ key +:+ ":" +:+ merchantId)
    (do row <- select_live key merchantId;
     match row with
     | Some existing =>
         if negb (String.eqb (IdempotencyRecord.request_hash existing)
                    requestHash)
         then throw IdempotencyConflictError
         else ret tt
     | None =>
         modify (fun w =>
           if existsb (fun r => String.eqb (IdempotencyRecord.key r) key)
                (World.idempotency_keys w)
           then w
           else
             World.with_idempotency_keys
               (World.idempotency_keys w
                  ++ [ {| IdempotencyRecord.key := key;
                          IdempotencyRecord.merchant_id := merchantId;
                          IdempotencyRecord.request_hash := requestHash;
                          IdempotencyRecord.request_path := requestPath;
                          IdempotencyRecord.request_method := requestMethod;
                          IdempotencyRecord.response := None;
                          IdempotencyRecord.status_code := None;
                          IdempotencyRecord.status :=
                            IdempotencyStatus.processing;
                          IdempotencyRecord.created_at := Some (World.now w);
                          IdempotencyRecord.expires_at := expiresAt |} ]) w)
     end) ;;
  Redis.setex (getRedisKey key merchantId) (Env.ttlSeconds env)
    {| IdempotencyRecord.key := key;
       IdempotencyRecord.merchant_id := merchantId;
       IdempotencyRecord.request_hash := requestHash;
       IdempotencyRecord.request_path := requestPath;
       IdempotencyRecord.request_method := requestMethod;
       IdempotencyRecord.response := None;
       IdempotencyRecord.status_code := None;
       IdempotencyRecord.status := IdempotencyStatus.processing;
       IdempotencyRecord.created_at := None;
       IdempotencyRecord.expires_at := expiresAt |}.

Definition completed_with (response : Json) (statusCode : Z)
    (r : IdempotencyRecord.t) : IdempotencyRecord.t :=
  IdempotencyRecord.mk (IdempotencyRecord.key r)
    (IdempotencyRecord.merchant_id r) (IdempotencyRecord.request_hash r)
    (IdempotencyRecord.request_path r) (IdempotencyRecord.request_method r)
    (Some response) (Some statusCode) IdempotencyStatus.completed
    (IdempotencyRecord.created_at r) (IdempotencyRecord.expires_at r).

(** [complete] *)
Definition complete (key merchantId : string) (response : Json)
    (statusCode : Z) : M World.t unit :=
  modify (fun w =>
    World.with_idempotency_keys
      (map (fun r =>
              if String.eqb (IdempotencyRecord.key r) key
                 && String.eqb (IdempotencyRecord.merchant_id r) merchantId
              then completed_with response statusCode r
              else r)
         (World.idempotency_keys w)) w) ;;
  let redisKey := getRedisKey key merchantId in
  do cached <- Redis.get redisKey;
  match cached with
  | Some record =>
      do ttl <- Redis.ttl redisKey;
      if (0 <? ttl)%Z
      then Redis.setex redisKey ttl (completed_with response statusCode record)
      else ret tt
  | None => ret tt
  end.

(** [remove] *)
Definition remove (key merchantId : string) : M World.t unit :=
  modify (fun w =>
    World.with_idempotency_keys
      (List.filter
         (fun r =>
            negb (String.eqb (IdempotencyRecord.key r) key
                  && String.eqb (IdempotencyRecord.merchant_id r) merchantId))
         (World.idempotency_keys w)) w) ;;
  Redis.del (getRedisKey key merchantId).

(** The record that the engine holds for (merchant, key): the cache entry
    if there is one, else the unexpired row of the table. *)
Definition stored_record (key merchantId : string) (w : World.t)
  : option IdempotencyRecord.t :=
  match Redis.lookup (getRedisKey key merchantId) w with
  | Some record => Some record
  | None =>
      find (live_row key merchantId (World.now w)) (World.idempotency_keys w)
  end.

(** [generateRequestHash] *)
Definition generateRequestHash (env : Env.t) (body : Json)
    (path method : string) : string :=
  Env.sha256 env
    (Env.stringify env
       (JObject [ ("body", body); ("path", JString path);
                  ("method", JString method) ])).

End IdempotencyService.

(** ** middleware/idempotency.ts *)

Module IdempotencyMiddleware.

(** What the middleware reads of a [FastifyRequest]. *)
Record Request : Type := mkRequest {
  method : string;
  idempotency_key_header : option string;
  merchantId : option string;
  body : Json;
  url : string;
}.

(** What the hook leaves behind: a reply already sent, in which case the
    route handler does not run, or nothing sent, in which case the route
    handler runs with [request.idempotencyKey] as given. *)
Inductive Result : Type :=
| Replied (code : Z) (payload : option Json)
| Continue (idempotencyKey : option string).

Definition conflict_body (message : string) : Json :=
  JObject [("error", JString "Conflict"); ("message", JString message)].

(** [idempotencyMiddleware] *)
Definition idempotencyMiddleware (env : Env.t) (request : Request)
  : M World.t Result :=
  if negb (WebhookService.includes (method request) ["POST"; "PUT"; "PATCH"])
  then ret (Continue None)
  else
    match Str.truthy (idempotency_key_header request) with
    | None => ret (Continue None)
    | Some idempotencyKey =>
        match Str.truthy (merchantId request) with
        | None =>
            ret (Replied 401
                   (Some (JObject
                            [ ("error", JString "Unauthorized");
                              ("message", JString "Merchant ID not found") ])))
        | Some merchant =>
            let requestHash :=
              IdempotencyService.generateRequestHash env (body request)
                (url request) (method request) in
            try_catch
              (do result <-
                 IdempotencyService.check idempotencyKey merchant requestHash;
               if IdempotencyService.exists_ result then
                 if IdempotencyService.isProcessing result then
                   ret (Replied 409
                          (Some (conflict_body
                                   "A request with this idempotency key is currently being processed")))
                 else
                   ret (Replied
                          (match IdempotencyService.statusCode result with
                           | Some code => code
                           | None => 200%Z
                           end)
                          (IdempotencyService.response result))
               else
                 IdempotencyService.startProcessing env idempotencyKey
                   merchant requestHash (url request) (method request) ;;
                 ret (Continue (Some idempotencyKey)))
              (fun error =>
                 if instanceOf "IdempotencyConflictError" error then
                   ret (Replied 409
                          (Some (conflict_body (messageOf error))))
                 else ret (Continue (Some idempotencyKey)))
        end
    end.

End IdempotencyMiddleware.

(** ** tests/unit/saga.test.ts: the steps of "should continue compensation
    even if one fails". The world is the array [compensationOrder]. *)

Module SagaTest.

(** [interface TestContext] *)
Record TestContext : Type := mkContext {
  value : Z;
  steps : list string;
}.

Definition push_step (name : string) (ctx : TestContext)
  : M (list string) TestContext :=
  ret (mkContext (value ctx) (steps ctx ++ [name])).

Definition step1 : SagaStep.t (list string) TestContext :=
  {| SagaStep.name := "step1";
     SagaStep.execute := push_step "step1";
     SagaStep.compensate :=
       Some (fun _ =>
               modify (fun order : list string => (order ++ ["comp1"])%list))
  |}.

Definition step2 : SagaStep.t (list string) TestContext :=
  {| SagaStep.name := "step2";
     SagaStep.execute := push_step "step2";
     SagaStep.compensate :=
       Some (fun _ =>
               modify (fun order : list string => (order ++ ["comp2"])%list)
               ;;
               throw (ErrorObject "Error" "Compensation failed")) |}.

Definition step3 : SagaStep.t (list string) TestContext :=
  {| SagaStep.name := "step3";
     SagaStep.execute := fun _ => throw (ErrorObject "Error" "Failed");
     SagaStep.compensate := None |}.

End SagaTest.

(** ** The life of webhook events: vocabulary of the delivery bounds *)

Module Delivery.

(** The bound of the data model, with what keeps it inductive: a pending
    event has an attempt left. *)
Definition within_bounds (e : WebhookEvent.t) : Prop :=
  (0 <= WebhookEvent.attempts e)%Z
  /\ (WebhookEvent.attempts e <= WebhookEvent.max_attempts e)%Z
  /\ (WebhookEvent.status e = WebhookStatus.pending ->
      (WebhookEvent.attempts e < WebhookEvent.max_attempts e)%Z).

(** A delivery failed: the request threw, or the answer was not 2xx. *)
Definition failed (o : Outcome HttpResponse.t) : Prop :=
  match o with
  | Returned response => HttpResponse.ok response = false
  | Threw _ => True
  end.

(** What touches the events: the API enqueues, the worker delivers, the
    sweeper republishes, the clock advances. *)
Inductive Operation : Type :=
| Enqueue (input : WebhookService.QueueWebhookInput)
| Deliver (webhookId : string)
| Sweep
| Clock (instant : Z).

Definition apply (env : Env.t) (op : Operation) (w : World.t) : World.t :=
  match op with
  | Enqueue input => snd (WebhookService.queueWebhook env input w)
  | Deliver webhookId => snd (WebhookService.processWebhook env webhookId w)
  | Sweep => snd (WebhookService.retryPendingWebhooks w)
  | Clock instant => World.with_now instant w
  end.

(** The world after a sequence of operations, first operation first. *)
Definition after (env : Env.t) (ops : list Operation) (w : World.t)
  : World.t :=
  fold_left (fun w op => apply env op w) ops w.

(** Four deliveries of the event [id], the clock set to [t1], [t2], [t3]
    before the second, third and fourth. *)
Definition four_deliveries (id : string) (t1 t2 t3 : Z) : list Operation :=
  [ Deliver id; Clock t1; Deliver id; Clock t2; Deliver id; Clock t3;
    Deliver id ].

(** The event stored under [id], as [getWebhookById] reads it. *)
Definition stored (id : string) (w : World.t) : option WebhookEvent.t :=
  find (WebhookService.has_id id) (World.webhook_events w).

End Delivery.

(** ** Vocabulary of the URL rule: hosts of the private IPv4 ranges, as the
    URL parser prints them, and internal domain names *)

Module Ssrf.

(** A host name of 10/8, 172.16/12, 192.168/16 or 169.254/16 in dotted
    decimal; [rest] stands for the remaining octets. *)
Definition private_ipv4 (hostname : string) : Prop :=
  exists rest : string,
    hostname = "10." +:+ rest
    \/ (exists b : Z,
          (16 <= b <= 31)%Z
          /\ hostname = "172." +:+ Str.ofZ b +:+ "." +:+ rest)
    \/ hostname = "192.168." +:+ rest
    \/ hostname = "169.254." +:+ rest.

(** A host name that ends with [.internal] or [.local]. *)
Definition internal_domain (hostname : string) : Prop :=
  exists label : string,
    hostname = label +:+ ".internal" \/ hostname = label +:+ ".local".

(** An address of [fd00::/8], inside [fc00::/7], as the URL parser prints
    the host of [https://[fd12:3456:789a:1::1]/hook]. *)
Definition unique_local_host : string := "[fd12:3456:789a:1::1]".

End Ssrf.

(** ** Vocabulary of amount conservation *)

Module Refunds.

(** Σ of the completed refunds of a payment, in ten-thousandths. *)
Definition completed_total (paymentId : string) (w : World.t) : Z :=
  RefundModel.sum_amount paymentId RefundStatus.completed (World.refunds w).

(** Σ of the pending refunds of a payment. *)
Definition pending_total (paymentId : string) (w : World.t) : Z :=
  RefundModel.sum_amount paymentId RefundStatus.pending (World.refunds w).

(** The amount left for refunds as [createRefund] computes it:
    [paymentAmount - totalRefunded - pendingRefunds] in double precision,
    each term the [parseFloat] of a column or of a sum. *)
Definition available (p : Payment.t) (w : World.t) : Number.t :=
  PrimFloat.sub
    (PrimFloat.sub (Number.ofDecimal (Payment.amount p))
       (Number.ofDecimal (completed_total (Payment.id p) w)))
    (Number.ofDecimal (pending_total (Payment.id p) w)).

(** The checks of [createRefund] let the request through. *)
Definition admitted (input : RefundService.CreateRefundInput)
    (p : Payment.t) (w : World.t) : Prop :=
  find (PaymentModel.has_id (RefundService.payment_id input))
    (World.payments w) = Some p
  /\ RefundService.refundable_status (Payment.status p) = true
  /\ PrimFloat.leb (RefundService.amount input) PrimFloat.zero = false
  /\ PrimFloat.ltb (available p w) (RefundService.amount input) = false.

(** The bound of the specification on a refund that is stored:
    [amount <= p.amount - Σcompleted - Σpending], on the stored amounts. *)
Definition within_amount (amount : Z) (p : Payment.t) (w : World.t)
  : Prop :=
  (amount <= Payment.amount p - completed_total (Payment.id p) w
             - pending_total (Payment.id p) w)%Z.

End Refunds.

(** ** Fixtures for the examples: a development configuration with
    stand-ins for the platform functions. *)

Module Fixture.

(** A stand-in for [new URL(s)]: scheme up to [://], host up to the next
    [/]. *)
Fixpoint split_at_slash (s : string) : string :=
  match s with
  | EmptyString => EmptyString
  | String c rest =>
      if Ascii.eqb c "/" then EmptyString else String c (split_at_slash rest)
  end.

Definition parseUrl (s : string) : option Url.t :=
  if String.prefix "https://" s then
    Some (Url.mk "https:"
            (split_at_slash (String.substring 8 (String.length s - 8) s)))
  else if String.prefix "http://" s then
    Some (Url.mk "http:"
            (split_at_slash (String.substring 7 (String.length s - 7) s)))
  else None.

Definition approve (n : nat) (request : PaymentRequest.t)
  : Outcome PaymentResponse.t :=
  Returned
    {| PaymentResponse.success := true;
       PaymentResponse.transactionId := "ch_1";
       PaymentResponse.status := ProviderStatus.completed;
       PaymentResponse.rawResponse := JObject [];
       PaymentResponse.errorCode := None;
       PaymentResponse.errorMessage := None |}.

Definition refund_ok (n : nat) (request : RefundRequest.t)
  : Outcome RefundResponse.t :=
  Returned
    {| RefundResponse.success := true;
       RefundResponse.refundId := "re_1";
       RefundResponse.status := ProviderStatus.completed;
       RefundResponse.rawResponse := JObject [];
       RefundResponse.errorCode := None;
       RefundResponse.errorMessage := None |}.

(** A destination that answers 500 three times, then 200. *)
Definition flaky (n : nat) (webhook : WebhookEvent.t)
  : Outcome HttpResponse.t :=
  if (n <? 3)%nat
  then Returned (HttpResponse.mk false 500 "Internal Server Error")
  else Returned (HttpResponse.mk true 200 "OK").

(** The defaults of config/index.ts outside production. *)
Definition env : Env.t :=
  {| Env.isProduction := false;
     Env.webhook_secret := "dev-only-default-secret-do-not-use-in-prod";
     Env.maxRetries := 5;
     Env.retryDelays := [60000; 300000; 900000; 3600000]%Z;
     Env.ttlSeconds := 86400;
     Env.uuid := fun n => "uuid-" +:+ Str.ofZ (Z.of_nat n);
     Env.parseUrl := parseUrl;
     Env.hmac := fun payload secret => "hmac";
     Env.sha256 := fun value => value;
     Env.stringify := fun _ => "{}";
     Env.toISOString := Str.ofZ;
     Env.provider_processPayment := fun _ => approve;
     Env.provider_processRefund := fun _ => refund_ok;
     Env.fetch := flaky |}.

(** A provider that declines every charge. *)
Definition declined : PaymentResponse.t :=
  {| PaymentResponse.success := false;
     PaymentResponse.transactionId := "ch_2";
     PaymentResponse.status := ProviderStatus.failed;
     PaymentResponse.rawResponse := JObject [];
     PaymentResponse.errorCode := Some "card_declined";
     PaymentResponse.errorMessage := Some "Your card was declined." |}.

Definition decline (n : nat) (request : PaymentRequest.t)
  : Outcome PaymentResponse.t :=
  Returned declined.

Definition declining : Env.t :=
  Env.mk (Env.isProduction env) (Env.webhook_secret env) (Env.maxRetries env)
    (Env.retryDelays env) (Env.ttlSeconds env) (Env.uuid env)
    (Env.parseUrl env) (Env.hmac env) (Env.sha256 env) (Env.stringify env)
    (Env.toISOString env) (fun _ => decline) (Env.provider_processRefund env)
    (Env.fetch env).

(** A provider that leaves every charge pending. *)
Definition hold (n : nat) (request : PaymentRequest.t)
  : Outcome PaymentResponse.t :=
  Returned
    {| PaymentResponse.success := true;
       PaymentResponse.transactionId := "ch_3";
       PaymentResponse.status := ProviderStatus.pending;
       PaymentResponse.rawResponse := JObject [];
       PaymentResponse.errorCode := None;
       PaymentResponse.errorMessage := None |}.

Definition holding : Env.t :=
  Env.mk (Env.isProduction env) (Env.webhook_secret env) (Env.maxRetries env)
    (Env.retryDelays env) (Env.ttlSeconds env) (Env.uuid env)
    (Env.parseUrl env) (Env.hmac env) (Env.sha256 env) (Env.stringify env)
    (Env.toISOString env) (fun _ => hold) (Env.provider_processRefund env)
    (Env.fetch env).

(** A charge of 100.0000 USD through [stripe]. *)
Definition charge (url : option string) : PaymentService.ProcessPaymentInput :=
  {| PaymentService.external_id := None;
     PaymentService.merchant_id := "m-1";
     PaymentService.amount := 1000000;
     PaymentService.currency := "USD";
     PaymentService.provider := "stripe";
     PaymentService.description := None;
     PaymentService.metadata := None;
     PaymentService.webhook_url := url |}.

(** An empty database at instant [0], with a queue channel. *)
Definition empty : World.t :=
  {| World.payments := [];
     World.transactions := [];
     World.refunds := [];
     World.webhook_events := [];
     World.audit_logs := [];
     World.idempotency_keys := [];
     World.redis := ∅;
     World.channel := true;
     World.queue := [];
     World.timers := [];
     World.deliveries := [];
     World.now := 0;
     World.uuid_next := 0;
     World.remote_calls := 0 |}.

(** A payment of 100.0000 USD through [stripe]. *)
Definition payment (s : PaymentStatus.t) (url : option string) : Payment.t :=
  {| Payment.id := "pay-1";
     Payment.external_id := None;
     Payment.merchant_id := "m-1";
     Payment.amount := 1000000;
     Payment.currency := "USD";
     Payment.status := s;
     Payment.provider := "stripe";
     Payment.provider_transaction_id := Some "ch_1";
     Payment.description := None;
     Payment.metadata := JObject [];
     Payment.webhook_url := url;
     Payment.created_at := 0;
     Payment.updated_at := 0 |}.

Definition with_payment (p : Payment.t) : World.t :=
  World.with_payments [p] empty.

(** An event enqueued at instant [0] for a merchant endpoint; its id is
    the first UUID, ["uuid-0"]. *)
Definition enqueued : World.t :=
  snd (WebhookService.queueWebhook env
         {| WebhookService.payment_id := None;
            WebhookService.event_type := "payment.completed";
            WebhookService.url := "https://merchant.example/hooks";
            WebhookService.payload := [("id", JString "pay-1")] |}
         empty).

(** The configuration with [WEBHOOK_MAX_RETRIES=0]. *)
Definition no_retries : Env.t :=
  Env.mk (Env.isProduction env) (Env.webhook_secret env) 0
    (Env.retryDelays env) (Env.ttlSeconds env) (Env.uuid env)
    (Env.parseUrl env) (Env.hmac env) (Env.sha256 env) (Env.stringify env)
    (Env.toISOString env) (Env.provider_processPayment env)
    (Env.provider_processRefund env) (Env.fetch env).

(** The configuration with [WEBHOOK_RETRY_DELAYS=0]. *)
Definition zero_delay : Env.t :=
  Env.mk (Env.isProduction env) (Env.webhook_secret env) (Env.maxRetries env)
    [0%Z] (Env.ttlSeconds env) (Env.uuid env)
    (Env.parseUrl env) (Env.hmac env) (Env.sha256 env) (Env.stringify env)
    (Env.toISOString env) (Env.provider_processPayment env)
    (Env.provider_processRefund env) (Env.fetch env).

(** An event for a merchant endpoint is enqueued, then delivered once; the
    endpoint answers 500. *)
Definition enqueue_and_deliver : list Delivery.Operation :=
  [ Delivery.Enqueue
      {| WebhookService.payment_id := None;
         WebhookService.event_type := "payment.completed";
         WebhookService.url := "https://merchant.example/hooks";
         WebhookService.payload := [("id", JString "pay-1")] |};
    Delivery.Deliver "uuid-0" ].

(** A pending event on its last attempt. *)
Definition last_attempt : WebhookEvent.t :=
  {| WebhookEvent.id := "wh-1";
     WebhookEvent.payment_id := None;
     WebhookEvent.event_type := "payment.completed";
     WebhookEvent.payload := JObject [];
     WebhookEvent.url := "https://merchant.example/hooks";
     WebhookEvent.signature := None;
     WebhookEvent.attempts := 4;
     WebhookEvent.max_attempts := 5;
     WebhookEvent.next_retry_at := Some 3600000%Z;
     WebhookEvent.last_error := Some "HTTP 500: Internal Server Error";
     WebhookEvent.status := WebhookStatus.pending;
     WebhookEvent.created_at := 0;
     WebhookEvent.sent_at := None |}.

(** A [POST /payments] with idempotency key [A] from merchant [m-1]. *)
Definition request : IdempotencyMiddleware.Request :=
  {| IdempotencyMiddleware.method := "POST";
     IdempotencyMiddleware.idempotency_key_header := Some "A";
     IdempotencyMiddleware.merchantId := Some "m-1";
     IdempotencyMiddleware.body := JObject [("amount", JNumber 1000000)];
     IdempotencyMiddleware.url := "/api/v1/payments" |}.

(** The completed record of that request, answered 201. *)
Definition completed_record : IdempotencyRecord.t :=
  {| IdempotencyRecord.key := "A";
     IdempotencyRecord.merchant_id := "m-1";
     IdempotencyRecord.request_hash :=
       IdempotencyService.generateRequestHash env
         (IdempotencyMiddleware.body request)
         (IdempotencyMiddleware.url request)
         (IdempotencyMiddleware.method request);
     IdempotencyRecord.request_path := "/api/v1/payments";
     IdempotencyRecord.request_method := "POST";
     IdempotencyRecord.response := Some (JObject [("id", JString "pay-1")]);
     IdempotencyRecord.status_code := Some 201%Z;
     IdempotencyRecord.status := IdempotencyStatus.completed;
     IdempotencyRecord.created_at := Some 0%Z;
     IdempotencyRecord.expires_at := 86400000 |}.

(** A refund request of merchant [m-1] for the payment [pay-1]; the
    amount is the [number] that [JSON.parse] reads from the decimal
    [n / d]. *)
Definition refund (n d : Z) : RefundService.CreateRefundInput :=
  {| RefundService.payment_id := "pay-1";
     RefundService.amount := Number.nearest false n d;
     RefundService.reason := None |}.

(** A completed payment of 80000000000000.02 USD without webhook URL, as
    a charge of that amount leaves it. *)
Definition large_payment : Payment.t :=
  {| Payment.id := "pay-1";
     Payment.external_id := None;
     Payment.merchant_id := "m-1";
     Payment.amount := 800000000000000200;
     Payment.currency := "USD";
     Payment.status := PaymentStatus.completed;
     Payment.provider := "stripe";
     Payment.provider_transaction_id := Some "ch_1";
     Payment.description := None;
     Payment.metadata := JObject [];
     Payment.webhook_url := None;
     Payment.created_at := 0;
     Payment.updated_at := 0 |}.

End Fixture.

(** * Further parts of the gateway

    The modules below follow the callers and the helpers of the core:
    the status table as a graph, the signature checks, the lock
    identifier of db/connection.ts, the API-key hook, the route handlers
    and the error handler. *)

(** ** Vocabulary of the status table (payment.service.ts) *)

Module PaymentLifecycle.

(** A history of statuses in which every step is a transition that
    [isValidStatusTransition] accepts. *)
Fixpoint follows (history : list PaymentStatus.t) : bool :=
  match history with
  | a :: (b :: _) as rest =>
      PaymentService.isValidStatusTransition a b && follows rest
  | _ => true
  end.

(** The number of statuses of the longest history that starts at [s]. *)
Definition remaining (s : PaymentStatus.t) : nat :=
  match s with
  | PaymentStatus.pending => 5
  | PaymentStatus.processing => 4
  | PaymentStatus.completed => 3
  | PaymentStatus.partially_refunded => 2
  | PaymentStatus.refunded => 1
  | PaymentStatus.failed => 1
  end.

End PaymentLifecycle.

(** ** Vocabulary of the charge saga: what one charge writes *)

Module ChargeLedger.

(** What a charge for [input], started in the world [w0], has written when
    the saga context holds [payment] and the world is [w]: at most the row
    of its own payment after the rows that were there, transaction rows,
    audit rows and webhook events that refer to that payment, and nothing
    in the other tables, the cache or the clock. *)
Definition written (input : PaymentService.ProcessPaymentInput)
    (w0 : World.t) (payment : option Payment.t) (w : World.t) : Prop :=
  match payment with
  | None => World.payments w = World.payments w0
  | Some p =>
      exists row,
        World.payments w = (World.payments w0 ++ [row])%list
        /\ Payment.id row = Payment.id p
        /\ existsb (PaymentModel.has_id (Payment.id p)) (World.payments w0)
           = false
        /\ Payment.merchant_id row = PaymentService.merchant_id input
        /\ Payment.amount row = PaymentService.amount input
  end
  /\ (exists txs,
        World.transactions w = (World.transactions w0 ++ txs)%list
        /\ Forall (fun tx =>
                     Some (Transaction.payment_id tx) = Payment.id <$> payment)
             txs)
  /\ (exists logs,
        World.audit_logs w = (World.audit_logs w0 ++ logs)%list
        /\ Forall (fun a =>
                     Some (AuditLog.entity_id a) = Payment.id <$> payment)
             logs)
  /\ (exists events,
        World.webhook_events w = (World.webhook_events w0 ++ events)%list
        /\ Forall (fun ev =>
                     WebhookEvent.payment_id ev
                     = Str.truthy (Payment.id <$> payment))
             events)
  /\ World.refunds w = World.refunds w0
  /\ World.idempotency_keys w = World.idempotency_keys w0
  /\ World.redis w = World.redis w0
  /\ World.now w = World.now w0
  /\ World.channel w = World.channel w0.

End ChargeLedger.

(** ** services/refund.service.ts: the read side *)

Module RefundQueries.

(** The answer of [getRefundableAmount]. *)
Record RefundableAmount : Type := mkRefundable {
  paymentAmount : Number.t;
  totalRefunded : Number.t;
  pendingRefunds : Number.t;
  availableForRefund : Number.t;
}.

(** [Math.max(0, x)]: [NaN] for [NaN], and [+0] for what is not above
    zero. *)
Definition max_zero (x : Number.t) : Number.t :=
  if PrimFloat.is_nan x then x
  else if PrimFloat.ltb PrimFloat.zero x then x
  else PrimFloat.zero.

(** [getRefund] *)
Definition getRefund (id : string) : M World.t (option Refund.t) :=
  RefundModel.getRefundById id.

(** [getRefundableAmount] *)
Definition getRefundableAmount (paymentId : string)
  : M World.t RefundableAmount :=
  do found <- PaymentModel.getPaymentById paymentId;
  match found with
  | None => throw (RefundService.RefundValidationError "Payment not found")
  | Some payment =>
      let paymentAmount := Number.ofDecimal (Payment.amount payment) in
      do totalRefunded <- RefundModel.getTotalRefundedAmount paymentId;
      do pendingRefunds <- RefundModel.getPendingRefundsAmount paymentId;
      let availableForRefund :=
        max_zero
          (PrimFloat.sub (PrimFloat.sub paymentAmount totalRefunded)
             pendingRefunds) in
      ret {| paymentAmount := paymentAmount;
             totalRefunded := totalRefunded;
             pendingRefunds := pendingRefunds;
             availableForRefund := availableForRefund |}
  end.

End RefundQueries.
(** ** services/refund.service.ts: what the provider's answer settles *)

Module RefundRound.

(** The refund row after [updateRefund(refund.id, {status,
    provider_refund_id})] at the instant [now]. *)
Definition settled (response : RefundResponse.t) (now : Z)
    (refund : Refund.t) : Refund.t :=
  Refund.with_provider_refund_id (RefundResponse.refundId response) now
    (Refund.with_status
       (if RefundResponse.success response then RefundStatus.completed
        else RefundStatus.failed) now refund).

(** [newTotalRefunded >= paymentAmount ? 'refunded' :
    'partially_refunded'] with [newTotalRefunded = totalRefunded +
    input.amount] *)
Definition payment_status (paymentAmount totalRefunded amount : Number.t)
  : PaymentStatus.t :=
  if PrimFloat.leb paymentAmount (PrimFloat.add totalRefunded amount)
  then PaymentStatus.refunded else PaymentStatus.partially_refunded.

End RefundRound.


(** ** middleware/idempotency.ts: the hooks the route handlers call, and
    the clean-up function of the schema *)

Module IdempotencyHooks.

(** [idempotencyComplete]; [idempotencyKey] is [request.idempotencyKey], as
    the middleware left it. *)
Definition idempotencyComplete (idempotencyKey merchantId : option string)
    (response : Json) (statusCode : Z) : M World.t unit :=
  match Str.truthy idempotencyKey, Str.truthy merchantId with
  | Some key, Some merchant =>
      try_catch
        (IdempotencyService.complete key merchant response statusCode)
        (fun error => ret tt)
  | _, _ => ret tt
  end.

(** [idempotencyRemove] *)
Definition idempotencyRemove (idempotencyKey merchantId : option string)
  : M World.t unit :=
  match Str.truthy idempotencyKey, Str.truthy merchantId with
  | Some key, Some merchant =>
      try_catch (IdempotencyService.remove key merchant)
        (fun error => ret tt)
  | _, _ => ret tt
  end.

(** [cleanup_expired_idempotency_keys()]:
    [DELETE FROM idempotency_keys WHERE expires_at < NOW()], answering the
    number of deleted rows. *)
Definition expired (now : Z) (r : IdempotencyRecord.t) : bool :=
  (IdempotencyRecord.expires_at r <? now)%Z.

Definition cleanup_expired_idempotency_keys : M World.t Z :=
  fun w =>
    let rows := World.idempotency_keys w in
    (Returned (Z.of_nat (length (List.filter (expired (World.now w)) rows))),
     World.with_idempotency_keys
       (List.filter (fun r => negb (expired (World.now w) r)) rows) w).

End IdempotencyHooks.

(** ** Vocabulary of key scoping *)

Module IdempotencyKeys.

(** A merchant identifier without a colon, the separator of
    [getRedisKey]. *)
Fixpoint plain (merchantId : string) : bool :=
  match merchantId with
  | EmptyString => true
  | String c rest => negb (Ascii.eqb c ":") && plain rest
  end.

End IdempotencyKeys.

(** ** JSON values as JavaScript reads them *)

Module JsonValue.

(** Truthiness: [null], [false], [0], [NaN] and the empty string are
    falsy. *)
Definition truthy (v : Json) : bool :=
  match v with
  | JNull => false
  | JBool b => b
  | JNumber n => negb (n =? 0)%Z
  | JDouble x => negb (PrimFloat.is_nan x || PrimFloat.is_zero x)
  | JString s => negb (String.eqb s "")
  | JObject _ => true
  end.

End JsonValue.

(** ** routes/payments.ts and routes/refunds.ts

    A route is modelled from the idempotency hook on: the API-key hook has
    set [request.merchantId] (module [ApiKeyAuth]), the permission hook has
    let the request pass and the route schema has typed the body. A
    handler that throws hands the error to [errorHandler]. Amounts and
    instants are printed as numbers in the JSON bodies. *)

Module Http.

(** [reply.code(code).send(payload)] *)
Record Reply : Type := mkReply {
  code : Z;
  payload : option Json;
}.

Definition TypeError (property : string) : Thrown :=
  ErrorObject "TypeError"
    ("Cannot read properties of undefined (reading '" +:+ property +:+ "')").

End Http.

Module PaymentRoutes.

(** [interface CreatePaymentBody] *)
Record CreatePaymentBody : Type := mkBody {
  external_id : option string;
  amount : Z;
  currency : string;
  provider : string;
  description : option string;
  metadata : option Json;
  webhook_url : option string;
}.

(** What the route reads of the request: the part the idempotency hook
    reads (method, URL, key header, merchant, body as JSON), the body as
    the schema types it, the peer address and the [user-agent] header. *)
Record Request : Type := mkRequest {
  hook : IdempotencyMiddleware.Request;
  body : CreatePaymentBody;
  ip : string;
  user_agent : option string;
}.

(** The response object of [POST /]. *)
Definition response_of (p : Payment.t) : Json :=
  JObject
    [ ("id", JString (Payment.id p));
      ("external_id", JsonObject.ofOption (Payment.external_id p));
      ("amount", JNumber (Payment.amount p));
      ("currency", JString (Payment.currency p));
      ("status", JString (PaymentStatus.toString (Payment.status p)));
      ("provider", JString (Payment.provider p));
      ("provider_transaction_id",
       JsonObject.ofOption (Payment.provider_transaction_id p));
      ("description", JsonObject.ofOption (Payment.description p));
      ("metadata", Payment.metadata p);
      ("created_at", JNumber (Payment.created_at p));
      ("updated_at", JNumber (Payment.updated_at p)) ].

(** The handler of [POST /]; [idempotencyKey] is [request.idempotencyKey]
    as the hook left it. [recordPayment] reads [result.payment.provider],
    which throws when the saga stopped before it had a payment. *)
Definition createPaymentHandler (env : Env.t) (request : Request)
    (idempotencyKey : option string) : M World.t Http.Reply :=
  let merchant := IdempotencyMiddleware.merchantId (hook request) in
  match Str.truthy merchant with
  | None =>
      ret (Http.mkReply 401
             (Some (JObject [("error", JString "Unauthorized")])))
  | Some merchantId =>
      try_catch
        (do result <-
           PaymentService.processPayment env
             {| PaymentService.external_id := external_id (body request);
                PaymentService.merchant_id := merchantId;
                PaymentService.amount := amount (body request);
                PaymentService.currency := currency (body request);
                PaymentService.provider := provider (body request);
                PaymentService.description := description (body request);
                PaymentService.metadata := metadata (body request);
                PaymentService.webhook_url := webhook_url (body request) |}
             (Some {| AuditContext.actor := Some merchantId;
                      AuditContext.actor_type := Some "merchant";
                      AuditContext.ip_address := Some (ip request);
                      AuditContext.user_agent := user_agent request |});
         match PaymentService.payment result with
         | None => throw (Http.TypeError "provider")
         | Some payment =>
             let statusCode :=
               if PaymentService.success result then 201%Z else 200%Z in
             let response := response_of payment in
             match Str.truthy idempotencyKey with
             | Some _ =>
                 IdempotencyHooks.idempotencyComplete idempotencyKey merchant
                   response statusCode
             | None => ret tt
             end ;;
             ret (Http.mkReply statusCode (Some response))
         end)
        (fun error =>
           match Str.truthy idempotencyKey with
           | Some _ =>
               IdempotencyHooks.idempotencyRemove idempotencyKey merchant
           | None => ret tt
           end ;;
           throw error)
  end.

(** [POST /]: the idempotency hook, then the handler unless the hook has
    replied. *)
Definition createPayment (env : Env.t) (request : Request)
  : M World.t Http.Reply :=
  do passed <- IdempotencyMiddleware.idempotencyMiddleware env (hook request);
  match passed with
  | IdempotencyMiddleware.Replied code payload =>
      ret (Http.mkReply code payload)
  | IdempotencyMiddleware.Continue idempotencyKey =>
      createPaymentHandler env request idempotencyKey
  end.

End PaymentRoutes.

Module RefundRoutes.

(** [interface CreateRefundBody] *)
Record CreateRefundBody : Type := mkBody {
  amount : Number.t;
  reason : option string;
}.

Record Request : Type := mkRequest {
  hook : IdempotencyMiddleware.Request;
  (** [request.params.id] *)
  id : string;
  body : CreateRefundBody;
  ip : string;
  user_agent : option string;
}.

Definition not_found (entity id : string) : Http.Reply :=
  Http.mkReply 404
    (Some (JObject
             [ ("error", JString "Not Found");
               ("message", JString (entity +:+ " " +:+ id +:+ " not found"))
             ])).

Definition bad_request (message : string) : Http.Reply :=
  Http.mkReply 400
    (Some (JObject [ ("error", JString "Bad Request");
                     ("message", JString message) ])).

(** [payment.merchant_id !== merchantId] *)
Definition foreign (merchantId : option string) (payment : Payment.t)
  : bool :=
  match merchantId with
  | Some m => negb (String.eqb (Payment.merchant_id payment) m)
  | None => true
  end.

(** The response object of [POST /payments/:id/refunds]. *)
Definition response_of (refund : Refund.t) (payment : Payment.t)
    (error : option string) : Json :=
  JObject
    ([ ("id", JString (Refund.id refund));
       ("payment_id", JString (Refund.payment_id refund));
       ("amount", JNumber (Refund.amount refund));
       ("status", JString (RefundStatus.toString (Refund.status refund)));
       ("reason", JsonObject.ofOption (Refund.reason refund));
       ("provider_refund_id",
        JsonObject.ofOption (Refund.provider_refund_id refund));
       ("created_at", JNumber (Refund.created_at refund));
       ("payment_status",
        JString (PaymentStatus.toString (Payment.status payment))) ]
     ++ match Str.truthy error with
        | Some message => [("error", JString message)]
        | None => []
        end)%list.

(** The handler of [POST /payments/:id/refunds]. It awaits
    [refundService.createRefund], so it waits where that call does. *)
Definition createRefundHandler (env : Env.t) (request : Request)
    (idempotencyKey : option string) : Tx.C World.t Http.Reply :=
  let merchant := IdempotencyMiddleware.merchantId (hook request) in
  match Str.truthy merchant with
  | None =>
      Tx.ret (Http.mkReply 401
                (Some (JObject [("error", JString "Unauthorized")])))
  | Some merchantId =>
      (do found <- Tx.call (PaymentModel.getPaymentById (id request));
       match found with
       | None => Tx.ret (not_found "Payment" (id request))
       | Some owned =>
           if foreign (Some merchantId) owned
           then Tx.ret (not_found "Payment" (id request))
           else
             Tx.try_catch
               (do result <-
                  RefundService.createRefund env
                    {| RefundService.payment_id := id request;
                       RefundService.amount := amount (body request);
                       RefundService.reason := reason (body request) |}
                    (Some {| AuditContext.actor := Some merchantId;
                             AuditContext.actor_type := Some "merchant";
                             AuditContext.ip_address := Some (ip request);
                             AuditContext.user_agent :=
                               user_agent request |});
                match RefundService.refund result,
                      RefundService.payment result with
                | None, _ => Tx.throw (Http.TypeError "status")
                | Some _, None => Tx.throw (Http.TypeError "status")
                | Some refund, Some payment =>
                    let statusCode :=
                      if RefundService.success result
                      then 201%Z else 200%Z in
                    let response :=
                      response_of refund payment
                        (RefundService.error result) in
                    match Str.truthy idempotencyKey with
                    | Some _ =>
                        Tx.call
                          (IdempotencyHooks.idempotencyComplete
                             idempotencyKey merchant response statusCode)
                    | None => Tx.ret tt
                    end ;;
                    Tx.ret (Http.mkReply statusCode (Some response))
                end)
               (fun error =>
                  match Str.truthy idempotencyKey with
                  | Some _ =>
                      Tx.call
                        (IdempotencyHooks.idempotencyRemove idempotencyKey
                           merchant)
                  | None => Tx.ret tt
                  end ;;
                  if instanceOf "RefundValidationError" error
                  then Tx.ret (bad_request (messageOf error))
                  else Tx.throw error)
       end)%tx
  end.

(** [POST /payments/:id/refunds] *)
Definition createRefund (env : Env.t) (request : Request)
  : Tx.C World.t Http.Reply :=
  (do passed <-
     Tx.call
       (IdempotencyMiddleware.idempotencyMiddleware env (hook request));
   match passed with
   | IdempotencyMiddleware.Replied code payload =>
       Tx.ret (Http.mkReply code payload)
   | IdempotencyMiddleware.Continue idempotencyKey =>
       createRefundHandler env request idempotencyKey
   end)%tx.

(** The response object of [GET /refunds/:id]. *)
Definition refund_view (refund : Refund.t) : Json :=
  JObject
    [ ("id", JString (Refund.id refund));
      ("payment_id", JString (Refund.payment_id refund));
      ("amount", JNumber (Refund.amount refund));
      ("status", JString (RefundStatus.toString (Refund.status refund)));
      ("reason", JsonObject.ofOption (Refund.reason refund));
      ("provider_refund_id",
       JsonObject.ofOption (Refund.provider_refund_id refund));
      ("created_at", JNumber (Refund.created_at refund));
      ("updated_at", JNumber (Refund.updated_at refund)) ].

(** [GET /refunds/:id]; [reply.send] answers 200. *)
Definition getRefund (merchantId : option string) (id : string)
  : M World.t Http.Reply :=
  do found <- RefundQueries.getRefund id;
  match found with
  | None => ret (not_found "Refund" id)
  | Some refund =>
      do payment <- PaymentModel.getPaymentById (Refund.payment_id refund);
      match payment with
      | None => ret (not_found "Refund" id)
      | Some owned =>
          if foreign merchantId owned then ret (not_found "Refund" id)
          else ret (Http.mkReply 200 (Some (refund_view refund)))
      end
  end.

(** [GET /payments/:id/refundable] *)
Definition getRefundable (merchantId : option string) (paymentId : string)
  : M World.t Http.Reply :=
  do found <- PaymentModel.getPaymentById paymentId;
  match found with
  | None => ret (not_found "Payment" paymentId)
  | Some owned =>
      if foreign merchantId owned then ret (not_found "Payment" paymentId)
      else
        try_catch
          (do info <- RefundQueries.getRefundableAmount paymentId;
           ret (Http.mkReply 200
                  (Some (JObject
                           [ ("paymentAmount",
                              JDouble (RefundQueries.paymentAmount info));
                             ("totalRefunded",
                              JDouble (RefundQueries.totalRefunded info));
                             ("pendingRefunds",
                              JDouble (RefundQueries.pendingRefunds info));
                             ("availableForRefund",
                              JDouble
                                (RefundQueries.availableForRefund info)) ]))))
          (fun error =>
             if instanceOf "RefundValidationError" error
             then ret (bad_request (messageOf error))
             else throw error)
  end.

End RefundRoutes.

(** ** middleware/error-handler.ts *)

Module ErrorHandler.

(** What [errorHandler] reads of the error it is given: the thrown value
    with its class and message, and the properties [statusCode], [code],
    [validation] (set by the framework on its own errors) and [provider]
    (set by [ProviderError]). *)
Record FastifyError : Type := mkError {
  error : Thrown;
  statusCode : option Z;
  code : option string;
  validation : option Json;
  provider : option string;
}.

(** An error thrown by a service, which sets none of the properties. *)
Definition ofThrown (e : Thrown) : FastifyError :=
  {| error := e; statusCode := None; code := None; validation := None;
     provider := None |}.

(** [error.message]; a thrown value that is no [Error] has none, and the
    field is left out of the JSON body. *)
Definition message_field (e : Thrown) : list (string * Json) :=
  match e with
  | ErrorObject _ m => [("message", JString m)]
  | Value _ => []
  end.

Definition optional_field (key : string) (value : option string)
  : list (string * Json) :=
  match value with
  | Some v => [(key, JString v)]
  | None => []
  end.

(** [error.statusCode || 500] *)
Definition status_or_500 (statusCode : option Z) : Z :=
  match statusCode with
  | Some c => if (c =? 0)%Z then 500%Z else c
  | None => 500%Z
  end.

(** [if (error.validation)] *)
Definition truthy_validation (validation : option Json) : bool :=
  match validation with
  | Some v => JsonValue.truthy v
  | None => false
  end.

(** [errorHandler] *)
Definition errorHandler (e : FastifyError) : Http.Reply :=
  if instanceOf "PaymentValidationError" (error e)
     || instanceOf "RefundValidationError" (error e)
     || instanceOf "WebhookUrlValidationError" (error e)
  then
    Http.mkReply 400
      (Some (JObject
               ([("error", JString "Bad Request")]
                ++ message_field (error e)
                ++ [("code", JString "VALIDATION_ERROR")])%list))
  else if instanceOf "PaymentNotFoundError" (error e) then
    Http.mkReply 404
      (Some (JObject
               ([("error", JString "Not Found")]
                ++ message_field (error e)
                ++ [("code", JString "NOT_FOUND")])%list))
  else if instanceOf "IdempotencyConflictError" (error e) then
    Http.mkReply 409
      (Some (JObject
               ([("error", JString "Conflict")]
                ++ message_field (error e)
                ++ [("code", JString "IDEMPOTENCY_CONFLICT")])%list))
  else if instanceOf "ProviderError" (error e) then
    Http.mkReply 502
      (Some (JObject
               ([("error", JString "Bad Gateway")]
                ++ message_field (error e)
                ++ optional_field "code" (code e)
                ++ [("details",
                     JObject (optional_field "provider" (provider e)))])%list))
  else
    if truthy_validation (validation e) then
      Http.mkReply 400
        (Some (JObject
                 ([ ("error", JString "Bad Request");
                    ("message", JString "Validation failed");
                    ("code", JString "VALIDATION_ERROR");
                    ("details",
                     JObject
                       match validation e with
                       | Some v => [("validation", v)]
                       | None => []
                       end) ])))
    else
      let status := status_or_500 (statusCode e) in
      let server := (500 <=? status)%Z in
      Http.mkReply status
        (Some (JObject
                 ([("error",
                    JString (if server then "Internal Server Error"
                             else "Error"))]
                  ++ (if server
                      then [("message",
                             JString "An unexpected error occurred")]
                      else message_field (error e))
                  ++ [("code",
                       JString (match Str.truthy (code e) with
                                | Some c => c
                                | None => "UNKNOWN_ERROR"
                                end))])%list)).

End ErrorHandler.

(** ** Further fixtures *)

Module Scenario.

(** A destination that answers 503 to every request. *)
Definition unavailable (n : nat) (webhook : WebhookEvent.t)
  : Outcome HttpResponse.t :=
  Returned (HttpResponse.mk false 503 "Service Unavailable").

(** The development configuration in front of that destination. *)
Definition down : Env.t :=
  Env.mk (Env.isProduction Fixture.env) (Env.webhook_secret Fixture.env)
    (Env.maxRetries Fixture.env) (Env.retryDelays Fixture.env)
    (Env.ttlSeconds Fixture.env) (Env.uuid Fixture.env)
    (Env.parseUrl Fixture.env) (Env.hmac Fixture.env)
    (Env.sha256 Fixture.env) (Env.stringify Fixture.env)
    (Env.toISOString Fixture.env) (Env.provider_processPayment Fixture.env)
    (Env.provider_processRefund Fixture.env) unavailable.

(** A provider that refuses every refund. *)
Definition refused : RefundResponse.t :=
  {| RefundResponse.success := false;
     RefundResponse.refundId := "re_2";
     RefundResponse.status := ProviderStatus.failed;
     RefundResponse.rawResponse := JObject [];
     RefundResponse.errorCode := Some "charge_already_refunded";
     RefundResponse.errorMessage :=
       Some "This charge has already been refunded." |}.

Definition refusing : Env.t :=
  Env.mk (Env.isProduction Fixture.env) (Env.webhook_secret Fixture.env)
    (Env.maxRetries Fixture.env) (Env.retryDelays Fixture.env)
    (Env.ttlSeconds Fixture.env) (Env.uuid Fixture.env)
    (Env.parseUrl Fixture.env) (Env.hmac Fixture.env)
    (Env.sha256 Fixture.env) (Env.stringify Fixture.env)
    (Env.toISOString Fixture.env) (Env.provider_processPayment Fixture.env)
    (fun _ _ _ => Returned refused) (Env.fetch Fixture.env).


(** The same request for a provider that is not registered. *)
Definition unsupported_request : PaymentRoutes.Request :=
  {| PaymentRoutes.hook := Fixture.request;
     PaymentRoutes.body :=
       {| PaymentRoutes.external_id := None;
          PaymentRoutes.amount := 1000000;
          PaymentRoutes.currency := "USD";
          PaymentRoutes.provider := "bitcoin";
          PaymentRoutes.description := None;
          PaymentRoutes.metadata := None;
          PaymentRoutes.webhook_url := None |};
     PaymentRoutes.ip := "203.0.113.7";
     PaymentRoutes.user_agent := None |}.

(** A [POST /payments/pay-1/refunds] of merchant [m-2] with idempotency
    key [R]; the payment [pay-1] belongs to merchant [m-1]. *)
Definition foreign_refund_request : RefundRoutes.Request :=
  {| RefundRoutes.hook :=
       {| IdempotencyMiddleware.method := "POST";
          IdempotencyMiddleware.idempotency_key_header := Some "R";
          IdempotencyMiddleware.merchantId := Some "m-2";
          IdempotencyMiddleware.body := JObject [("amount", JDouble (Number.nearest false 30 1))];
          IdempotencyMiddleware.url := "/api/v1/payments/pay-1/refunds" |};
     RefundRoutes.id := "pay-1";
     RefundRoutes.body :=
       {| RefundRoutes.amount := Number.nearest false 30 1;
          RefundRoutes.reason := None |};
     RefundRoutes.ip := "203.0.113.9";
     RefundRoutes.user_agent := None |}.

(** A [POST /payments/pay-1/refunds] of merchant [m-1], the owner of the
    payment, with idempotency key [R]: a refund of 200. *)
Definition excessive_refund_request : RefundRoutes.Request :=
  {| RefundRoutes.hook :=
       {| IdempotencyMiddleware.method := "POST";
          IdempotencyMiddleware.idempotency_key_header := Some "R";
          IdempotencyMiddleware.merchantId := Some "m-1";
          IdempotencyMiddleware.body :=
            JObject [("amount", JDouble (Number.nearest false 200 1))];
          IdempotencyMiddleware.url := "/api/v1/payments/pay-1/refunds" |};
     RefundRoutes.id := "pay-1";
     RefundRoutes.body :=
       {| RefundRoutes.amount := Number.nearest false 200 1;
          RefundRoutes.reason := None |};
     RefundRoutes.ip := "203.0.113.7";
     RefundRoutes.user_agent := None |}.

End Scenario.

(** * Properties *)

Local Open Scope list_scope.

(** ** The saga orchestrator *)

Section SagaFacts.
Context {W C : Type}.

Abbreviation Step := (SagaStep.t W C).

(** The forward loop over a prefix that completes, followed by a step that
    throws, stops at that step with the prefix recorded as completed. *)
Lemma for_steps_throw (pre : list Step) :
  forall (sk : Step) (post done : list Step) (ctx ctx1 : C) (w w1 w2 : W) e,
    SagaOrchestrator.completes pre ctx w = Some (ctx1, w1) ->
    SagaStep.execute sk ctx1 w1 = (Threw e, w2) ->
    SagaOrchestrator.for_steps (pre ++ sk :: post) ctx done w
    = (Threw e, (ctx1, done ++ pre), w2).
Proof.
  induction pre as [|s pre IH]; intros sk post done ctx ctx1 w w1 w2 e Hpre Hk.
  - simpl in Hpre. injection Hpre as -> ->.
    simpl. rewrite Hk. now rewrite app_nil_r.
  - simpl in Hpre. simpl.
    destruct (SagaStep.execute s ctx w) as [[ctx'|e'] w'] eqn:Hs; [|discriminate].
    rewrite (IH sk post (done ++ [s]) ctx' ctx1 w' w1 w2 e Hpre Hk).
    now rewrite <- app_assoc.
Qed.

(** The forward loop over steps that all complete. *)
Lemma for_steps_complete (steps : list Step) :
  forall (done : list Step) (ctx ctx1 : C) (w w1 : W),
    SagaOrchestrator.completes steps ctx w = Some (ctx1, w1) ->
    SagaOrchestrator.for_steps steps ctx done w
    = (Returned tt, (ctx1, done ++ steps), w1).
Proof.
  induction steps as [|s steps IH]; intros done ctx ctx1 w w1 Hc.
  - simpl in Hc. injection Hc as -> ->. simpl. now rewrite app_nil_r.
  - simpl in Hc. simpl.
    destruct (SagaStep.execute s ctx w) as [[ctx'|e'] w'] eqn:Hs; [|discriminate].
    rewrite (IH (done ++ [s]) ctx' ctx1 w' w1 Hc).
    now rewrite <- app_assoc.
Qed.

(** Whatever the forward loop does, it either completes every step or stops
    at the first step that throws. *)
Lemma for_steps_cases (steps : list Step) :
  forall (done : list Step) (ctx : C) (w : W),
    (exists ctx1 w1,
        SagaOrchestrator.completes steps ctx w = Some (ctx1, w1))
    \/ (exists pre sk post ctx1 w1 e w2,
           steps = pre ++ sk :: post
           /\ SagaOrchestrator.completes pre ctx w = Some (ctx1, w1)
           /\ SagaStep.execute sk ctx1 w1 = (Threw e, w2)).
Proof.
  induction steps as [|s steps IH]; intros done ctx w.
  - left. now exists ctx, w.
  - destruct (SagaStep.execute s ctx w) as [[ctx'|e'] w'] eqn:Hs.
    + destruct (IH done ctx' w') as [(ctx1 & w1 & H)|
        (pre & sk & post & ctx1 & w1 & e & w2 & -> & Hpre & Hk)].
      * left. exists ctx1, w1. simpl. now rewrite Hs.
      * right. exists (s :: pre), sk, post, ctx1, w1, e, w2.
        repeat split; [|exact Hk]. simpl. now rewrite Hs.
    + right. exists [], s, steps, ctx, w, e', w'. now repeat split.
Qed.

(** One iteration of the compensation loop returns, and leaves the world
    the compensation leaves. *)
Lemma compensate_at_returns (completed : list Step) (ctx : C) (i : nat)
    (step : Step) (w : W) :
  completed !! i = Some step ->
  SagaOrchestrator.compensate_at completed ctx i w
  = (Returned tt, SagaOrchestrator.compensated step ctx w).
Proof.
  intros Hi. unfold SagaOrchestrator.compensate_at, SagaOrchestrator.compensated.
  rewrite Hi. destruct (SagaStep.compensate step) as [comp|]; [|reflexivity].
  unfold try_catch. destruct (comp ctx w) as [[[]|e] w']; reflexivity.
Qed.

(** The compensation loop started at counter [n] runs the compensations of
    the first [n] completed steps, last first, and returns. *)
Lemma compensation_loop_sweep (completed : list Step) (ctx : C) (n : nat) :
  forall w : W,
    (n <= length completed)%nat ->
    SagaOrchestrator.compensation_loop completed ctx n w
    = (Returned tt, SagaOrchestrator.sweep (rev (take n completed)) ctx w).
Proof.
  induction n as [|i IH]; intros w Hn.
  - reflexivity.
  - destruct (lookup_lt_is_Some_2 completed i) as [step Hstep]; [lia|].
    simpl. unfold bind.
    rewrite (compensate_at_returns completed ctx i step w Hstep).
    rewrite IH by lia.
    rewrite (take_S_r completed i step Hstep), rev_app_distr.
    reflexivity.
Qed.

(** The [catch] branch of [execute], spelled out. *)
Lemma execute_failure
    (pre : list Step) (sk : Step) (post : list Step)
    (ctx0 ctx1 : C) (w0 w1 w2 : W) (e : Thrown) :
  SagaOrchestrator.completes pre ctx0 w0 = Some (ctx1, w1) ->
  SagaStep.execute sk ctx1 w1 = (Threw e, w2) ->
  SagaOrchestrator.execute (pre ++ sk :: post) ctx0 w0
  = (Returned
       {| SagaResult.success := false;
          SagaResult.context := ctx1;
          SagaResult.error := Some (toError e);
          SagaResult.failedStep := Some (SagaStep.name sk);
          SagaResult.completedSteps := map SagaStep.name pre |},
     SagaOrchestrator.sweep (rev pre) ctx1 w2).
Proof.
  intros Hpre Hk. unfold SagaOrchestrator.execute.
  rewrite (for_steps_throw pre sk post [] ctx0 ctx1 w0 w1 w2 e Hpre Hk).
  simpl app. unfold bind.
  rewrite compensation_loop_sweep by lia.
  rewrite firstn_all.
  unfold ret. do 2 f_equal.
  f_equal.
  rewrite lookup_app_r by lia.
  now replace (length pre - length pre)%nat with 0%nat by lia.
Qed.

(** The [try] branch of [execute] when every step completes. *)
Lemma execute_success (steps : list Step) (ctx0 ctx1 : C) (w0 w1 : W) :
  SagaOrchestrator.completes steps ctx0 w0 = Some (ctx1, w1) ->
  SagaOrchestrator.execute steps ctx0 w0
  = (Returned
       {| SagaResult.success := true;
          SagaResult.context := ctx1;
          SagaResult.error := None;
          SagaResult.failedStep := None;
          SagaResult.completedSteps := map SagaStep.name steps |}, w1).
Proof.
  intros Hc. unfold SagaOrchestrator.execute.
  now rewrite (for_steps_complete steps [] ctx0 ctx1 w0 w1 Hc).
Qed.

(** C3. Saga compensation order: when the steps [pre] complete and the next
    step [sk] throws [e], [execute] returns a failure result carrying the
    error, the name of [sk] and the names of [pre] in execution order, and
    the world it leaves is the one obtained by invoking the compensations
    of the steps of [pre], and only those, in reverse order from the world
    of the throw, each invoked whether or not the ones before it threw. *)
Theorem saga_compensation_order
    (pre : list Step) (sk : Step) (post : list Step)
    (ctx0 ctx1 : C) (w0 w1 w2 : W) (e : Thrown) :
  SagaOrchestrator.completes pre ctx0 w0 = Some (ctx1, w1) ->
  SagaStep.execute sk ctx1 w1 = (Threw e, w2) ->
  SagaOrchestrator.execute (pre ++ sk :: post) ctx0 w0
  = (Returned
       {| SagaResult.success := false;
          SagaResult.context := ctx1;
          SagaResult.error := Some (toError e);
          SagaResult.failedStep := Some (SagaStep.name sk);
          SagaResult.completedSteps := map SagaStep.name pre |},
     SagaOrchestrator.sweep (rev pre) ctx1 w2).
Proof.
  intros Hpre Hk. now apply execute_failure with (w1 := w1).
Qed.

(** C9. Saga execution is total: for every step list, context and world
    [execute] returns a result and throws nothing, and the result is fixed
    by what the steps do. Either every step completes, and the result is
    the success record with the context and the world the steps leave; or
    the steps of a prefix complete and the next one throws [e], and the
    result is [{success: false, error, failedStep}] with [e] as an [Error],
    the name of the step that threw and the names of the completed ones,
    in the world left by the compensations of the prefix, each invoked
    whether or not the ones before it threw. *)
Theorem saga_execute_total (steps : list Step) (ctx0 : C) (w0 : W) :
  (exists (ctx1 : C) (w1 : W),
      SagaOrchestrator.completes steps ctx0 w0 = Some (ctx1, w1)
      /\ SagaOrchestrator.execute steps ctx0 w0
         = (Returned
              {| SagaResult.success := true;
                 SagaResult.context := ctx1;
                 SagaResult.error := None;
                 SagaResult.failedStep := None;
                 SagaResult.completedSteps := map SagaStep.name steps |},
            w1))
  \/ (exists pre sk post ctx1 w1 e w2,
         steps = pre ++ sk :: post
         /\ SagaOrchestrator.completes pre ctx0 w0 = Some (ctx1, w1)
         /\ SagaStep.execute sk ctx1 w1 = (Threw e, w2)
         /\ SagaOrchestrator.execute steps ctx0 w0
            = (Returned
                 {| SagaResult.success := false;
                    SagaResult.context := ctx1;
                    SagaResult.error := Some (toError e);
                    SagaResult.failedStep := Some (SagaStep.name sk);
                    SagaResult.completedSteps := map SagaStep.name pre |},
               SagaOrchestrator.sweep (rev pre) ctx1 w2)).
Proof.
  destruct (for_steps_cases steps [] ctx0 w0) as [(ctx1 & w1 & Hc)|
    (pre & sk & post & ctx1 & w1 & e & w2 & -> & Hpre & Hk)].
  - left. exists ctx1, w1. split; [exact Hc|].
    exact (execute_success steps ctx0 ctx1 w0 w1 Hc).
  - right. exists pre, sk, post, ctx1, w1, e, w2.
    repeat split; try assumption.
    exact (execute_failure pre sk post ctx0 ctx1 w0 w1 w2 e Hpre Hk).
Qed.

End SagaFacts.

(** C3, at the steps of the test "should continue compensation even if one
    fails": both compensations run, last first, although [comp2] throws. *)
Lemma saga_compensation_order_witness :
  SagaOrchestrator.execute
    [SagaTest.step1; SagaTest.step2; SagaTest.step3]
    (SagaTest.mkContext 0 []) []
  = (Returned
       {| SagaResult.success := false;
          SagaResult.context := SagaTest.mkContext 0 ["step1"; "step2"];
          SagaResult.error := Some (ErrorObject "Error" "Failed");
          SagaResult.failedStep := Some "step3";
          SagaResult.completedSteps := ["step1"; "step2"] |},
     ["comp2"; "comp1"]).
Proof.
  exact (saga_compensation_order
           [SagaTest.step1; SagaTest.step2] SagaTest.step3 []
           (SagaTest.mkContext 0 [])
           (SagaTest.mkContext 0 ["step1"; "step2"])
           [] [] [] (ErrorObject "Error" "Failed") eq_refl eq_refl).
Defined.

(** ** Status transitions applied from provider webhooks *)

(** Evaluation of a computation applied to a world. *)
Ltac run :=
  repeat (progress
            (cbn;
             unfold Js.bind, Js.ret, Js.get, Js.modify, Js.throw,
               Js.try_catch, Db.uuidv4, Db.remote,
               WebhookService.generateSignature, WebhookService.insert_event,
               WebhookService.publishToQueue,
               TransactionModel.createTransaction, AuditService.log,
               PaymentModel.getPaymentById)).

Lemma find_some_has_id (P : Payment.t -> bool) (l : list Payment.t)
    (p : Payment.t) :
  find P l = Some p ->
  exists row, find (PaymentModel.has_id (Payment.id p)) l = Some row
              /\ Payment.id row = Payment.id p.
Proof.
  induction l as [|q l IH]; simpl; [discriminate|].
  intros H. unfold PaymentModel.has_id at 1.
  destruct (String.eqb (Payment.id q) (Payment.id p)) eqn:E.
  - exists q. split; [reflexivity|]. now apply String.eqb_eq.
  - destruct (P q).
    + injection H as ->. now rewrite String.eqb_refl in E.
    + now apply IH.
Qed.

Lemma find_update_where_id (i : string) (f : Payment.t -> Payment.t)
    (l : list Payment.t) :
  (forall p, Payment.id (f p) = Payment.id p) ->
  find (PaymentModel.has_id i) (PaymentModel.update_where_id i f l)
  = f <$> find (PaymentModel.has_id i) l.
Proof.
  intros Hf. induction l as [|q l IH]; simpl; [reflexivity|].
  destruct (PaymentModel.has_id i q) eqn:E.
  - unfold PaymentModel.has_id. rewrite Hf. unfold PaymentModel.has_id in E.
    now rewrite E.
  - now rewrite E.
Qed.

(** [isValidStatusTransition] decides the printed table. *)
Lemma transition_table (from to : PaymentStatus.t) :
  PaymentService.isValidStatusTransition from to = true
  <-> PaymentService.permitted from to.
Proof.
  unfold PaymentService.permitted. split.
  - destruct from, to; simpl; intros H; try discriminate; tauto.
  - intros [[-> [->|[->| ->]]]|[[-> [->| ->]]|[[-> [->| ->]]|[-> ->]]]];
      reflexivity.
Qed.

(** The first row of a selection is the row that [find] gives. *)
Lemma filter_head {A} (P : A -> bool) (l : list A) (x : A) :
  find P l = Some x -> exists rest, List.filter P l = x :: rest.
Proof.
  induction l as [|y l IH]; cbn; [discriminate|].
  destruct (P y) eqn:Hy.
  - intros [= ->]. now eexists.
  - exact IH.
Qed.

Lemma filter_none {A} (P : A -> bool) (l : list A) :
  find P l = None -> List.filter P l = [].
Proof.
  induction l as [|y l IH]; cbn; [reflexivity|].
  destruct (P y); [discriminate|exact IH].
Qed.

(** Evaluation of a computation inside a transaction. *)
Ltac run_tx :=
  repeat (progress
            (cbn;
             unfold Tx.bind, Tx.ret, Tx.throw, Tx.try_catch, Tx.lift,
               Js.bind, Js.ret, Js.get, Js.modify, Js.throw,
               Js.try_catch, Db.uuidv4, Db.remote,
               WebhookService.generateSignature, WebhookService.insert_event,
               WebhookService.publishToQueue,
               TransactionModel.createTransaction, AuditService.log,
               AuditService.logPaymentStatusChanged,
               PaymentModel.getPaymentById)).

(** The tables a transaction writes through its client, and the events. *)
Ltac flatten_world :=
  cbv beta iota delta
    [World.with_payments World.with_transactions World.with_refunds
     World.with_webhook_events World.with_audit_logs
     World.with_idempotency_keys World.with_redis World.with_queue
     World.with_timers World.with_deliveries World.with_now
     World.with_uuid_next World.with_remote_calls
     World.payments World.transactions World.refunds World.webhook_events
     World.audit_logs World.idempotency_keys World.redis World.channel
     World.queue World.timers World.deliveries World.now World.uuid_next
     World.remote_calls Tx.world Tx.locked].

(** Inside a transaction that has not locked the payment row of the
    event, [queueWebhook] does what it does outside one. *)
Lemma queueWebhook_unlocked (env : Env.t)
    (input : WebhookService.QueueWebhookInput) (s : Tx.State) :
  match Str.truthy (WebhookService.payment_id input) with
  | Some id => existsb (String.eqb id) (Tx.locked s) = false
  | None => True
  end ->
  Locking.queueWebhook env input s
  = Tx.lift (WebhookService.queueWebhook env input) s.
Proof.
  intros Hfree. destruct s as [w locked].
  unfold Locking.queueWebhook, WebhookService.queueWebhook.
  destruct (negb _); [reflexivity|].
  run_tx. unfold Tx.insert_event.
  cbn [WebhookEvent.payment_id Tx.locked] in *.
  destruct (Str.truthy (WebhookService.payment_id input)) as [id|].
  - rewrite Hfree. run_tx. destruct (World.channel w); reflexivity.
  - run_tx. destruct (World.channel w); reflexivity.
Qed.

(** C4, amended. For a payment found by provider transaction id:
    (1) when the transition table forbids the move from its status to the
    new one, [updatePaymentFromWebhook] returns the payment and the world is
    unchanged, with or without webhook URL; (2) when the payment has no
    webhook URL, the call returns, and the new status is applied exactly
    when the table permits the move: then the status is updated, one
    transaction row and one audit row are appended, and no merchant
    webhook is enqueued. *)
Theorem webhook_update_transition
    (env : Env.t) (providerTransactionId provider : string)
    (newStatus : PaymentStatus.t) (providerResponse : Json)
    (w : World.t) (payment : Payment.t) :
  find (PaymentService.matches_provider providerTransactionId provider)
    (World.payments w) = Some payment ->
  (~ PaymentService.permitted (Payment.status payment) newStatus ->
   PaymentService.updatePaymentFromWebhook env providerTransactionId provider
     newStatus providerResponse w
   = Tx.Ends (Returned (Some payment)) w)
  /\ (Str.truthy (Payment.webhook_url payment) = None ->
      exists (r : option Payment.t) (w' : World.t),
        PaymentService.updatePaymentFromWebhook env providerTransactionId
          provider newStatus providerResponse w
        = Tx.Ends (Returned r) w'
        /\ (PaymentService.permitted (Payment.status payment) newStatus ->
            World.payments w'
            = PaymentModel.update_where_id (Payment.id payment)
                (Payment.with_status newStatus (World.now w))
                (World.payments w)
            /\ (exists row, r = Some row
                            /\ Payment.id row = Payment.id payment
                            /\ Payment.status row = newStatus)
            /\ (exists tx,
                   World.transactions w' = World.transactions w ++ [tx]
                   /\ Transaction.payment_id tx = Payment.id payment
                   /\ Transaction.status tx = newStatus)
            /\ (exists a, World.audit_logs w' = World.audit_logs w ++ [a]
                          /\ AuditLog.entity_id a = Payment.id payment
                          /\ AuditLog.action a = "status_changed")
            /\ World.webhook_events w' = World.webhook_events w
            /\ World.queue w' = World.queue w)
        /\ (~ PaymentService.permitted (Payment.status payment) newStatus ->
            r = Some payment /\ w' = w)).
Proof.
  intros Hfind.
  destruct (find_some_has_id _ _ _ Hfind) as (row & Hrow & Hid).
  destruct (filter_head _ _ _ Hfind) as (rest & Hrows).
  assert (Hforbidden :
    PaymentService.isValidStatusTransition (Payment.status payment) newStatus
    = false ->
    PaymentService.updatePaymentFromWebhook env providerTransactionId provider
      newStatus providerResponse w
    = Tx.Ends (Returned (Some payment)) w).
  { intros Hv.
    unfold PaymentService.updatePaymentFromWebhook,
      Locking.withTransaction.
    unfold Tx.bind at 1, Tx.select_for_update. cbn [Tx.world Tx.locked].
    rewrite Hrows, Hv. reflexivity. }
  split.
  - intros Hnot. apply Hforbidden.
    destruct (PaymentService.isValidStatusTransition _ _) eqn:Hv;
      [|reflexivity].
    apply transition_table in Hv. contradiction.
  - intros Hurl.
    destruct (PaymentService.isValidStatusTransition (Payment.status payment)
                newStatus) eqn:Hv.
    + unfold PaymentService.updatePaymentFromWebhook,
        Locking.withTransaction.
      unfold Tx.bind at 1, Tx.select_for_update. cbn [Tx.world Tx.locked].
      rewrite Hrows, Hv, Hurl. run_tx.
      rewrite find_update_where_id by reflexivity. rewrite Hrow.
      eexists _, _. split; [reflexivity|]. cbn.
      split; [intros _|intros Hn; apply transition_table in Hv; tauto].
      repeat split; eauto 8.
    + rewrite (Hforbidden eq_refl). eexists _, _. split; [reflexivity|].
      split; [|now split].
      intros Hp. apply transition_table in Hp. congruence.
Qed.

(** C4, amended, at a pending payment without webhook URL that a provider
    webhook reports completed. *)
Lemma webhook_update_transition_witness :
  exists (r : option Payment.t) (w' : World.t),
    PaymentService.updatePaymentFromWebhook Fixture.env "ch_1" "stripe"
      PaymentStatus.completed JNull
      (Fixture.with_payment (Fixture.payment PaymentStatus.pending None))
    = Tx.Ends (Returned r) w'
    /\ World.payments w'
       = [Fixture.payment PaymentStatus.completed None]
    /\ (exists row, r = Some row
                    /\ Payment.status row = PaymentStatus.completed)
    /\ World.webhook_events w' = [].
Proof.
  destruct (proj2 (webhook_update_transition Fixture.env "ch_1" "stripe"
                     PaymentStatus.completed JNull
                     (Fixture.with_payment
                        (Fixture.payment PaymentStatus.pending None))
                     (Fixture.payment PaymentStatus.pending None)
                     ltac:(vm_compute; reflexivity))
              ltac:(vm_compute; reflexivity))
    as (r & w' & Hrun & Hpermitted & _).
  destruct Hpermitted as (Hpay & (row & Hr & _ & Hs) & _ & _ & Hevents & _).
  { left. split; [reflexivity|]. right. now left. }
  exists r, w'. split; [exact Hrun|].
  split; [rewrite Hpay; vm_compute; reflexivity|].
  split; [exists row; split; [exact Hr|exact Hs]|].
  rewrite Hevents. reflexivity.
Defined.

(** C4 as stated fails: a permitted transition of a payment without webhook
    URL updates the status and appends the transaction and audit rows, but
    enqueues no merchant webhook. *)
Lemma webhook_update_without_url_enqueues_nothing :
  let w :=
    Fixture.with_payment (Fixture.payment PaymentStatus.pending None) in
  exists w',
    PaymentService.updatePaymentFromWebhook Fixture.env "ch_1" "stripe"
      PaymentStatus.completed JNull w
    = Tx.Ends (Returned (Some (Fixture.payment PaymentStatus.completed None)))
        w'
    /\ PaymentService.isValidStatusTransition PaymentStatus.pending
         PaymentStatus.completed = true
    /\ World.payments w' = [Fixture.payment PaymentStatus.completed None]
    /\ length (World.transactions w') = 1%nat
    /\ length (World.audit_logs w') = 1%nat
    /\ World.webhook_events w' = []
    /\ World.queue w' = [].
Proof.
  cbn. eexists. split; [reflexivity|]. cbn. repeat split; reflexivity.
Qed.

(** ** Webhook delivery *)

Section EventTable.
Variable id : string.
Variable f : WebhookEvent.t -> WebhookEvent.t.
Hypothesis f_id : forall e, WebhookEvent.id (f e) = WebhookEvent.id e.

Let update (l : list WebhookEvent.t) : list WebhookEvent.t :=
  map (fun e => if WebhookService.has_id id e then f e else e) l.

Lemma find_event_updated (l : list WebhookEvent.t) :
  find (WebhookService.has_id id) (update l)
  = f <$> find (WebhookService.has_id id) l.
Proof.
  induction l as [|e l IH]; simpl; [reflexivity|].
  destruct (WebhookService.has_id id e) eqn:E.
  - unfold WebhookService.has_id in *. now rewrite f_id, E.
  - now rewrite E.
Qed.

Lemma find_event_other (j : string) (l : list WebhookEvent.t) :
  j <> id ->
  find (WebhookService.has_id j) (update l)
  = find (WebhookService.has_id j) l.
Proof.
  intros Hj. induction l as [|e l IH]; simpl; [reflexivity|].
  destruct (WebhookService.has_id id e) eqn:E.
  - unfold WebhookService.has_id in *. rewrite f_id.
    apply String.eqb_eq in E.
    destruct (String.eqb (WebhookEvent.id e) j) eqn:Ej.
    + apply String.eqb_eq in Ej. congruence.
    + exact IH.
  - destruct (WebhookService.has_id j e); [reflexivity|exact IH].
Qed.
End EventTable.

Ltac run_webhook :=
  repeat (progress
            (cbn;
             unfold Js.bind, Js.ret, Js.get, Js.modify, Js.throw,
               Js.try_catch, Db.uuidv4, Db.remote,
               WebhookService.getWebhookById, WebhookService.sendWebhook,
               WebhookService.markAsSent, WebhookService.update_where_id,
               WebhookService.handleFailure)).

(** A settled event is not delivered again. *)
Lemma process_settled (env : Env.t) (id : string) (w : World.t)
    (e : WebhookEvent.t) :
  Delivery.stored id w = Some e ->
  WebhookEvent.status e <> WebhookStatus.pending ->
  WebhookService.processWebhook env id w
  = (Returned (WebhookStatus.eqb (WebhookEvent.status e) WebhookStatus.sent),
     w).
Proof.
  unfold Delivery.stored. intros Hf Hs.
  unfold WebhookService.processWebhook. run_webhook. rewrite Hf.
  destruct (WebhookEvent.status e); [congruence|reflexivity|reflexivity].
Qed.

Lemma stored_id (id : string) (w : World.t) (e : WebhookEvent.t) :
  Delivery.stored id w = Some e -> WebhookEvent.id e = id.
Proof.
  unfold Delivery.stored. intros H. apply find_some in H as [_ H].
  now apply String.eqb_eq in H.
Qed.

(** [handleFailure] on the event stored under [id]. *)
Lemma handleFailure_stored (env : Env.t) (id : string) (w : World.t)
    (e : WebhookEvent.t) (errorMessage : string) :
  Delivery.stored id w = Some e ->
  exists (w' : World.t) (e' : WebhookEvent.t),
    WebhookService.handleFailure env e errorMessage w = (Returned tt, w')
    /\ Delivery.stored id w' = Some e'
    /\ (forall j, j <> id -> Delivery.stored j w' = Delivery.stored j w)
    /\ World.deliveries w' = World.deliveries w
    /\ World.remote_calls w' = World.remote_calls w
    /\ World.now w' = World.now w
    /\ World.channel w' = World.channel w
    /\ World.queue w' = World.queue w
    /\ WebhookEvent.max_attempts e' = WebhookEvent.max_attempts e
    /\ WebhookEvent.attempts e' = (WebhookEvent.attempts e + 1)%Z
    /\ WebhookEvent.last_error e' = Some errorMessage
    /\ WebhookEvent.sent_at e' = WebhookEvent.sent_at e
    /\ (((WebhookEvent.max_attempts e <= WebhookEvent.attempts e + 1)%Z
         /\ WebhookEvent.status e' = WebhookStatus.failed
         /\ WebhookEvent.next_retry_at e' = WebhookEvent.next_retry_at e
         /\ World.timers w' = World.timers w)
        \/ ((WebhookEvent.attempts e + 1 < WebhookEvent.max_attempts e)%Z
            /\ WebhookEvent.status e' = WebhookEvent.status e
            /\ WebhookEvent.next_retry_at e'
               = Some (World.now w
                       + WebhookService.retryDelay (Env.retryDelays env)
                           (WebhookEvent.attempts e + 1))%Z
            /\ World.timers w'
               = if World.channel w
                 then World.timers w
                      ++ [((World.now w
                            + WebhookService.retryDelay (Env.retryDelays env)
                                (WebhookEvent.attempts e + 1))%Z, id)]
                 else World.timers w)).
Proof.
  intros Hf. pose proof (stored_id id w e Hf) as Hid.
  unfold Delivery.stored in *. unfold WebhookService.handleFailure.
  rewrite Hid.
  destruct (WebhookEvent.max_attempts e <=? WebhookEvent.attempts e + 1)%Z
    eqn:Hmax.
  - apply Z.leb_le in Hmax. run_webhook.
    eexists _, _. split; [reflexivity|]. cbn.
    rewrite find_event_updated by reflexivity. rewrite Hf. cbn.
    split; [reflexivity|].
    split; [intros j Hj; now apply find_event_other|].
    repeat (split; [reflexivity|]). left. now repeat split.
  - apply Z.leb_gt in Hmax. run_webhook.
    destruct (World.channel w) eqn:Hch.
    all: eexists _, _; (split; [reflexivity|]); cbn.
    all: rewrite find_event_updated by reflexivity; rewrite Hf; cbn.
    all: split; [reflexivity|].
    all: split; [intros j Hj; now apply find_event_other|].
    all: rewrite ?Hch; repeat (split; [reflexivity|]); right.
    all: now repeat split.
Qed.

(** One delivery attempt on a pending event. *)
Lemma process_pending (env : Env.t) (id : string) (w : World.t)
    (e : WebhookEvent.t) :
  Delivery.stored id w = Some e ->
  WebhookEvent.status e = WebhookStatus.pending ->
  exists (ok : bool) (w' : World.t) (e' : WebhookEvent.t),
    WebhookService.processWebhook env id w = (Returned ok, w')
    /\ Delivery.stored id w' = Some e'
    /\ (forall j, j <> id -> Delivery.stored j w' = Delivery.stored j w)
    /\ World.deliveries w' = World.deliveries w ++ [id]
    /\ World.remote_calls w' = S (World.remote_calls w)
    /\ World.now w' = World.now w
    /\ World.channel w' = World.channel w
    /\ World.queue w' = World.queue w
    /\ WebhookEvent.max_attempts e' = WebhookEvent.max_attempts e
    /\ ((~ Delivery.failed (Env.fetch env (World.remote_calls w) e)
         /\ ok = true
         /\ WebhookEvent.status e' = WebhookStatus.sent
         /\ WebhookEvent.sent_at e' = Some (World.now w)
         /\ WebhookEvent.attempts e' = WebhookEvent.attempts e
         /\ WebhookEvent.next_retry_at e' = WebhookEvent.next_retry_at e
         /\ World.timers w' = World.timers w)
        \/ (Delivery.failed (Env.fetch env (World.remote_calls w) e)
            /\ ok = false
            /\ WebhookEvent.attempts e' = (WebhookEvent.attempts e + 1)%Z
            /\ is_Some (WebhookEvent.last_error e')
            /\ WebhookEvent.sent_at e' = WebhookEvent.sent_at e
            /\ (((WebhookEvent.max_attempts e
                   <= WebhookEvent.attempts e + 1)%Z
                 /\ WebhookEvent.status e' = WebhookStatus.failed
                 /\ WebhookEvent.next_retry_at e'
                    = WebhookEvent.next_retry_at e
                 /\ World.timers w' = World.timers w)
                \/ ((WebhookEvent.attempts e + 1
                     < WebhookEvent.max_attempts e)%Z
                    /\ WebhookEvent.status e' = WebhookStatus.pending
                    /\ WebhookEvent.next_retry_at e'
                       = Some (World.now w
                               + WebhookService.retryDelay
                                   (Env.retryDelays env)
                                   (WebhookEvent.attempts e + 1))%Z
                    /\ World.timers w'
                       = if World.channel w
                         then World.timers w
                              ++ [((World.now w
                                    + WebhookService.retryDelay
                                        (Env.retryDelays env)
                                        (WebhookEvent.attempts e + 1))%Z,
                                   id)]
                         else World.timers w)))).
Proof.
  intros Hf Hs. pose proof (stored_id id w e Hf) as Hid.
  assert (Hfail : forall msg,
    exists (w' : World.t) (e' : WebhookEvent.t),
      WebhookService.handleFailure env e msg
        (World.with_remote_calls (S (World.remote_calls w))
           (World.with_deliveries (World.deliveries w ++ [id]) w))
      = (Returned tt, w')
      /\ Delivery.stored id w' = Some e'
      /\ (forall j, j <> id -> Delivery.stored j w' = Delivery.stored j w)
      /\ World.deliveries w' = World.deliveries w ++ [id]
      /\ World.remote_calls w' = S (World.remote_calls w)
      /\ World.now w' = World.now w
      /\ World.channel w' = World.channel w
      /\ World.queue w' = World.queue w
      /\ WebhookEvent.max_attempts e' = WebhookEvent.max_attempts e
      /\ WebhookEvent.attempts e' = (WebhookEvent.attempts e + 1)%Z
      /\ is_Some (WebhookEvent.last_error e')
      /\ WebhookEvent.sent_at e' = WebhookEvent.sent_at e
      /\ (((WebhookEvent.max_attempts e <= WebhookEvent.attempts e + 1)%Z
           /\ WebhookEvent.status e' = WebhookStatus.failed
           /\ WebhookEvent.next_retry_at e' = WebhookEvent.next_retry_at e
           /\ World.timers w' = World.timers w)
          \/ ((WebhookEvent.attempts e + 1 < WebhookEvent.max_attempts e)%Z
              /\ WebhookEvent.status e' = WebhookStatus.pending
              /\ WebhookEvent.next_retry_at e'
                 = Some (World.now w
                         + WebhookService.retryDelay (Env.retryDelays env)
                             (WebhookEvent.attempts e + 1))%Z
              /\ World.timers w'
                 = if World.channel w
                   then World.timers w
                        ++ [((World.now w
                              + WebhookService.retryDelay
                                  (Env.retryDelays env)
                                  (WebhookEvent.attempts e + 1))%Z, id)]
                   else World.timers w))).
  { intros msg.
    destruct (handleFailure_stored env id
                (World.with_remote_calls (S (World.remote_calls w))
                   (World.with_deliveries (World.deliveries w ++ [id]) w))
                e msg Hf)
      as (w' & e' & Hrun & Hst & Hoth & Hd & Hr & Hn & Hc & Hq & Hm & Ha
          & Hl & Hsent & Hcase).
    exists w', e'. rewrite Hl, Hs in *. cbn in *.
    repeat (split; [assumption || eauto|]). exact Hcase. }
  unfold Delivery.stored in Hf.
  unfold WebhookService.processWebhook.
  unfold bind at 1, WebhookService.getWebhookById at 1.
  rewrite Hf, Hs. unfold try_catch, bind at 1.
  unfold WebhookService.sendWebhook, bind at 1, modify at 1, Db.remote at 1.
  rewrite Hid. cbn [World.remote_calls World.with_deliveries].
  destruct (Env.fetch env (World.remote_calls w) e) as [resp|err] eqn:F.
  - destruct (HttpResponse.ok resp) eqn:Hok.
    + run_webhook. eexists _, _, _. split; [reflexivity|].
      unfold Delivery.stored. cbn.
      rewrite find_event_updated by reflexivity. rewrite Hf. cbn.
      split; [reflexivity|].
      split; [intros j Hj; now apply find_event_other|].
      repeat (split; [reflexivity|]).
      left. rewrite Hok. repeat split; try reflexivity. discriminate.
    + unfold throw, bind.
      destruct (Hfail (messageOf
                  (ErrorObject "Error"
                     ("HTTP " +:+ Str.ofZ (HttpResponse.status resp)
                        +:+ ": " +:+ HttpResponse.text resp))))
        as (w' & e' & Hrun & Hrest).
      rewrite Hrun. exists false, w', e'. split; [reflexivity|].
      cbn [Delivery.failed]. rewrite Hok.
      destruct Hrest as (? & ? & ? & ? & ? & ? & ? & ? & ? & ? & ? & ?).
      repeat (split; [assumption|]). right. now repeat split.
  - unfold bind.
    destruct (Hfail (messageOf err)) as (w' & e' & Hrun & Hrest).
    rewrite Hrun. exists false, w', e'. split; [reflexivity|].
    cbn [Delivery.failed].
    destruct Hrest as (? & ? & ? & ? & ? & ? & ? & ? & ? & ? & ? & ?).
    repeat (split; [assumption|]). right. now repeat split.
Qed.

(** The delay taken from the schedule: the entry at the number of earlier
    failures, the last entry beyond the end, and one hour where that entry
    is zero or the schedule is empty. *)
Lemma retryDelay_schedule (retryDelays : list Z) (attempts : Z) :
  (0 <= attempts)%Z ->
  WebhookService.retryDelay retryDelays (attempts + 1)
  = match
      retryDelays !! Nat.min (Z.to_nat attempts) (length retryDelays - 1)
    with
    | Some d => if (d =? 0)%Z then 3600000%Z else d
    | None => 3600000%Z
    end.
Proof.
  intros Ha. unfold WebhookService.retryDelay.
  set (index := Z.min (attempts + 1 - 1)
                  (Z.of_nat (length retryDelays) - 1)).
  destruct retryDelays as [|d0 rest].
  - rewrite !lookup_nil. now destruct (index <? 0)%Z.
  - assert (Hi : (0 <= index)%Z) by (unfold index; cbn [length]; lia).
    destruct (index <? 0)%Z eqn:E; [apply Z.ltb_lt in E; lia|].
    replace (Z.to_nat index)
      with (Nat.min (Z.to_nat attempts) (length (d0 :: rest) - 1))
      by (unfold index; cbn [length]; lia).
    reflexivity.
Qed.

Lemma stored_app (i : string) (w : World.t) (ev : WebhookEvent.t)
    (rows : list WebhookEvent.t) (e : WebhookEvent.t) :
  find (WebhookService.has_id i) (rows ++ [ev]) = Some e ->
  find (WebhookService.has_id i) rows = Some e \/ e = ev.
Proof.
  induction rows as [|r rows IH]; simpl.
  - destruct (WebhookService.has_id i ev); [|discriminate].
    intros [= ->]. now right.
  - destruct (WebhookService.has_id i r); [now left|exact IH].
Qed.

(** [queueWebhook] leaves the stored events alone or appends a pending
    event with no attempt made. *)
Lemma queueWebhook_events (env : Env.t)
    (input : WebhookService.QueueWebhookInput) (w : World.t) :
  World.webhook_events (snd (WebhookService.queueWebhook env input w))
  = World.webhook_events w
  \/ exists ev,
       World.webhook_events (snd (WebhookService.queueWebhook env input w))
       = World.webhook_events w ++ [ev]
       /\ WebhookEvent.attempts ev = 0%Z
       /\ WebhookEvent.max_attempts ev = Env.maxRetries env
       /\ WebhookEvent.status ev = WebhookStatus.pending.
Proof.
  unfold WebhookService.queueWebhook.
  destruct (WebhookService.valid
              (WebhookService.validateWebhookUrl env
                 (WebhookService.url input))).
  - right. run. destruct (World.channel w); run; eexists; now repeat split.
  - left. reflexivity.
Qed.

Lemma publishAll_events (rows : list WebhookEvent.t) :
  forall (n : Z) (w : World.t),
    World.webhook_events (snd (WebhookService.publishAll rows n w))
    = World.webhook_events w.
Proof.
  induction rows as [|r rows IH]; intros n w; [reflexivity|].
  simpl. unfold bind, WebhookService.publishToQueue.
  destruct (World.channel w); now rewrite IH.
Qed.

(** Every operation keeps every stored event within its bounds. *)
Lemma apply_within_bounds (env : Env.t) (op : Delivery.Operation)
    (w : World.t) :
  (1 <= Env.maxRetries env)%Z ->
  (forall i e, Delivery.stored i w = Some e -> Delivery.within_bounds e) ->
  forall i e,
    Delivery.stored i (Delivery.apply env op w) = Some e ->
    Delivery.within_bounds e.
Proof.
  intros Hmax Hinv i e. destruct op as [input|id| |t]; cbn [Delivery.apply].
  - unfold Delivery.stored.
    destruct (queueWebhook_events env input w)
      as [->|(ev & -> & Ha & Hm & Hs)]; [apply Hinv|].
    intros H. apply (stored_app i w) in H as [H| ->]; [now apply (Hinv i)|].
    unfold Delivery.within_bounds. rewrite Ha, Hm. lia.
  - destruct (Delivery.stored id w) as [e0|] eqn:Hst.
    + destruct (WebhookStatus.eqb (WebhookEvent.status e0)
                  WebhookStatus.pending) eqn:Hp.
      * assert (Hs : WebhookEvent.status e0 = WebhookStatus.pending)
          by (destruct (WebhookEvent.status e0); now try discriminate).
        destruct (process_pending env id w e0 Hst Hs)
          as (ok & w' & e' & Hrun & Hst' & Hoth & _ & _ & _ & _ & _ & Hm
              & Hcase).
        rewrite Hrun. cbn [snd].
        destruct (String.eqb_spec i id) as [->|Hne].
        -- rewrite Hst'. intros [= <-].
           pose proof (Hinv id e0 Hst) as (H0 & H1 & H2).
           specialize (H2 Hs). unfold Delivery.within_bounds. rewrite Hm.
           destruct Hcase as [(_ & _ & Hsent & _ & Ha & _)
             |(_ & _ & Ha & _ & _ & [(Hle & Hf & _)|(Hlt & Hpend & _)])].
           ++ rewrite Ha, Hsent. repeat split; try lia; try discriminate.
           ++ rewrite Ha, Hf. repeat split; try lia; try discriminate.
           ++ rewrite Ha. repeat split; lia.
        -- rewrite (Hoth i Hne). apply Hinv.
      * rewrite (process_settled env id w e0 Hst).
        -- apply Hinv.
        -- intros Hs. now rewrite Hs in Hp.
    + unfold WebhookService.processWebhook, bind,
        WebhookService.getWebhookById.
      unfold Delivery.stored in Hst. rewrite Hst. apply Hinv.
  - unfold WebhookService.retryPendingWebhooks, bind, get, Delivery.stored.
    rewrite publishAll_events. apply Hinv.
  - apply Hinv.
Qed.

(** C6. Webhook delivery bounds. (1) From events within their bounds,
    whatever is enqueued, delivered, swept or done to the clock, every
    stored event has [attempts <= max_attempts]. (2) An event whose status
    is [sent] or [failed] is not delivered again: [processWebhook] leaves
    the world, and with it the list of HTTP deliveries, unchanged. (3) A
    failed delivery of a pending event adds exactly one to [attempts] and
    records [last_error]; if that makes [attempts] reach [max_attempts] the
    status becomes [failed] and neither [next_retry_at] nor a timer is set;
    otherwise the event stays pending, and [next_retry_at] is [now] plus the
    entry of the schedule at the number of earlier failures, clamped to the
    last entry, or plus one hour where that entry is zero or the schedule
    is empty, and the republication is scheduled with that delay. Part (1)
    is for a configuration with [maxRetries >= 1]. *)
Theorem webhook_delivery_bounds (env : Env.t) :
  ((1 <= Env.maxRetries env)%Z ->
   forall (ops : list Delivery.Operation) (w : World.t),
     (forall i e, Delivery.stored i w = Some e -> Delivery.within_bounds e) ->
     forall i e,
       Delivery.stored i (Delivery.after env ops w) = Some e ->
       (WebhookEvent.attempts e <= WebhookEvent.max_attempts e)%Z)
  /\ (forall (id : string) (w : World.t) (e : WebhookEvent.t),
        Delivery.stored id w = Some e ->
        WebhookEvent.status e <> WebhookStatus.pending ->
        exists ok, WebhookService.processWebhook env id w = (Returned ok, w))
  /\ (forall (id : string) (w : World.t) (e : WebhookEvent.t),
        Delivery.stored id w = Some e ->
        WebhookEvent.status e = WebhookStatus.pending ->
        Delivery.within_bounds e ->
        Delivery.failed (Env.fetch env (World.remote_calls w) e) ->
        exists (w' : World.t) (e' : WebhookEvent.t),
          WebhookService.processWebhook env id w = (Returned false, w')
          /\ Delivery.stored id w' = Some e'
          /\ World.deliveries w' = World.deliveries w ++ [id]
          /\ WebhookEvent.attempts e' = (WebhookEvent.attempts e + 1)%Z
          /\ WebhookEvent.max_attempts e' = WebhookEvent.max_attempts e
          /\ is_Some (WebhookEvent.last_error e')
          /\ ((WebhookEvent.attempts e + 1)%Z = WebhookEvent.max_attempts e ->
              WebhookEvent.status e' = WebhookStatus.failed
              /\ WebhookEvent.next_retry_at e' = WebhookEvent.next_retry_at e
              /\ World.timers w' = World.timers w
              /\ World.queue w' = World.queue w)
          /\ ((WebhookEvent.attempts e + 1 < WebhookEvent.max_attempts e)%Z ->
              WebhookEvent.status e' = WebhookStatus.pending
              /\ exists delay,
                   delay
                   = match
                       Env.retryDelays env
                         !! Nat.min (Z.to_nat (WebhookEvent.attempts e))
                              (length (Env.retryDelays env) - 1)
                     with
                     | Some d => if (d =? 0)%Z then 3600000%Z else d
                     | None => 3600000%Z
                     end
                   /\ WebhookEvent.next_retry_at e'
                      = Some (World.now w + delay)%Z
                   /\ World.timers w'
                      = if World.channel w
                        then World.timers w
                               ++ [((World.now w + delay)%Z, id)]
                        else World.timers w)).
Proof.
  split; [|split].
  - intros Hmax ops. induction ops as [|op ops IH]; intros w Hinv i e.
    + cbn. intros H. now apply (Hinv i e H).
    + cbn. apply IH. now apply apply_within_bounds.
  - intros id w e Hst Hs. eexists. now apply process_settled with (e := e).
  - intros id w e Hst Hs (H0 & H1 & H2) Hfail.
    destruct (process_pending env id w e Hst Hs)
      as (ok & w' & e' & Hrun & Hst' & _ & Hd & _ & _ & _ & Hq & Hm & Hcase).
    destruct Hcase as [(Hok & _)|(_ & -> & Ha & Hl & _ & Hcase)];
      [contradiction|].
    exists w', e'. repeat (split; [assumption|]).
    destruct Hcase as [(Hle & Hf & Hn & Ht)|(Hlt & Hp & Hn & Ht)].
    + split; [intros _; now repeat split|intros Hlt; lia].
    + split; [intros Heq; lia|intros _]. split; [exact Hp|].
      rewrite (retryDelay_schedule _ _ H0) in Hn, Ht.
      eexists. split; [reflexivity|]. now split.
Qed.

(** C6 at a pending event with four failures behind it and a destination
    that answers 500: the fifth failure makes it [failed]. *)
Lemma webhook_delivery_bounds_witness :
  exists (w' : World.t) (e' : WebhookEvent.t),
    WebhookService.processWebhook Fixture.env "wh-1"
      (World.with_webhook_events [Fixture.last_attempt] Fixture.empty)
    = (Returned false, w')
    /\ Delivery.stored "wh-1" w' = Some e'
    /\ WebhookEvent.attempts e' = 5%Z
    /\ WebhookEvent.status e' = WebhookStatus.failed
    /\ World.timers w' = [].
Proof.
  destruct (proj2 (proj2 (webhook_delivery_bounds Fixture.env)) "wh-1"
              (World.with_webhook_events [Fixture.last_attempt] Fixture.empty)
              Fixture.last_attempt eq_refl eq_refl)
    as (w' & e' & Hrun & Hst & _ & Ha & _ & _ & Hlast & _).
  - unfold Delivery.within_bounds. cbn. repeat split; lia.
  - reflexivity.
  - exists w', e'. destruct (Hlast eq_refl) as (Hs & _ & Ht & _).
    now repeat split.
Defined.

(** C6 as the specification states it fails at two edges of the
    configuration. With [WEBHOOK_MAX_RETRIES=0] an event is enqueued with
    [max_attempts = 0], and its first failed delivery stores
    [attempts = 1], above [max_attempts]. With a schedule entry of zero the
    retry after a failure at instant [0] is set one hour ahead, not at
    [now] plus the entry of the schedule. *)
Lemma webhook_delivery_bounds_config_edges :
  (exists e : WebhookEvent.t,
      Delivery.stored "uuid-0"
        (Delivery.after Fixture.no_retries Fixture.enqueue_and_deliver
           Fixture.empty) = Some e
      /\ WebhookEvent.attempts e = 1%Z
      /\ WebhookEvent.max_attempts e = 0%Z
      /\ ~ (WebhookEvent.attempts e <= WebhookEvent.max_attempts e)%Z)
  /\ (exists e : WebhookEvent.t,
         Delivery.stored "uuid-0"
           (Delivery.after Fixture.zero_delay Fixture.enqueue_and_deliver
              Fixture.empty) = Some e
         /\ Env.retryDelays Fixture.zero_delay !! 0%nat = Some 0%Z
         /\ WebhookEvent.status e = WebhookStatus.pending
         /\ WebhookEvent.next_retry_at e = Some 3600000%Z
         /\ WebhookEvent.next_retry_at e
            <> Some (World.now Fixture.empty + 0)%Z).
Proof.
  split.
  - eexists. split; [vm_compute; reflexivity|]. cbn.
    repeat split. lia.
  - eexists. split; [vm_compute; reflexivity|]. cbn.
    repeat split. discriminate.
Qed.

(** A failed delivery that leaves an attempt. *)
Lemma deliver_fails (env : Env.t) (id : string) (w : World.t)
    (e : WebhookEvent.t) :
  Delivery.stored id w = Some e ->
  WebhookEvent.status e = WebhookStatus.pending ->
  (WebhookEvent.attempts e + 1 < WebhookEvent.max_attempts e)%Z ->
  Delivery.failed (Env.fetch env (World.remote_calls w) e) ->
  exists e',
    Delivery.stored id (Delivery.apply env (Delivery.Deliver id) w) = Some e'
    /\ WebhookEvent.status e' = WebhookStatus.pending
    /\ WebhookEvent.attempts e' = (WebhookEvent.attempts e + 1)%Z
    /\ WebhookEvent.max_attempts e' = WebhookEvent.max_attempts e
    /\ WebhookEvent.next_retry_at e'
       = Some (World.now w
               + WebhookService.retryDelay (Env.retryDelays env)
                   (WebhookEvent.attempts e + 1))%Z
    /\ World.remote_calls (Delivery.apply env (Delivery.Deliver id) w)
       = S (World.remote_calls w)
    /\ World.deliveries (Delivery.apply env (Delivery.Deliver id) w)
       = World.deliveries w ++ [id].
Proof.
  intros Hst Hs Hlt Hfail. cbn [Delivery.apply].
  destruct (process_pending env id w e Hst Hs)
    as (ok & w' & e' & Hrun & Hst' & _ & Hd & Hr & _ & _ & _ & Hm & Hcase).
  rewrite Hrun. cbn [snd]. exists e'.
  destruct Hcase as [(Hok & _)
    |(_ & _ & Ha & _ & _ & [(Hle & _)|(_ & Hp & Hn & _)])];
    [contradiction|lia|].
  now repeat split.
Qed.

(** A delivery that the destination accepts. *)
Lemma deliver_succeeds (env : Env.t) (id : string) (w : World.t)
    (e : WebhookEvent.t) :
  Delivery.stored id w = Some e ->
  WebhookEvent.status e = WebhookStatus.pending ->
  ~ Delivery.failed (Env.fetch env (World.remote_calls w) e) ->
  exists e',
    Delivery.stored id (Delivery.apply env (Delivery.Deliver id) w) = Some e'
    /\ WebhookEvent.status e' = WebhookStatus.sent
    /\ WebhookEvent.sent_at e' = Some (World.now w)
    /\ WebhookEvent.attempts e' = WebhookEvent.attempts e
    /\ World.deliveries (Delivery.apply env (Delivery.Deliver id) w)
       = World.deliveries w ++ [id].
Proof.
  intros Hst Hs Hok. cbn [Delivery.apply].
  destruct (process_pending env id w e Hst Hs)
    as (ok & w' & e' & Hrun & Hst' & _ & Hd & _ & _ & _ & _ & _ & Hcase).
  rewrite Hrun. cbn [snd]. exists e'.
  destruct Hcase as [(_ & _ & Hsent & Hat & Ha & _)|(Hfail & _)];
    [|contradiction].
  now repeat split.
Qed.

(** C8, amended. For a pending event with no attempt made and more than
    three attempts allowed, whose destination fails three deliveries and
    accepts the fourth: after the three failures [attempts] is 1, 2 and 3,
    each time with [next_retry_at] set to the instant of the failure plus
    the delay of the schedule; the fourth delivery succeeds, the status
    becomes [sent] with [sent_at] set, and the stored [attempts] stays 3:
    it counts the failed deliveries. *)
Theorem webhook_retry_three_failures
    (env : Env.t) (id : string) (w : World.t) (e : WebhookEvent.t)
    (t1 t2 t3 : Z) :
  Delivery.stored id w = Some e ->
  WebhookEvent.status e = WebhookStatus.pending ->
  WebhookEvent.attempts e = 0%Z ->
  (3 < WebhookEvent.max_attempts e)%Z ->
  (forall k ev, (k < 3)%nat ->
     Delivery.failed (Env.fetch env (World.remote_calls w + k) ev)) ->
  (forall ev,
     ~ Delivery.failed (Env.fetch env (World.remote_calls w + 3) ev)) ->
  exists e1 e2 e3 e4 : WebhookEvent.t,
    (Delivery.stored id (Delivery.after env [Delivery.Deliver id] w) = Some e1
     /\ WebhookEvent.attempts e1 = 1%Z
     /\ WebhookEvent.status e1 = WebhookStatus.pending
     /\ WebhookEvent.next_retry_at e1
        = Some (World.now w
                + WebhookService.retryDelay (Env.retryDelays env) 1)%Z)
    /\ (Delivery.stored id
          (Delivery.after env
             [Delivery.Deliver id; Delivery.Clock t1; Delivery.Deliver id] w)
        = Some e2
        /\ WebhookEvent.attempts e2 = 2%Z
        /\ WebhookEvent.status e2 = WebhookStatus.pending
        /\ WebhookEvent.next_retry_at e2
           = Some (t1 + WebhookService.retryDelay (Env.retryDelays env) 2)%Z)
    /\ (Delivery.stored id
          (Delivery.after env
             [Delivery.Deliver id; Delivery.Clock t1; Delivery.Deliver id;
              Delivery.Clock t2; Delivery.Deliver id] w)
        = Some e3
        /\ WebhookEvent.attempts e3 = 3%Z
        /\ WebhookEvent.status e3 = WebhookStatus.pending
        /\ WebhookEvent.next_retry_at e3
           = Some (t2 + WebhookService.retryDelay (Env.retryDelays env) 3)%Z)
    /\ (Delivery.stored id
          (Delivery.after env (Delivery.four_deliveries id t1 t2 t3) w)
        = Some e4
        /\ WebhookEvent.status e4 = WebhookStatus.sent
        /\ WebhookEvent.sent_at e4 = Some t3
        /\ WebhookEvent.attempts e4 = 3%Z)
    /\ World.deliveries
         (Delivery.after env (Delivery.four_deliveries id t1 t2 t3) w)
       = World.deliveries w ++ [id; id; id; id].
Proof.
  intros Hst Hs Ha Hmax Hfail Hok.
  unfold Delivery.four_deliveries. cbn [Delivery.after fold_left].
  set (w1 := Delivery.apply env (Delivery.Deliver id) w).
  destruct (deliver_fails env id w e Hst Hs) as
    (e1 & Hst1 & Hs1 & Ha1 & Hm1 & Hn1 & Hr1 & Hd1); [lia| |].
  { specialize (Hfail 0%nat e). rewrite Nat.add_0_r in Hfail.
    apply Hfail. lia. }
  fold w1 in Hst1, Hr1, Hd1.
  set (w1' := Delivery.apply env (Delivery.Clock t1) w1).
  set (w2 := Delivery.apply env (Delivery.Deliver id) w1').
  destruct (deliver_fails env id w1' e1 Hst1 Hs1) as
    (e2 & Hst2 & Hs2 & Ha2 & Hm2 & Hn2 & Hr2 & Hd2); [lia| |].
  { cbn [w1' Delivery.apply World.remote_calls World.with_now].
    rewrite Hr1. replace (S (World.remote_calls w))
      with (World.remote_calls w + 1)%nat by lia.
    apply Hfail. lia. }
  fold w2 in Hst2, Hr2, Hd2.
  set (w2' := Delivery.apply env (Delivery.Clock t2) w2).
  set (w3 := Delivery.apply env (Delivery.Deliver id) w2').
  destruct (deliver_fails env id w2' e2 Hst2 Hs2) as
    (e3 & Hst3 & Hs3 & Ha3 & Hm3 & Hn3 & Hr3 & Hd3); [lia| |].
  { cbn [w2' Delivery.apply World.remote_calls World.with_now].
    rewrite Hr2. cbn [w1' Delivery.apply World.remote_calls World.with_now].
    rewrite Hr1. replace (S (S (World.remote_calls w)))
      with (World.remote_calls w + 2)%nat by lia.
    apply Hfail. lia. }
  fold w3 in Hst3, Hr3, Hd3.
  set (w3' := Delivery.apply env (Delivery.Clock t3) w3).
  destruct (deliver_succeeds env id w3' e3 Hst3 Hs3) as
    (e4 & Hst4 & Hs4 & Hat4 & Ha4 & Hd4).
  { cbn [w3' Delivery.apply World.remote_calls World.with_now].
    rewrite Hr3. cbn [w2' Delivery.apply World.remote_calls World.with_now].
    rewrite Hr2. cbn [w1' Delivery.apply World.remote_calls World.with_now].
    rewrite Hr1. replace (S (S (S (World.remote_calls w))))
      with (World.remote_calls w + 3)%nat by lia.
    apply Hok. }
  exists e1, e2, e3, e4.
  rewrite Ha in *. cbn in Ha1, Hn1. rewrite Ha1 in *. cbn in Ha2, Hn2.
  rewrite Ha2 in *. cbn in Ha3, Hn3. rewrite Ha3 in *.
  repeat split; try assumption.
  rewrite Hd4. cbn [w3' w2' w1' Delivery.apply World.deliveries World.with_now].
  rewrite Hd3. cbn [w3' w2' w1' Delivery.apply World.deliveries World.with_now].
  rewrite Hd2. cbn [w3' w2' w1' Delivery.apply World.deliveries World.with_now].
  rewrite Hd1. now rewrite <- !app_assoc.
Qed.

(** C8, amended, at the event enqueued at instant 0 under the default
    configuration, with a destination that answers 500 three times and then
    200, redelivered at the instants of the schedule. *)
Lemma webhook_retry_three_failures_witness :
  exists e4 : WebhookEvent.t,
    Delivery.stored "uuid-0"
      (Delivery.after Fixture.env
         (Delivery.four_deliveries "uuid-0" 60000 360000 1260000)
         Fixture.enqueued)
    = Some e4
    /\ WebhookEvent.status e4 = WebhookStatus.sent
    /\ WebhookEvent.sent_at e4 = Some 1260000%Z
    /\ WebhookEvent.attempts e4 = 3%Z.
Proof.
  assert (He : exists e,
             Delivery.stored "uuid-0" Fixture.enqueued = Some e
             /\ WebhookEvent.status e = WebhookStatus.pending
             /\ WebhookEvent.attempts e = 0%Z
             /\ WebhookEvent.max_attempts e = 5%Z)
    by (eexists; repeat split; reflexivity).
  destruct He as (e & Hst & Hs & Ha & Hm).
  destruct (webhook_retry_three_failures Fixture.env "uuid-0"
              Fixture.enqueued e 60000 360000 1260000 Hst Hs Ha)
    as (e1 & e2 & e3 & e4 & _ & _ & _ & H4 & _).
  - rewrite Hm. lia.
  - intros k ev Hk.
    change (World.remote_calls Fixture.enqueued) with 0%nat.
    change (Env.fetch Fixture.env (0 + k)) with (Fixture.flaky k).
    unfold Fixture.flaky.
    destruct (Nat.ltb_spec k 3); [reflexivity|lia].
  - intros ev.
    change (World.remote_calls Fixture.enqueued) with 0%nat.
    cbn. discriminate.
  - exists e4. exact H4.
Defined.

(** C8 as stated fails: under the default configuration, after three
    failed deliveries and a successful fourth the stored [attempts] is 3,
    not 4; the event is [sent]. *)
Lemma webhook_retry_attempts_is_three :
  let w :=
    Delivery.after Fixture.env
      (Delivery.four_deliveries "uuid-0" 60000 360000 1260000)
      Fixture.enqueued in
  WebhookEvent.attempts <$> Delivery.stored "uuid-0" w = Some 3%Z
  /\ WebhookEvent.status <$> Delivery.stored "uuid-0" w
     = Some WebhookStatus.sent
  /\ WebhookEvent.sent_at <$> Delivery.stored "uuid-0" w
     = Some (Some 1260000%Z)
  /\ World.deliveries w = ["uuid-0"; "uuid-0"; "uuid-0"; "uuid-0"].
Proof.
  vm_compute. repeat split; reflexivity.
Qed.

(** ** URL validation of webhook destinations *)

Lemma string_length_append (a b : string) :
  String.length (a +:+ b) = (String.length a + String.length b)%nat.
Proof. induction a as [|c a IH]; simpl; [reflexivity|now rewrite IH]. Qed.

Lemma substring_whole (s : string) :
  String.substring 0 (String.length s) s = s.
Proof. induction s as [|c s IH]; simpl; [reflexivity|now rewrite IH]. Qed.

Lemma substring_after (a b : string) :
  String.substring (String.length a) (String.length b) (a +:+ b) = b.
Proof.
  induction a as [|c a IH]; simpl; [apply substring_whole|exact IH].
Qed.

Lemma endsWith_append (a b : string) : Str.endsWith b (a +:+ b) = true.
Proof.
  unfold Str.endsWith. rewrite string_length_append.
  replace (String.length a + String.length b - String.length b)%nat
    with (String.length a) by lia.
  rewrite substring_after, String.eqb_refl.
  rewrite andb_true_r. apply Nat.leb_le. lia.
Qed.

Lemma toLowerCase_append (a b : string) :
  Str.toLowerCase (a +:+ b) = Str.toLowerCase a +:+ Str.toLowerCase b.
Proof. induction a as [|c a IH]; simpl; [reflexivity|now rewrite IH]. Qed.

Lemma startsWith_append (p rest : string) :
  Str.startsWith p (p +:+ rest) = true.
Proof.
  unfold Str.startsWith. induction p as [|c p IH]; simpl.
  - now destruct rest.
  - destruct (ascii_dec c c); [exact IH|congruence].
Qed.

Lemma isPrivateIP_some (hostname : string) :
  Str.startsWith "10." hostname = true
  \/ WebhookService.matches_172 hostname = true
  \/ Str.startsWith "192.168." hostname = true
  \/ Str.startsWith "169.254." hostname = true ->
  WebhookService.isPrivateIP hostname = true.
Proof.
  unfold WebhookService.isPrivateIP. cbn [existsb].
  intros [->|[->|[->| ->]]]; now rewrite ?orb_true_r.
Qed.

(** The patterns of [isPrivateIP] cover the private IPv4 ranges. *)
Lemma isPrivateIP_ipv4 (hostname : string) :
  Ssrf.private_ipv4 hostname ->
  WebhookService.isPrivateIP (Str.toLowerCase hostname) = true.
Proof.
  intros (rest & [->|[(b & Hb & ->)|[->| ->]]]); apply isPrivateIP_some.
  - left. rewrite toLowerCase_append. apply startsWith_append.
  - right; left.
    assert (Hcases : (b = 16 \/ b = 17 \/ b = 18 \/ b = 19 \/ b = 20
                      \/ b = 21 \/ b = 22 \/ b = 23 \/ b = 24 \/ b = 25
                      \/ b = 26 \/ b = 27 \/ b = 28 \/ b = 29 \/ b = 30
                      \/ b = 31)%Z) by lia.
    repeat (destruct Hcases as [->|Hcases]; [reflexivity|]).
    now subst b.
  - right; right; left. rewrite toLowerCase_append. apply startsWith_append.
  - right; right; right. rewrite toLowerCase_append.
    apply startsWith_append.
Qed.

(** The part of the URL rule that the code enforces: a URL whose host is in
    a private IPv4 range or is an internal domain name is rejected by
    [queueWebhook], which then persists and publishes nothing. *)
Lemma ssrf_ipv4_and_internal_rejected (env : Env.t)
    (input : WebhookService.QueueWebhookInput) (url : Url.t) (w : World.t) :
  Env.parseUrl env (WebhookService.url input) = Some url ->
  Ssrf.private_ipv4 (Url.hostname url)
  \/ Ssrf.internal_domain (Url.hostname url) ->
  exists message,
    WebhookService.queueWebhook env input w
    = (Threw (ErrorObject "WebhookUrlValidationError" message), w).
Proof.
  intros Hparse Hhost.
  assert (Hv : WebhookService.valid
                 (WebhookService.validateWebhookUrl env
                    (WebhookService.url input)) = false).
  { unfold WebhookService.validateWebhookUrl. rewrite Hparse.
    unfold WebhookService.validateParsedUrl.
    destruct (negb _); [reflexivity|].
    destruct (WebhookService.includes _ WebhookService.BLOCKED_HOSTS);
      [reflexivity|].
    destruct Hhost as [Hip|(label & [Hl|Hl])].
    - now rewrite (isPrivateIP_ipv4 _ Hip).
    - destruct (WebhookService.isPrivateIP _); [reflexivity|].
      rewrite Hl, toLowerCase_append.
      change (Str.toLowerCase ".internal") with ".internal".
      now rewrite endsWith_append.
    - destruct (WebhookService.isPrivateIP _); [reflexivity|].
      rewrite Hl, toLowerCase_append.
      change (Str.toLowerCase ".local") with ".local".
      rewrite endsWith_append. now rewrite orb_true_r. }
  unfold WebhookService.queueWebhook. rewrite Hv. cbn.
  eexists. reflexivity.
Qed.

(** C7, where the code falls short of it: the host of
    [https://[fd12:3456:789a:1::1]/hook], an address of fc00::/7, matches
    none of the patterns, with or without the brackets the URL parser puts
    around an IPv6 host, and neither does an address of fe80::/10 outside
    fe80::/16; validation accepts the URL and [queueWebhook] persists and
    publishes an event for it. *)
Theorem ssrf_ipv6_private_accepted :
  (forall env : Env.t,
     WebhookService.validateParsedUrl env
       (Url.mk "https:" Ssrf.unique_local_host)
     = WebhookService.mkValidation true None)
  /\ WebhookService.isPrivateIP "fd12:3456:789a:1::1" = false
  /\ WebhookService.isPrivateIP "[fc00::1]" = false
  /\ WebhookService.isPrivateIP "[fe90::1]" = false
  /\ WebhookService.isPrivateIP "fe90::1" = false
  /\ WebhookService.validateWebhookUrl Fixture.env
       "https://[fd12:3456:789a:1::1]/hook"
     = WebhookService.mkValidation true None
  /\ (let w' :=
        snd (WebhookService.queueWebhook Fixture.env
               {| WebhookService.payment_id := None;
                  WebhookService.event_type := "payment.completed";
                  WebhookService.url := "https://[fd12:3456:789a:1::1]/hook";
                  WebhookService.payload := [] |}
               Fixture.empty) in
      WebhookEvent.url <$> World.webhook_events w'
      = ["https://[fd12:3456:789a:1::1]/hook"]
      /\ World.queue w' = ["uuid-0"]).
Proof.
  split.
  - intros env. unfold WebhookService.validateParsedUrl,
      WebhookService.ALLOWED_PROTOCOLS.
    destruct (Env.isProduction env); reflexivity.
  - repeat split; vm_compute; reflexivity.
Qed.

(** ** Idempotency: replay and fingerprint conflict *)

(** [check] on a stored record: a conflict when the fingerprints differ,
    else the answer of the record; only the cache may change. *)
Lemma check_stored (key merchantId requestHash : string) (w : World.t)
    (record : IdempotencyRecord.t) :
  IdempotencyService.stored_record key merchantId w = Some record ->
  if String.eqb (IdempotencyRecord.request_hash record) requestHash
  then exists w',
         IdempotencyService.check key merchantId requestHash w
         = (Returned (IdempotencyService.result_of record), w')
         /\ World.with_redis (World.redis w') w = w'
  else IdempotencyService.check key merchantId requestHash w
       = (Threw IdempotencyService.IdempotencyConflictError, w).
Proof.
  unfold IdempotencyService.stored_record. intros Hst.
  assert (Hcheck :
    IdempotencyService.check key merchantId requestHash w
    = match Redis.lookup (IdempotencyService.getRedisKey key merchantId) w
      with
      | Some _ =>
          if String.eqb (IdempotencyRecord.request_hash record) requestHash
          then (Returned (IdempotencyService.result_of record), w)
          else (Threw IdempotencyService.IdempotencyConflictError, w)
      | None =>
          if String.eqb (IdempotencyRecord.request_hash record) requestHash
          then (Returned (IdempotencyService.result_of record),
                snd (IdempotencyService.cacheRecord record w))
          else (Threw IdempotencyService.IdempotencyConflictError, w)
      end).
  { unfold IdempotencyService.check. cbv zeta.
    unfold bind at 1, Redis.get at 1.
    destruct (Redis.lookup _ w) as [cached|].
    - injection Hst as ->. now destruct (String.eqb _ requestHash).
    - unfold bind at 1, IdempotencyService.select_live at 1. rewrite Hst.
      destruct (String.eqb _ requestHash); [|reflexivity]. cbn [negb].
      unfold IdempotencyService.cacheRecord, bind, get, ret.
      now destruct (0 <? _)%Z. }
  rewrite Hcheck.
  destruct (String.eqb _ requestHash);
    destruct (Redis.lookup _ w); try reflexivity.
  - exists w. split; [reflexivity|]. now destruct w.
  - eexists. split; [reflexivity|].
    unfold IdempotencyService.cacheRecord, bind, get.
    destruct (0 <? _)%Z; cbn; now destruct w.
Qed.

(** C2. Idempotent replay and fingerprint conflict. For a request with a
    mutating method, an idempotency key and a merchant, and a record stored
    for (merchant, key): when the submitted fingerprint differs from the
    stored [request_hash], [check] fails with [IdempotencyConflictError]
    leaving the world untouched, and the middleware replies 409; when the
    fingerprints match and the record is completed, the middleware replies
    with the stored status code and the stored response body; when the
    record is still processing, it replies 409. In each case a reply is
    sent, so the route handler does not run. *)
Theorem idempotent_replay_and_conflict
    (env : Env.t) (request : IdempotencyMiddleware.Request)
    (key merchant : string) (w : World.t) (record : IdempotencyRecord.t) :
  WebhookService.includes (IdempotencyMiddleware.method request)
    ["POST"; "PUT"; "PATCH"] = true ->
  Str.truthy (IdempotencyMiddleware.idempotency_key_header request)
  = Some key ->
  Str.truthy (IdempotencyMiddleware.merchantId request) = Some merchant ->
  IdempotencyService.stored_record key merchant w = Some record ->
  let requestHash :=
    IdempotencyService.generateRequestHash env
      (IdempotencyMiddleware.body request)
      (IdempotencyMiddleware.url request)
      (IdempotencyMiddleware.method request) in
  (IdempotencyRecord.request_hash record <> requestHash ->
   IdempotencyService.check key merchant requestHash w
   = (Threw IdempotencyService.IdempotencyConflictError, w)
   /\ IdempotencyMiddleware.idempotencyMiddleware env request w
      = (Returned
           (IdempotencyMiddleware.Replied 409
              (Some (IdempotencyMiddleware.conflict_body
                       (messageOf
                          IdempotencyService.IdempotencyConflictError)))),
         w))
  /\ (IdempotencyRecord.request_hash record = requestHash ->
      exists w',
        World.with_redis (World.redis w') w = w'
        /\ match IdempotencyRecord.status record with
           | IdempotencyStatus.completed =>
               forall (body : Json) (code : Z),
                 IdempotencyRecord.response record = Some body ->
                 IdempotencyRecord.status_code record = Some code ->
                 code <> 0%Z ->
                 IdempotencyMiddleware.idempotencyMiddleware env request w
                 = (Returned
                      (IdempotencyMiddleware.Replied code (Some body)), w')
           | IdempotencyStatus.processing =>
               exists message,
                 IdempotencyMiddleware.idempotencyMiddleware env request w
                 = (Returned
                      (IdempotencyMiddleware.Replied 409
                         (Some (IdempotencyMiddleware.conflict_body
                                  message))), w')
           end).
Proof.
  intros Hmethod Hkey Hmerchant Hstored requestHash.
  pose proof (check_stored key merchant requestHash w record Hstored) as Hc.
  unfold IdempotencyMiddleware.idempotencyMiddleware.
  rewrite Hmethod, Hkey, Hmerchant. cbn [negb]. cbv zeta.
  subst requestHash.
  set (requestHash :=
         IdempotencyService.generateRequestHash env
           (IdempotencyMiddleware.body request)
           (IdempotencyMiddleware.url request)
           (IdempotencyMiddleware.method request)) in *.
  unfold try_catch, bind.
  split.
  - intros Hne.
    destruct (String.eqb_spec (IdempotencyRecord.request_hash record)
                requestHash) as [Heq|_]; [contradiction|].
    cbv iota in Hc. rewrite Hc. split; reflexivity.
  - intros Heq.
    destruct (String.eqb_spec (IdempotencyRecord.request_hash record)
                requestHash) as [_|Hne]; [|contradiction].
    cbv iota in Hc. destruct Hc as (w' & Hrun & Hw'). exists w'.
    split; [exact Hw'|].
    rewrite Hrun. unfold IdempotencyService.result_of.
    destruct (IdempotencyRecord.status record); cbn.
    + eexists. reflexivity.
    + intros body code -> -> Hcode. cbn.
      destruct (Z.eqb_spec code 0); [contradiction|reflexivity].
Qed.

(** C2 at the completed record of a [POST /payments] with key [A]: a
    replay gets the stored 201 and body. *)
Lemma idempotent_replay_and_conflict_witness :
  exists w',
    IdempotencyMiddleware.idempotencyMiddleware Fixture.env Fixture.request
      (World.with_idempotency_keys [Fixture.completed_record] Fixture.empty)
    = (Returned
         (IdempotencyMiddleware.Replied 201
            (Some (JObject [("id", JString "pay-1")]))), w').
Proof.
  destruct (proj2 (idempotent_replay_and_conflict Fixture.env Fixture.request
                     "A" "m-1"
                     (World.with_idempotency_keys [Fixture.completed_record]
                        Fixture.empty)
                     Fixture.completed_record eq_refl eq_refl eq_refl
                     eq_refl) eq_refl)
    as (w' & _ & Hreplay).
  exists w'. apply Hreplay; [reflexivity|reflexivity|discriminate].
Defined.

(** ** Refunds: amount conservation *)

(** Case analysis on the next test of a computation under evaluation. *)
Ltac split_case :=
  match goal with
  | |- context [if ?b then _ else _] => destruct b eqn:?
  | |- context [match ?x with Some _ => _ | None => _ end] =>
      destruct x eqn:?
  | |- context [match ?x with Returned _ => _ | Threw _ => _ end] =>
      destruct x eqn:?
  end.

Lemma rollback_same (w : World.t) : Db.rollback w w = w.
Proof. now destruct w. Qed.

Lemma refundable_status_spec (s : PaymentStatus.t) :
  RefundService.refundable_status s = true
  <-> s = PaymentStatus.completed \/ s = PaymentStatus.partially_refunded.
Proof.
  split.
  - destruct s; cbn; intros H; try discriminate; auto.
  - intros [->| ->]; reflexivity.
Qed.

Lemma payment_found_id (i : string) (l : list Payment.t) (p : Payment.t) :
  find (PaymentModel.has_id i) l = Some p -> Payment.id p = i.
Proof.
  intros H. apply find_some in H as [_ H]. now apply String.eqb_eq in H.
Qed.

(** *** Numbers and columns at the amounts of the examples *)

(** The readings, printings and roundings of the embedding agree with the
    platform on the usual suspects. *)
Example number_conversions :
  Number.toString (Number.nearest false 1 10) = "0.1"
  /\ Number.toString
       (PrimFloat.add (Number.nearest false 1 10) (Number.nearest false 2 10))
     = "0.30000000000000004"
  /\ Number.toString (Number.nearest false (10 ^ 21) 1) = "1e+21"
  /\ Number.toString (Number.nearest false 1 10000000) = "1e-7"
  /\ Number.toFixed2 (Number.nearest false 1005 1000) = "1.00"
  /\ Number.toFixed2 (Number.nearest false 125 1000) = "0.13"
  /\ Number.toDecimal (Number.nearest false 23 1000) = Some 230%Z
  /\ Number.toDecimal (Number.nearest false 5 100000) = Some 1%Z
  /\ Number.toDecimal (Number.nearest false (10 ^ 15) 1) = None
  /\ Number.toString (Number.ofDecimal 800000000000000200)
     = "80000000000000.02".
Proof. vm_compute. repeat split. Qed.

(** Where double precision loses the cents: near 8e13 two neighbouring
    numbers are 1/64 apart. The payment amount 80000000000000.02 reads as
    80000000000000.015625, and 0.023 less than that is 80000000000000
    after rounding. *)
Example rounding_at_large_amounts :
  Number.exact (Number.ofDecimal 800000000000000200)
  = Some (false, 5120000000000001%Z, 64%Z)
  /\ PrimFloat.sub (Number.ofDecimal 800000000000000200)
       (Number.ofDecimal 230)
     = Number.nearest false 80000000000000 1.
Proof. vm_compute. split; reflexivity. Qed.

(** C1. Amount conservation fails on the code. On a completed payment of
    80000000000000.02 a refund of 0.023 is accepted, after which the
    payment has 80000000000000.02 - 0.023 = 79999999999999.997 left. A
    second refund, of 80000000000000, exceeds that; [createRefund]
    computes the amount left in double precision,
    [parseFloat("80000000000000.0200") - parseFloat("0.0230") - 0], which
    is 80000000000000, finds the request within it, inserts the refund and
    completes it. The completed refunds of the payment then sum to
    80000000000000.0230, more than its amount. *)
Theorem refund_conservation_broken_by_rounding :
  let w0 := Fixture.with_payment Fixture.large_payment in
  let first := Fixture.refund 23 1000 in
  let second := Fixture.refund 80000000000000 1 in
  exists (r1 r2 : RefundService.RefundResult) (w1 w2 : World.t)
         (p1 : Payment.t) (stored : Refund.t),
    RefundService.createRefund Fixture.env first None w0
    = Tx.Ends (Returned r1) w1
    /\ RefundService.success r1 = true
    /\ find (PaymentModel.has_id "pay-1") (World.payments w1) = Some p1
    /\ Payment.amount p1 = 800000000000000200%Z
    /\ Refunds.completed_total "pay-1" w1 = 230%Z
    /\ Refunds.pending_total "pay-1" w1 = 0%Z
    /\ RefundService.createRefund Fixture.env second None w1
       = Tx.Ends (Returned r2) w2
    /\ RefundService.success r2 = true
    /\ RefundService.refund r2 = Some stored
    /\ In stored (World.refunds w2)
    /\ Refund.status stored = RefundStatus.completed
    /\ Refund.amount stored = 800000000000000000%Z
    /\ ~ Refunds.within_amount (Refund.amount stored) p1 w1
    /\ Refunds.completed_total "pay-1" w2 = 800000000000000230%Z
    /\ (Payment.amount p1 < Refunds.completed_total "pay-1" w2)%Z.
Proof.
  intros w0 first second.
  eexists _, _, _, _, _, _.
  split; [vm_compute; reflexivity|].
  split; [reflexivity|]. split; [vm_compute; reflexivity|].
  split; [reflexivity|]. split; [vm_compute; reflexivity|].
  split; [vm_compute; reflexivity|].
  split; [vm_compute; reflexivity|].
  split; [reflexivity|]. split; [reflexivity|].
  split; [vm_compute; auto|].
  split; [reflexivity|]. split; [reflexivity|].
  split; [unfold Refunds.within_amount; vm_compute; intros H; now apply H|].
  split; vm_compute; reflexivity.
Qed.

(** On everyday amounts the service behaves as the specification has it:
    on a completed payment of 100.0000, refunds of 30 and of 70 are
    accepted and complete, the payment ends [refunded], and a further
    refund of 1 is refused with nothing stored. *)
Example partial_then_full_refund :
  let w0 :=
    Fixture.with_payment (Fixture.payment PaymentStatus.completed None) in
  let w1 :=
    Tx.after (RefundService.createRefund Fixture.env (Fixture.refund 30 1)
                None w0) in
  let w2 :=
    Tx.after (RefundService.createRefund Fixture.env (Fixture.refund 70 1)
                None w1) in
  Payment.status <$> World.payments w1 = [PaymentStatus.partially_refunded]
  /\ Payment.status <$> World.payments w2 = [PaymentStatus.refunded]
  /\ Refunds.completed_total "pay-1" w2 = 1000000%Z
  /\ RefundService.createRefund Fixture.env (Fixture.refund 1 1) None w2
     = Tx.Ends
         (Threw (RefundService.RefundValidationError
                   "Cannot refund payment with status: refunded")) w2.
Proof. vm_compute. repeat split. Qed.

(** ** The charge saga *)

Ltac run_payment :=
  repeat (progress
            (cbn;
             unfold Js.bind, Js.ret, Js.get, Js.modify, Js.throw,
               Js.try_catch, Db.uuidv4, Db.remote,
               TransactionModel.createTransaction, AuditService.log,
               AuditService.logPaymentStatusChanged,
               AuditService.logPaymentCreated,
               PaymentModel.getPaymentById, PaymentModel.updatePayment,
               Providers.getProvider)).

Lemma update_where_id_status (i : string) (f : Payment.t -> Payment.t)
    (l : list Payment.t) (row : Payment.t) :
  In row (PaymentModel.update_where_id i f l) ->
  PaymentModel.has_id i row = true ->
  (forall p, Payment.id (f p) = Payment.id p) ->
  exists p, In p l /\ row = f p.
Proof.
  intros Hin Hid Hf. unfold PaymentModel.update_where_id in Hin.
  apply in_map_iff in Hin as (p & Hp & Hin). exists p. split; [exact Hin|].
  destruct (PaymentModel.has_id i p) eqn:E; [now symmetry|].
  subst row. congruence.
Qed.

(** C5. Provider response mapping. When the context holds the payment, the
    provider is registered and it answers [response], step 2 of the charge
    saga returns, so the saga goes on to step 3 and no compensation is
    due to a decline; every stored row of the payment then has the mapped
    status [s] and the provider's transaction id, the last transaction row
    carries [s], and [s] is [completed] when [response.success] holds and
    [response.status] is [completed], [pending] when [response.success]
    holds and the status is anything else, [failed] when
    [response.success] does not hold. *)
Theorem provider_response_mapping
    (env : Env.t) (ctx : PaymentService.Ctx.t) (payment : Payment.t)
    (w : World.t) (response : PaymentResponse.t) :
  PaymentService.Ctx.payment ctx = Some payment ->
  WebhookService.includes
    (Str.toLowerCase
       (PaymentService.provider (PaymentService.Ctx.input ctx)))
    Providers.getSupportedProviders = true ->
  Env.provider_processPayment env
    (Str.toLowerCase
       (PaymentService.provider (PaymentService.Ctx.input ctx)))
    (World.remote_calls w)
    {| PaymentRequest.amount :=
         PaymentService.amount (PaymentService.Ctx.input ctx);
       PaymentRequest.currency :=
         PaymentService.currency (PaymentService.Ctx.input ctx);
       PaymentRequest.paymentId := Payment.id payment;
       PaymentRequest.description :=
         PaymentService.description (PaymentService.Ctx.input ctx);
       PaymentRequest.metadata :=
         PaymentService.metadata (PaymentService.Ctx.input ctx) |}
  = Returned response ->
  exists (ctx' : PaymentService.Ctx.t) (w' : World.t) (s : PaymentStatus.t),
    SagaStep.execute (PaymentService.process_with_provider env) ctx w
    = (Returned ctx', w')
    /\ SagaOrchestrator.completes [PaymentService.process_with_provider env]
         ctx w = Some (ctx', w')
    /\ (forall row,
          In row (World.payments w') ->
          PaymentModel.has_id (Payment.id payment) row = true ->
          Payment.status row = s
          /\ Payment.provider_transaction_id row
             = Some (PaymentResponse.transactionId response))
    /\ (exists txs tx,
          World.transactions w' = txs ++ [tx]
          /\ Transaction.payment_id tx = Payment.id payment
          /\ Transaction.status tx = s)
    /\ (forall row,
          find (PaymentModel.has_id (Payment.id payment)) (World.payments w)
          = Some row ->
          exists p',
            PaymentService.Ctx.payment ctx' = Some p'
            /\ Payment.status p' = s)
    /\ (PaymentResponse.success response = true ->
        PaymentResponse.status response = ProviderStatus.completed ->
        s = PaymentStatus.completed)
    /\ (PaymentResponse.success response = true ->
        PaymentResponse.status response <> ProviderStatus.completed ->
        s = PaymentStatus.pending)
    /\ (PaymentResponse.success response = false ->
        s = PaymentStatus.failed).
Proof.
  intros Hctx Hprov Hanswer.
  assert (Hrun :
    SagaStep.execute (PaymentService.process_with_provider env) ctx w
    = (Returned
         (PaymentService.Ctx.mk (PaymentService.Ctx.input ctx)
            (Some
               match
                 find (PaymentModel.has_id (Payment.id payment))
                   (PaymentModel.update_where_id (Payment.id payment)
                      (PaymentModel.apply_update
                         {| PaymentModel.status :=
                              Some (PaymentService.newStatus response);
                            PaymentModel.provider_transaction_id :=
                              Some (PaymentResponse.transactionId response) |}
                         (World.now w))
                      (PaymentModel.update_where_id (Payment.id payment)
                         (PaymentModel.apply_update
                            {| PaymentModel.status :=
                                 Some PaymentStatus.processing;
                               PaymentModel.provider_transaction_id := None |}
                            (World.now w))
                         (World.payments w)))
               with
               | Some u => u
               | None => payment
               end)
            (Some (PaymentResponse.rawResponse response))
            (PaymentService.Ctx.auditContext ctx)),
       snd (SagaStep.execute (PaymentService.process_with_provider env)
              ctx w))).
  { cbn [SagaStep.execute PaymentService.process_with_provider].
    rewrite Hctx. run_payment.
    unfold WebhookService.includes in Hprov. cbn in Hprov. rewrite Hprov.
    run_payment. rewrite Hanswer. reflexivity. }
  eexists _, _, (PaymentService.newStatus response).
  split; [exact Hrun|].
  split; [cbn [SagaOrchestrator.completes]; now rewrite Hrun|].
  cbn [SagaStep.execute PaymentService.process_with_provider].
  rewrite Hctx. run_payment.
  unfold WebhookService.includes in Hprov. cbn in Hprov. rewrite Hprov.
  run_payment. rewrite Hanswer. cbn.
  split; [|split; [|split]].
  - intros row Hin Hid.
    apply update_where_id_status in Hin as (p & _ & ->);
      [now cbn|exact Hid|reflexivity].
  - eexists _, _. split; [reflexivity|]. now cbn.
  - intros row Hrow.
    rewrite !find_update_where_id by reflexivity. rewrite Hrow. cbn.
    eexists. split; reflexivity.
  - unfold PaymentService.newStatus.
    repeat split; intros Hs; rewrite Hs; [intros ->|intros Hne|];
      try reflexivity.
    destruct (PaymentResponse.status response); try reflexivity.
    congruence.
Qed.

(** C5 at a declined charge: step 2 returns with the payment [failed]. *)
Lemma provider_response_mapping_witness :
  exists (ctx' : PaymentService.Ctx.t) (w' : World.t),
    SagaStep.execute (PaymentService.process_with_provider Fixture.declining)
      (PaymentService.Ctx.mk (Fixture.charge None)
         (Some (Fixture.payment PaymentStatus.pending None)) None None)
      (Fixture.with_payment (Fixture.payment PaymentStatus.pending None))
    = (Returned ctx', w')
    /\ map Payment.status (World.payments w') = [PaymentStatus.failed].
Proof.
  destruct (provider_response_mapping Fixture.declining
              (PaymentService.Ctx.mk (Fixture.charge None)
                 (Some (Fixture.payment PaymentStatus.pending None))
                 None None)
              (Fixture.payment PaymentStatus.pending None)
              (Fixture.with_payment
                 (Fixture.payment PaymentStatus.pending None))
              Fixture.declined eq_refl eq_refl eq_refl)
    as (ctx' & w' & s & Hrun & _).
  exists ctx', w'. split; [exact Hrun|].
  vm_compute in Hrun. injection Hrun as <- <-. reflexivity.
Defined.

Lemma find_map_where_id (i : string) (f : Payment.t -> Payment.t)
    (l : list Payment.t) :
  (forall p, Payment.id (f p) = Payment.id p) ->
  find (PaymentModel.has_id i)
    (map (fun p => if PaymentModel.has_id i p then f p else p) l)
  = f <$> find (PaymentModel.has_id i) l.
Proof. exact (find_update_where_id i f l). Qed.

Lemma find_app_fresh (i : string) (l : list Payment.t) (row : Payment.t) :
  existsb (PaymentModel.has_id i) l = false ->
  PaymentModel.has_id i row = true ->
  find (PaymentModel.has_id i) (l ++ [row]) = Some row.
Proof.
  intros Hl Hrow. induction l as [|q l IH]; cbn in *.
  - now rewrite Hrow.
  - apply orb_false_iff in Hl as [-> Hl]. now apply IH.
Qed.

(** Step 1 of the charge saga, when it returns, leaves the created payment
    in the context and stored with the status it carries. *)
Lemma create_payment_record_returns (env : Env.t) (ctx : PaymentService.Ctx.t)
    (w : World.t) :
  match SagaStep.execute (PaymentService.create_payment_record env) ctx w with
  | (Returned ctx1, w1) =>
      exists p,
        PaymentService.Ctx.payment ctx1 = Some p
        /\ Payment.status
             <$> find (PaymentModel.has_id (Payment.id p)) (World.payments w1)
           = Some (Payment.status p)
  | (Threw _, _) => True
  end.
Proof.
  cbn [SagaStep.execute PaymentService.create_payment_record].
  unfold PaymentModel.createPayment. run_payment.
  destruct (existsb (PaymentModel.has_id (Env.uuid env (World.uuid_next w)))
              (World.payments w)) eqn:Hfresh; [exact I|].
  cbn [orb].
  destruct (match Str.truthy _ with Some _ => _ | None => _ end);
    [exact I|].
  destruct (_ <=? 0)%Z; [exact I|].
  run_payment. eexists. split; [reflexivity|].
  rewrite find_app_fresh; [reflexivity|exact Hfresh|].
  unfold PaymentModel.has_id. cbn. apply String.eqb_refl.
Qed.

(** Step 2 keeps the payment stored; when it returns, the context holds the
    payment with the status that is stored. *)
Lemma process_with_provider_returns (env : Env.t)
    (ctx : PaymentService.Ctx.t) (w : World.t) (p : Payment.t) :
  PaymentService.Ctx.payment ctx = Some p ->
  is_Some (find (PaymentModel.has_id (Payment.id p)) (World.payments w)) ->
  match SagaStep.execute (PaymentService.process_with_provider env) ctx w with
  | (Returned ctx2, w2) =>
      exists p2,
        PaymentService.Ctx.payment ctx2 = Some p2
        /\ Payment.id p2 = Payment.id p
        /\ Payment.status
             <$> find (PaymentModel.has_id (Payment.id p)) (World.payments w2)
           = Some (Payment.status p2)
  | (Threw _, w2) =>
      is_Some (find (PaymentModel.has_id (Payment.id p)) (World.payments w2))
  end.
Proof.
  intros Hctx [row Hrow]. pose proof (payment_found_id _ _ _ Hrow) as Hid.
  cbn [SagaStep.execute PaymentService.process_with_provider].
  rewrite Hctx. run_payment.
  destruct (_ || _).
  - run_payment.
    destruct (Env.provider_processPayment env _ _ _) as [response|e].
    + run_payment. rewrite ?find_map_where_id, ?find_update_where_id by reflexivity.
      rewrite Hrow. cbn. eexists. split; [reflexivity|]. cbn.
      split; [exact Hid|reflexivity].
    + run_payment. rewrite ?find_map_where_id, ?find_update_where_id by reflexivity.
      rewrite Hrow. cbn. eauto.
  - run_payment. rewrite ?find_map_where_id, ?find_update_where_id by reflexivity.
    rewrite Hrow. cbn. eauto.
Qed.

(** Step 3 touches neither the context nor the payments. *)
Lemma send_webhook_returns (env : Env.t) (ctx : PaymentService.Ctx.t)
    (w : World.t) :
  match SagaStep.execute (PaymentService.send_webhook env) ctx w with
  | (Returned ctx3, w3) =>
      ctx3 = ctx /\ World.payments w3 = World.payments w
  | (Threw _, w3) => World.payments w3 = World.payments w
  end.
Proof.
  cbn [SagaStep.execute PaymentService.send_webhook].
  destruct (PaymentService.Ctx.payment ctx) as [p|]; [|reflexivity].
  destruct (Str.truthy (Payment.webhook_url p)); [|now cbn].
  unfold WebhookService.queueWebhook. cbn [WebhookService.url].
  destruct (WebhookService.valid _); run.
  - destruct (World.channel w); run; now split.
  - reflexivity.
Qed.

(** The compensation of step 1 marks the stored payment failed. *)
Lemma create_payment_record_compensated (env : Env.t)
    (ctx : PaymentService.Ctx.t) (w : World.t) (p : Payment.t) :
  PaymentService.Ctx.payment ctx = Some p ->
  is_Some (find (PaymentModel.has_id (Payment.id p)) (World.payments w)) ->
  Payment.status
    <$> find (PaymentModel.has_id (Payment.id p))
          (World.payments
             (SagaOrchestrator.compensated
                (PaymentService.create_payment_record env) ctx w))
  = Some PaymentStatus.failed.
Proof.
  intros Hctx [row Hrow].
  unfold SagaOrchestrator.compensated.
  cbn [SagaStep.compensate PaymentService.create_payment_record].
  rewrite Hctx. run_payment. rewrite ?find_map_where_id, ?find_update_where_id by reflexivity.
  now rewrite Hrow.
Qed.

Lemma fmap_status_is_Some (o : option Payment.t) (s : PaymentStatus.t) :
  Payment.status <$> o = Some s -> is_Some o.
Proof. destruct o; [eauto|discriminate]. Qed.

(** C10. The success flag of [processPayment]. For an input that passes
    the checks, [processPayment] returns a result, and its [success] is
    [true] exactly when the result carries a payment whose stored status,
    once [processPayment] has returned, is [completed]. When the three
    steps of the saga complete, the result has no error, the payment it
    carries has the stored status, and [success] is the test of that
    status against [completed]: a payment left [pending] gives
    [success = false] and is stored [pending]. *)
Theorem process_payment_success_flag
    (env : Env.t) (input : PaymentService.ProcessPaymentInput)
    (auditContext : option AuditContext.t) (w : World.t) :
  PaymentService.validate input = None ->
  exists (r : PaymentService.ProcessPaymentResult) (w' : World.t),
    PaymentService.processPayment env input auditContext w = (Returned r, w')
    /\ (PaymentService.success r = true <->
        exists p,
          PaymentService.payment r = Some p
          /\ Payment.status
               <$> find (PaymentModel.has_id (Payment.id p))
                     (World.payments w')
             = Some PaymentStatus.completed)
    /\ (forall ctx3 w3,
          SagaOrchestrator.completes (PaymentService.createPaymentSaga env)
            (PaymentService.Ctx.mk input None None auditContext) w
          = Some (ctx3, w3) ->
          exists p,
            PaymentService.payment r = Some p
            /\ PaymentService.error r = None
            /\ Payment.status
                 <$> find (PaymentModel.has_id (Payment.id p))
                       (World.payments w')
               = Some (Payment.status p)
            /\ PaymentService.success r
               = PaymentStatus.eqb (Payment.status p) PaymentStatus.completed
            /\ (Payment.status p = PaymentStatus.pending ->
                PaymentService.success r = false)).
Proof.
  intros Hvalid. unfold PaymentService.processPayment. rewrite Hvalid.
  unfold bind. unfold PaymentService.createPaymentSaga.
  set (ctx0 := PaymentService.Ctx.mk input None None auditContext).
  set (s1 := PaymentService.create_payment_record env).
  set (s2 := PaymentService.process_with_provider env).
  set (s3 := PaymentService.send_webhook env).
  pose proof (create_payment_record_returns env ctx0 w) as H1.
  fold s1 in H1.
  destruct (SagaStep.execute s1 ctx0 w) as [[ctx1|e1] w1] eqn:E1.
  2: {
    pose proof (execute_failure [] s1 [s2; s3] ctx0 ctx0 w w w1 e1 eq_refl E1) as Hx.
    cbn [app] in Hx. rewrite Hx. clear Hx.
    cbn [rev SagaOrchestrator.sweep fold_left SagaResult.success
         SagaResult.context SagaResult.error].
    eexists _, _. split; [reflexivity|].
    cbn [PaymentService.success PaymentService.payment PaymentService.error
         PaymentService.Ctx.payment ctx0].
    split.
    - split; [discriminate|]. intros (p & Hp & _). discriminate.
    - intros ctx4 w4 Hc4.
      change (SagaOrchestrator.completes [s1; s2; s3] ctx0 w
              = Some (ctx4, w4)) in Hc4.
      cbn [SagaOrchestrator.completes] in Hc4. rewrite E1 in Hc4.
      discriminate.
  }
  destruct H1 as (p & Hp1 & Hs1).
  pose proof (process_with_provider_returns env ctx1 w1 p Hp1
                (fmap_status_is_Some _ _ Hs1)) as H2.
  fold s2 in H2.
  destruct (SagaStep.execute s2 ctx1 w1) as [[ctx2|e2] w2] eqn:E2.
  2: {
    assert (Hc : SagaOrchestrator.completes [s1] ctx0 w = Some (ctx1, w1))
      by (cbn [SagaOrchestrator.completes]; now rewrite E1).
    pose proof (execute_failure [s1] s2 [s3] ctx0 ctx1 w w1 w2 e2 Hc E2) as Hx.
    cbn [app] in Hx. rewrite Hx. clear Hx.
    cbn [rev app SagaOrchestrator.sweep fold_left SagaResult.success
         SagaResult.context SagaResult.error].
    rewrite Hp1. eexists _, _. split; [reflexivity|].
    cbn [PaymentService.success PaymentService.payment PaymentService.error].
    split.
    - split; [discriminate|]. intros (p' & Hp' & Hst).
      injection Hp' as <-.
      pose proof (create_payment_record_compensated env ctx1 w2 p Hp1 H2)
        as Hf.
      fold s1 in Hf. rewrite Hf in Hst. discriminate.
    - intros ctx4 w4 Hc4.
      change (SagaOrchestrator.completes [s1; s2; s3] ctx0 w
              = Some (ctx4, w4)) in Hc4.
      cbn [SagaOrchestrator.completes] in Hc4. rewrite E1, E2 in Hc4.
      discriminate.
  }
  destruct H2 as (p2 & Hp2 & Hid2 & Hs2).
  pose proof (send_webhook_returns env ctx2 w2) as H3. fold s3 in H3.
  destruct (SagaStep.execute s3 ctx2 w2) as [[ctx3|e3] w3] eqn:E3.
  2: {
    assert (Hc : SagaOrchestrator.completes [s1; s2] ctx0 w = Some (ctx2, w2))
      by (cbn [SagaOrchestrator.completes]; now rewrite E1, E2).
    pose proof (execute_failure [s1; s2] s3 [] ctx0 ctx2 w w2 w3 e3 Hc E3) as Hx.
    cbn [app] in Hx. rewrite Hx. clear Hx.
    cbn [rev app SagaOrchestrator.sweep fold_left SagaResult.success
         SagaResult.context SagaResult.error].
    change (SagaOrchestrator.compensated s2 ctx2 w3) with w3.
    rewrite Hp2. eexists _, _. split; [reflexivity|].
    cbn [PaymentService.success PaymentService.payment PaymentService.error].
    split.
    - split; [discriminate|]. intros (p' & Hp' & Hst).
      injection Hp' as <-.
      assert (Hsome : is_Some (find (PaymentModel.has_id (Payment.id p2))
                                 (World.payments w3))).
      { rewrite Hid2, H3. exact (fmap_status_is_Some _ _ Hs2). }
      pose proof (create_payment_record_compensated env ctx2 w3 p2 Hp2 Hsome)
        as Hf.
      fold s1 in Hf. rewrite Hf in Hst. discriminate.
    - intros ctx4 w4 Hc4.
      change (SagaOrchestrator.completes [s1; s2; s3] ctx0 w
              = Some (ctx4, w4)) in Hc4.
      cbn [SagaOrchestrator.completes] in Hc4. rewrite E1, E2, E3 in Hc4.
      discriminate.
  }
  destruct H3 as [-> Hw3].
  assert (Hc : SagaOrchestrator.completes [s1; s2; s3] ctx0 w
               = Some (ctx2, w3))
    by (cbn [SagaOrchestrator.completes]; now rewrite E1, E2, E3).
  rewrite (execute_success [s1; s2; s3] ctx0 ctx2 w w3 Hc).
  cbn [SagaResult.success SagaResult.context SagaResult.error].
  rewrite Hp2. eexists _, _. split; [reflexivity|].
  cbn [PaymentService.success PaymentService.payment PaymentService.error].
  rewrite Hw3. rewrite <- Hid2 in Hs2.
  split.
  - split.
    + intros Hok. exists p2. split; [reflexivity|]. rewrite Hs2.
      destruct (Payment.status p2); try discriminate. reflexivity.
    + intros (p' & Hp' & Hst). injection Hp' as <-.
      rewrite Hs2 in Hst. injection Hst as ->. reflexivity.
  - intros ctx3 w4 _. exists p2. repeat split; [exact Hs2|].
    intros ->. reflexivity.
Qed.

(** A charge the provider leaves pending: the three steps complete, the
    result has [success = false] and the payment is stored [pending]. *)
Lemma process_payment_success_flag_witness :
  exists (r : PaymentService.ProcessPaymentResult) (w' : World.t),
    PaymentService.processPayment Fixture.holding (Fixture.charge None) None
      Fixture.empty
    = (Returned r, w')
    /\ PaymentService.success r = false
    /\ PaymentService.error r = None
    /\ map Payment.status (World.payments w') = [PaymentStatus.pending].
Proof.
  destruct (process_payment_success_flag Fixture.holding (Fixture.charge None)
              None Fixture.empty eq_refl)
    as (r & w' & Hrun & _ & _).
  exists r, w'. split; [exact Hrun|].
  vm_compute in Hrun. injection Hrun as <- <-. repeat split.
Defined.

(** The payment carried by the result is the one the context held when the
    saga stopped. When the provider completes the charge and the webhook
    cannot be queued, that payment still reads [completed] while the
    compensation has stored [failed]; [success] is [false]. *)
Example webhook_failure_after_completed_charge :
  exists r w',
    PaymentService.processPayment Fixture.env
      (Fixture.charge (Some "http://localhost/hook")) None Fixture.empty
    = (Returned r, w')
    /\ PaymentService.success r = false
    /\ Payment.status <$> PaymentService.payment r
       = Some PaymentStatus.completed
    /\ map Payment.status (World.payments w') = [PaymentStatus.failed].
Proof. eexists _, _. vm_compute. repeat split. Qed.


(** * Further properties *)

(** ** The status table *)

Lemma transition_shortens (a b : PaymentStatus.t) :
  PaymentService.isValidStatusTransition a b = true ->
  (PaymentLifecycle.remaining b < PaymentLifecycle.remaining a)%nat.
Proof. destruct a, b; cbn; intros H; try discriminate; lia. Qed.

Lemma follows_bounded (history : list PaymentStatus.t) :
  PaymentLifecycle.follows history = true ->
  forall s, head history = Some s ->
    (length history <= PaymentLifecycle.remaining s)%nat
    /\ forall t, In t (tail history) ->
         (PaymentLifecycle.remaining t < PaymentLifecycle.remaining s)%nat.
Proof.
  induction history as [|a rest IH]; [discriminate|].
  intros Hf s [= <-]. destruct rest as [|b rest'].
  - split; [destruct a; cbn; lia|intros t []].
  - cbn [PaymentLifecycle.follows] in Hf.
    apply andb_true_iff in Hf as [Hab Hrest].
    pose proof (transition_shortens a b Hab) as Hlt.
    destruct (IH Hrest b eq_refl) as [Hlen Htail].
    split; [cbn [length] in *; lia|].
    intros t [<-|Ht]; [exact Hlt|]. specialize (Htail t Ht). lia.
Qed.

(** The status table has no cycle. In a history of statuses whose every
    step is a transition that [isValidStatusTransition] accepts, no status
    occurs twice and there are at most five statuses; nothing follows
    [failed] or [refunded], and nothing leads back to [pending]. *)
Theorem status_history_never_returns (history : list PaymentStatus.t) :
  PaymentLifecycle.follows history = true ->
  NoDup history
  /\ (length history <= 5)%nat
  /\ (forall a b rest,
        history = a :: b :: rest ->
        a <> PaymentStatus.failed /\ a <> PaymentStatus.refunded
        /\ b <> PaymentStatus.pending).
Proof.
  intros Hf. split; [|split].
  - induction history as [|a rest IH]; [constructor|].
    constructor.
    + intros Hin. apply list_elem_of_In in Hin.
      destruct (follows_bounded (a :: rest) Hf a eq_refl) as [_ Ht].
      specialize (Ht a Hin). lia.
    + apply IH. destruct rest as [|b rest']; [reflexivity|].
      cbn [PaymentLifecycle.follows] in Hf.
      now apply andb_true_iff in Hf as [_ Hf].
  - destruct history as [|a rest]; [cbn; lia|].
    destruct (follows_bounded (a :: rest) Hf a eq_refl) as [Hlen _].
    destruct a; cbn in *; lia.
  - intros a b rest ->. cbn [PaymentLifecycle.follows] in Hf.
    apply andb_true_iff in Hf as [Hab _].
    destruct a, b; cbn in Hab; try discriminate; repeat split; discriminate.
Qed.

(** The longest history: a charge that is captured and refunded in two
    parts. *)
Lemma status_history_never_returns_witness :
  NoDup [ PaymentStatus.pending; PaymentStatus.processing;
          PaymentStatus.completed; PaymentStatus.partially_refunded;
          PaymentStatus.refunded ].
Proof.
  exact (proj1 (status_history_never_returns
                  [ PaymentStatus.pending; PaymentStatus.processing;
                    PaymentStatus.completed; PaymentStatus.partially_refunded;
                    PaymentStatus.refunded ] eq_refl)).
Defined.

(** ** Delivery to an endpoint that never accepts *)

(** The last failed delivery of an event. *)
Lemma deliver_fails_last (env : Env.t) (id : string) (w : World.t)
    (e : WebhookEvent.t) :
  Delivery.stored id w = Some e ->
  WebhookEvent.status e = WebhookStatus.pending ->
  (WebhookEvent.max_attempts e <= WebhookEvent.attempts e + 1)%Z ->
  Delivery.failed (Env.fetch env (World.remote_calls w) e) ->
  exists e',
    Delivery.stored id (Delivery.apply env (Delivery.Deliver id) w) = Some e'
    /\ WebhookEvent.status e' = WebhookStatus.failed
    /\ WebhookEvent.attempts e' = (WebhookEvent.attempts e + 1)%Z
    /\ WebhookEvent.max_attempts e' = WebhookEvent.max_attempts e
    /\ World.timers (Delivery.apply env (Delivery.Deliver id) w)
       = World.timers w
    /\ World.deliveries (Delivery.apply env (Delivery.Deliver id) w)
       = World.deliveries w ++ [id].
Proof.
  intros Hst Hs Hle Hfail. cbn [Delivery.apply].
  destruct (process_pending env id w e Hst Hs)
    as (ok & w' & e' & Hrun & Hst' & _ & Hd & Hr & _ & _ & _ & Hm & Hcase).
  rewrite Hrun. cbn [snd]. exists e'.
  destruct Hcase as [(Hok & _)
    |(_ & _ & Ha & _ & _ & [(_ & Hf & _ & Ht)|(Hlt & _)])];
    [contradiction| |lia].
  now repeat split.
Qed.

Lemma deliveries_until_failed (env : Env.t) (id : string) :
  (forall n ev, Delivery.failed (Env.fetch env n ev)) ->
  forall (k : nat) (w : World.t) (e : WebhookEvent.t),
    Delivery.stored id w = Some e ->
    WebhookEvent.status e = WebhookStatus.pending ->
    (WebhookEvent.attempts e + Z.of_nat (S k) = WebhookEvent.max_attempts e)%Z ->
    exists e',
      Delivery.stored id
        (Delivery.after env (repeat (Delivery.Deliver id) (S k)) w) = Some e'
      /\ WebhookEvent.status e' = WebhookStatus.failed
      /\ WebhookEvent.attempts e' = WebhookEvent.max_attempts e
      /\ WebhookEvent.max_attempts e' = WebhookEvent.max_attempts e
      /\ World.deliveries
           (Delivery.after env (repeat (Delivery.Deliver id) (S k)) w)
         = World.deliveries w ++ repeat id (S k).
Proof.
  intros Hdown. induction k as [|k IH]; intros w e Hst Hs Hk.
  - destruct (deliver_fails_last env id w e Hst Hs ltac:(lia) (Hdown _ _))
      as (e' & Hst' & Hf & Ha & Hm & _ & Hd).
    exists e'. cbn [repeat Delivery.after fold_left].
    repeat split; try assumption. lia.
  - destruct (deliver_fails env id w e Hst Hs ltac:(lia) (Hdown _ _))
      as (e1 & Hst1 & Hs1 & Ha1 & Hm1 & _ & _ & Hd1).
    destruct (IH _ e1 Hst1 Hs1 ltac:(lia)) as (e' & Hst' & Hf & Ha & Hm & Hd).
    exists e'.
    change (Delivery.after env (repeat (Delivery.Deliver id) (S (S k))) w)
      with (Delivery.after env (repeat (Delivery.Deliver id) (S k))
              (Delivery.apply env (Delivery.Deliver id) w)).
    repeat split; try congruence.
    rewrite Hd, Hd1, <- app_assoc. reflexivity.
Qed.

(** An endpoint that never accepts is tried exactly as often as the event
    has attempts left. For a pending event with [attempts < max_attempts]
    whose every delivery fails, [max_attempts - attempts] calls of
    [processWebhook] issue that many HTTP requests and leave the event
    [failed] with [attempts = max_attempts]; any later call of
    [processWebhook] returns [false] without a request and without
    touching the world. *)
Theorem failing_endpoint_exhausts_attempts
    (env : Env.t) (id : string) (w : World.t) (e : WebhookEvent.t) :
  (forall n ev, Delivery.failed (Env.fetch env n ev)) ->
  Delivery.stored id w = Some e ->
  WebhookEvent.status e = WebhookStatus.pending ->
  (WebhookEvent.attempts e < WebhookEvent.max_attempts e)%Z ->
  let left :=
    Z.to_nat (WebhookEvent.max_attempts e - WebhookEvent.attempts e) in
  let w' := Delivery.after env (repeat (Delivery.Deliver id) left) w in
  (exists e',
     Delivery.stored id w' = Some e'
     /\ WebhookEvent.status e' = WebhookStatus.failed
     /\ WebhookEvent.attempts e' = WebhookEvent.max_attempts e)
  /\ World.deliveries w' = World.deliveries w ++ repeat id left
  /\ WebhookService.processWebhook env id w' = (Returned false, w').
Proof.
  intros Hdown Hst Hs Hlt left w'.
  destruct left as [|k] eqn:Hleft; [subst left; lia|].
  destruct (deliveries_until_failed env id Hdown k w e Hst Hs ltac:(lia))
    as (e' & Hst' & Hf & Ha & _ & Hd).
  fold w' in Hst', Hd.
  split; [exists e'; now repeat split|]. split; [exact Hd|].
  rewrite (process_settled env id w' e' Hst') by (rewrite Hf; discriminate).
  now rewrite Hf.
Qed.

(** An event on its last attempt in front of a destination that is down:
    one request, after which the event is [failed]. *)
Lemma failing_endpoint_exhausts_attempts_witness :
  let w := World.with_webhook_events [Fixture.last_attempt] Fixture.empty in
  World.deliveries
    (Delivery.after Scenario.down [Delivery.Deliver "wh-1"] w)
  = ["wh-1"]
  /\ WebhookService.processWebhook Scenario.down "wh-1"
       (Delivery.after Scenario.down [Delivery.Deliver "wh-1"] w)
     = (Returned false,
        Delivery.after Scenario.down [Delivery.Deliver "wh-1"] w).
Proof.
  exact (proj2
           (failing_endpoint_exhausts_attempts Scenario.down "wh-1"
              (World.with_webhook_events [Fixture.last_attempt]
                 Fixture.empty)
              Fixture.last_attempt (fun _ _ => eq_refl) eq_refl eq_refl
              eq_refl)).
Defined.

(** ** The sweep of pending events *)



(** [processWebhook] tells the truth. For every id and every state it
    returns (it never throws), and it returns [true] exactly when the
    event is stored [sent] afterwards; an id that is not stored gives
    [false]. It makes at most one HTTP request, and the other events are
    what they were. *)
Theorem process_webhook_result_is_truthful (env : Env.t) (id : string)
    (w : World.t) :
  exists (ok : bool) (w' : World.t),
    WebhookService.processWebhook env id w = (Returned ok, w')
    /\ (ok = true
        <-> exists e', Delivery.stored id w' = Some e'
                       /\ WebhookEvent.status e' = WebhookStatus.sent)
    /\ (forall j, j <> id -> Delivery.stored j w' = Delivery.stored j w)
    /\ (World.deliveries w' = World.deliveries w
        \/ World.deliveries w' = World.deliveries w ++ [id]).
Proof.
  destruct (Delivery.stored id w) as [e|] eqn:Hst.
  - destruct (WebhookStatus.eqb (WebhookEvent.status e) WebhookStatus.pending)
      eqn:Hp.
    + assert (Hs : WebhookEvent.status e = WebhookStatus.pending)
        by (destruct (WebhookEvent.status e); now try discriminate).
      destruct (process_pending env id w e Hst Hs)
        as (ok & w' & e' & Hrun & Hst' & Hoth & Hd & _ & _ & _ & _ & _
            & Hcase).
      exists ok, w'. split; [exact Hrun|]. split; [|split; [exact Hoth|auto]].
      rewrite Hst'.
      destruct Hcase as [(_ & -> & Hsent & _)
                        |(_ & -> & _ & _ & _ & [(_ & Hf & _)|(_ & Hq & _)])].
      * split; [intros _; now exists e'|reflexivity].
      * split; [discriminate|]. intros (x & [= <-] & Hx). congruence.
      * split; [discriminate|]. intros (x & [= <-] & Hx). congruence.
    + assert (Hs : WebhookEvent.status e <> WebhookStatus.pending)
        by (intros H; now rewrite H in Hp).
      rewrite (process_settled env id w e Hst Hs).
      eexists _, _. split; [reflexivity|]. rewrite Hst.
      split; [|split; [reflexivity|now left]].
      destruct (WebhookEvent.status e) eqn:Hstatus; cbn.
      * congruence.
      * split; [intros _; now exists e|reflexivity].
      * split; [discriminate|]. intros (x & [= <-] & Hx). congruence.
  - unfold WebhookService.processWebhook, bind,
      WebhookService.getWebhookById.
    unfold Delivery.stored in Hst. rewrite Hst.
    eexists _, _. split; [reflexivity|].
    unfold Delivery.stored. rewrite Hst.
    split; [|split; [reflexivity|now left]].
    split; [discriminate|]. now intros (x & [=] & _).
Qed.
(** ** The idempotency hook and the enqueue, whatever the input *)

(** The idempotency hook never fails a request. For every request and
    every state of the store, [idempotencyMiddleware] returns: it has
    replied (401 without merchant, 409, or the stored response), or it
    lets the handler run; an error of the store other than a conflict is
    swallowed. A request whose method is not [POST], [PUT] or [PATCH], or
    that carries no [Idempotency-Key], passes with nothing read or
    written and without a key. *)
Theorem idempotency_hook_never_throws (env : Env.t)
    (request : IdempotencyMiddleware.Request) (w : World.t) :
  exists (result : IdempotencyMiddleware.Result) (w' : World.t),
    IdempotencyMiddleware.idempotencyMiddleware env request w
    = (Returned result, w')
    /\ (WebhookService.includes (IdempotencyMiddleware.method request)
          ["POST"; "PUT"; "PATCH"] = false
        \/ Str.truthy (IdempotencyMiddleware.idempotency_key_header request)
           = None ->
        result = IdempotencyMiddleware.Continue None /\ w' = w).
Proof.
  unfold IdempotencyMiddleware.idempotencyMiddleware.
  destruct (WebhookService.includes _ _) eqn:Hmethod; cbn [negb].
  2:{ eexists _, _. split; [reflexivity|]. now split. }
  destruct (Str.truthy (IdempotencyMiddleware.idempotency_key_header request))
    as [key|] eqn:Hkey.
  2:{ eexists _, _. split; [reflexivity|]. now split. }
  destruct (Str.truthy (IdempotencyMiddleware.merchantId request))
    as [merchant|] eqn:Hmerchant.
  2:{ eexists _, _. split; [reflexivity|]. intros [H|H]; discriminate. }
  cbv zeta. unfold try_catch, bind.
  destruct (IdempotencyService.check key merchant _ w) as [[r|e] w1].
  - destruct (IdempotencyService.exists_ r).
    + destruct (IdempotencyService.isProcessing r).
      all: eexists _, _; (split; [reflexivity|]).
      all: intros [H|H]; discriminate.
    + destruct (IdempotencyService.startProcessing env key merchant _ _ _ w1)
        as [[[]|e] w2].
      * eexists _, _. split; [reflexivity|]. intros [H|H]; discriminate.
      * destruct (instanceOf "IdempotencyConflictError" e).
        all: eexists _, _; (split; [reflexivity|]).
        all: intros [H|H]; discriminate.
  - destruct (instanceOf "IdempotencyConflictError" e).
    all: eexists _, _; (split; [reflexivity|]).
    all: intros [H|H]; discriminate.
Qed.

(** An event is stored only for a URL that passes validation. When
    [validateWebhookUrl] rejects the URL, [queueWebhook] throws
    [WebhookUrlValidationError] with the reason and nothing is stored or
    published. When it accepts, the URL parses, its protocol is [https:]
    (or [http:] outside production), its host is none of the blocked
    hosts, and [queueWebhook] returns the event it appends to the table:
    [pending], with no attempt made, [max_attempts] of the configuration
    and a signature; the id of the event is published when there is a
    channel. *)
Theorem queue_webhook_stores_validated_urls (env : Env.t)
    (input : WebhookService.QueueWebhookInput) (w : World.t) :
  let validation :=
    WebhookService.validateWebhookUrl env (WebhookService.url input) in
  if WebhookService.valid validation then
    exists (ev : WebhookEvent.t) (w' : World.t) (url : Url.t),
      WebhookService.queueWebhook env input w = (Returned ev, w')
      /\ Env.parseUrl env (WebhookService.url input) = Some url
      /\ (Url.protocol url = "https:"
          \/ Url.protocol url = "http:" /\ Env.isProduction env = false)
      /\ ~ In (Str.toLowerCase (Url.hostname url))
             WebhookService.BLOCKED_HOSTS
      /\ World.webhook_events w' = World.webhook_events w ++ [ev]
      /\ WebhookEvent.url ev = WebhookService.url input
      /\ WebhookEvent.status ev = WebhookStatus.pending
      /\ WebhookEvent.attempts ev = 0%Z
      /\ WebhookEvent.max_attempts ev = Env.maxRetries env
      /\ is_Some (WebhookEvent.signature ev)
      /\ World.queue w'
         = (if World.channel w
            then World.queue w ++ [WebhookEvent.id ev]
            else World.queue w)
  else
    exists message,
      WebhookService.error validation = Some message
      /\ WebhookService.queueWebhook env input w
         = (Threw (ErrorObject "WebhookUrlValidationError" message), w).
Proof.
  cbv zeta. unfold WebhookService.queueWebhook.
  destruct (WebhookService.valid _) eqn:Hvalid; cbn [negb].
  - unfold WebhookService.validateWebhookUrl in Hvalid.
    destruct (Env.parseUrl env (WebhookService.url input)) as [url|];
      [|discriminate].
    unfold WebhookService.validateParsedUrl in Hvalid.
    destruct (WebhookService.includes (Url.protocol url) _) eqn:Hprotocol;
      [|discriminate].
    cbn [negb] in Hvalid.
    destruct (WebhookService.includes (Str.toLowerCase (Url.hostname url))
                WebhookService.BLOCKED_HOSTS) eqn:Hblocked; [discriminate|].
    assert (Hscheme : Url.protocol url = "https:"
                      \/ Url.protocol url = "http:"
                         /\ Env.isProduction env = false).
    { unfold WebhookService.ALLOWED_PROTOCOLS, WebhookService.includes
        in Hprotocol.
      destruct (Env.isProduction env); cbn in Hprotocol.
      - left. rewrite orb_false_r in Hprotocol.
        now apply String.eqb_eq in Hprotocol.
      - rewrite orb_false_r in Hprotocol.
        apply orb_true_iff in Hprotocol as [H|H];
          apply String.eqb_eq in H; auto. }
    assert (Hhost : ~ In (Str.toLowerCase (Url.hostname url))
                      WebhookService.BLOCKED_HOSTS).
    { intros Hin. unfold WebhookService.includes in Hblocked.
      assert (Hex : existsb (String.eqb (Str.toLowerCase (Url.hostname url)))
                      WebhookService.BLOCKED_HOSTS = true).
      { apply existsb_exists. eexists. split; [exact Hin|].
        apply String.eqb_refl. }
      congruence. }
    run. destruct w as [pays txs refs evs logs keys rd ch qu tm dl nw un rc].
    destruct ch; cbn; eexists _, _, url; (split; [reflexivity|]).
    all: repeat split; eauto.
  - unfold WebhookService.validateWebhookUrl in *.
    destruct (Env.parseUrl env (WebhookService.url input)) as [url|].
    2:{ cbn. eexists. split; reflexivity. }
    unfold WebhookService.validateParsedUrl in *.
    destruct (negb _); [cbn; eexists; split; reflexivity|].
    cbv zeta in *.
    destruct (WebhookService.includes _ WebhookService.BLOCKED_HOSTS);
      [cbn; eexists; split; reflexivity|].
    destruct (WebhookService.isPrivateIP _);
      [cbn; eexists; split; reflexivity|].
    destruct (_ || _); [cbn; eexists; split; reflexivity|discriminate].
Qed.

(** ** Invariants of a saga *)

Section SagaInvariant.
Context {W C : Type}.
Variable K : C -> W -> Prop.
Variable steps : list (SagaStep.t W C).

(** A step keeps [K]: when it returns, [K] holds of the context and the
    world it returns; when it throws, [K] holds of the context it was given
    and the world it leaves. *)
Hypothesis execute_keeps :
  forall step ctx w,
    In step steps -> K ctx w ->
    match SagaStep.execute step ctx w with
    | (Returned ctx', w') => K ctx' w'
    | (Threw _, w') => K ctx w'
    end.

(** A compensation keeps [K], whether it returns or throws. *)
Hypothesis compensate_keeps :
  forall step comp ctx w,
    In step steps -> SagaStep.compensate step = Some comp -> K ctx w ->
    K ctx (snd (comp ctx w)).

Lemma completes_keeps (pre : list (SagaStep.t W C)) :
  forall ctx w ctx1 w1,
    (forall s, In s pre -> In s steps) ->
    K ctx w ->
    SagaOrchestrator.completes pre ctx w = Some (ctx1, w1) ->
    K ctx1 w1.
Proof.
  induction pre as [|s pre IH]; intros ctx w ctx1 w1 Hsub HK Hc.
  - cbn in Hc. now injection Hc as <- <-.
  - cbn in Hc. pose proof (execute_keeps s ctx w (Hsub s (or_introl eq_refl)) HK)
      as Hs.
    destruct (SagaStep.execute s ctx w) as [[ctx'|e] w']; [|discriminate].
    apply (IH ctx' w' ctx1 w1); [|exact Hs|exact Hc].
    intros s' Hin. apply Hsub. now right.
Qed.

Lemma sweep_keeps (order : list (SagaStep.t W C)) :
  forall ctx w,
    (forall s, In s order -> In s steps) ->
    K ctx w -> K ctx (SagaOrchestrator.sweep order ctx w).
Proof.
  induction order as [|s order IH]; intros ctx w Hsub HK; [exact HK|].
  cbn. apply IH; [intros s' Hin; apply Hsub; now right|].
  unfold SagaOrchestrator.compensated.
  destruct (SagaStep.compensate s) as [comp|] eqn:Hcomp; [|exact HK].
  apply (compensate_keeps s comp); [apply Hsub; now left|exact Hcomp|exact HK].
Qed.

Lemma execute_keeps_invariant (ctx0 : C) (w0 : W) :
  K ctx0 w0 ->
  exists r w',
    SagaOrchestrator.execute steps ctx0 w0 = (Returned r, w')
    /\ K (SagaResult.context r) w'.
Proof.
  intros HK.
  destruct (for_steps_cases steps [] ctx0 w0) as [(ctx1 & w1 & Hc)|
    (pre & sk & post & ctx1 & w1 & e & w2 & Hsplit & Hpre & Hk)].
  - eexists _, _. rewrite (execute_success steps ctx0 ctx1 w0 w1 Hc).
    split; [reflexivity|]. cbn.
    now apply (completes_keeps steps ctx0 w0 ctx1 w1).
  - assert (Hsub : forall s, In s pre -> In s steps).
    { intros s Hin. rewrite Hsplit. apply in_or_app. now left. }
    assert (Hin : In sk steps).
    { rewrite Hsplit. apply in_or_app. right. now left. }
    pose proof (completes_keeps pre ctx0 w0 ctx1 w1 Hsub HK Hpre) as H1.
    pose proof (execute_keeps sk ctx1 w1 Hin H1) as H2. rewrite Hk in H2.
    eexists _, _. rewrite Hsplit.
    rewrite (execute_failure pre sk post ctx0 ctx1 w0 w1 w2 e Hpre Hk).
    split; [reflexivity|]. cbn. apply sweep_keeps; [|exact H2].
    intros s Hs. apply Hsub. now apply in_rev.
Qed.

(** The orchestrator touches the world through its steps only. A property
    [K] of context and world that every step keeps (on return for the new
    context, on a throw for the context the step was given) and that every
    compensation keeps, returning or throwing, holds of the context and
    the world that [execute] returns, on the success path and after
    compensation alike. *)
Theorem saga_keeps_invariant (ctx0 : C) (w0 : W) :
  K ctx0 w0 ->
  exists r w',
    SagaOrchestrator.execute steps ctx0 w0 = (Returned r, w')
    /\ K (SagaResult.context r) w'.
Proof. exact (execute_keeps_invariant ctx0 w0). Qed.

End SagaInvariant.

(** In the test saga every entry of [compensationOrder] is the mark of a
    compensation, whatever the steps do. *)
Lemma saga_keeps_invariant_witness :
  exists r w',
    SagaOrchestrator.execute
      [SagaTest.step1; SagaTest.step2; SagaTest.step3]
      (SagaTest.mkContext 0 []) []
    = (Returned r, w')
    /\ Forall (fun mark => mark = "comp1" \/ mark = "comp2") w'.
Proof.
  apply (saga_keeps_invariant
           (fun _ w => Forall (fun mark => mark = "comp1" \/ mark = "comp2") w)
           [SagaTest.step1; SagaTest.step2; SagaTest.step3]).
  - intros step ctx w [<-|[<-|[<-|[]]]] H; exact H.
  - intros step comp ctx w [<-|[<-|[<-|[]]]] [= <-] H; cbn;
      (apply Forall_app; split; [exact H|]); (constructor; [auto|constructor]).
  - constructor.
Defined.

(** ** What one charge writes *)

Lemma update_where_id_absent (i : string) (f : Payment.t -> Payment.t)
    (l : list Payment.t) :
  existsb (PaymentModel.has_id i) l = false ->
  PaymentModel.update_where_id i f l = l.
Proof.
  intros H. unfold PaymentModel.update_where_id.
  induction l as [|q l IH]; [reflexivity|].
  cbn in *. apply orb_false_iff in H as [-> H]. now rewrite IH.
Qed.

Lemma update_where_id_last (i : string) (f : Payment.t -> Payment.t)
    (l : list Payment.t) (row : Payment.t) :
  existsb (PaymentModel.has_id i) l = false ->
  Payment.id row = i ->
  PaymentModel.update_where_id i f (l ++ [row]) = l ++ [f row].
Proof.
  intros H Hid. unfold PaymentModel.update_where_id.
  induction l as [|q l IH]; cbn in *.
  - unfold PaymentModel.has_id. now rewrite Hid, String.eqb_refl.
  - apply orb_false_iff in H as [-> H]. now rewrite IH.
Qed.

Lemma written_start (input : PaymentService.ProcessPaymentInput)
    (w : World.t) :
  ChargeLedger.written input w None w.
Proof.
  unfold ChargeLedger.written. repeat split; try reflexivity.
  all: exists []; now rewrite app_nil_r.
Qed.

(** Step 1 from a context without payment. *)
Lemma create_payment_record_written (env : Env.t)
    (input : PaymentService.ProcessPaymentInput)
    (auditContext : option AuditContext.t) (w : World.t) :
  let ctx0 := PaymentService.Ctx.mk input None None auditContext in
  match SagaStep.execute (PaymentService.create_payment_record env) ctx0 w with
  | (Returned ctx1, w1) =>
      exists p,
        PaymentService.Ctx.payment ctx1 = Some p
        /\ ChargeLedger.written input w (Some p) w1
  | (Threw _, w1) => ChargeLedger.written input w None w1
  end.
Proof.
  cbn [SagaStep.execute PaymentService.create_payment_record].
  unfold PaymentModel.createPayment. run_payment.
  destruct (existsb (PaymentModel.has_id (Env.uuid env (World.uuid_next w)))
              (World.payments w)) eqn:Hfresh;
    [apply (written_start input w)|].
  cbn [orb].
  destruct (match Str.truthy _ with Some _ => _ | None => _ end);
    [apply (written_start input w)|].
  destruct (_ <=? 0)%Z; [apply (written_start input w)|].
  run_payment. eexists. split; [reflexivity|].
  unfold ChargeLedger.written. cbn. repeat split.
  - eexists. split; [reflexivity|]. cbn. repeat split. exact Hfresh.
  - eexists [_]. split; [reflexivity|]. repeat constructor.
  - eexists [_]. split; [reflexivity|]. repeat constructor.
  - exists []. split; [now rewrite app_nil_r|constructor].
Qed.

Lemma map_where_id_last (i : string) (f : Payment.t -> Payment.t)
    (l : list Payment.t) (row : Payment.t) :
  existsb (PaymentModel.has_id i) l = false ->
  Payment.id row = i ->
  map (fun p => if PaymentModel.has_id i p then f p else p) (l ++ [row])
  = l ++ [f row].
Proof. exact (update_where_id_last i f l row). Qed.

Lemma Forall_snoc {A} (P : A -> Prop) (l : list A) (x : A) :
  Forall P l -> P x -> Forall P (l ++ [x]).
Proof. intros Hl Hx. apply Forall_app. split; [exact Hl|now constructor]. Qed.

(** Destructs a hypothesis [ChargeLedger.written]. *)
Ltac open_written H :=
  let row := fresh "row" in
  let txs := fresh "txs" in
  let logs := fresh "logs" in
  let events := fresh "events" in
  destruct H as ((row & Hpay & Hrow & Hfresh & Hmer & Hamt)
                 & (txs & Htx & Htxs) & (logs & Hlog & Hlogs)
                 & (events & Hev & Hevs) & Hrf & Hik & Hrd & Hnow & Hch).

(** Step 2 from a context that holds the payment. *)
Lemma process_with_provider_written (env : Env.t)
    (input : PaymentService.ProcessPaymentInput) (w0 : World.t)
    (ctx : PaymentService.Ctx.t) (w : World.t) (p : Payment.t) :
  PaymentService.Ctx.payment ctx = Some p ->
  ChargeLedger.written input w0 (Some p) w ->
  match SagaStep.execute (PaymentService.process_with_provider env) ctx w with
  | (Returned ctx2, w2) =>
      exists p2,
        PaymentService.Ctx.payment ctx2 = Some p2
        /\ ChargeLedger.written input w0 (Some p2) w2
  | (Threw _, w2) => ChargeLedger.written input w0 (Some p) w2
  end.
Proof.
  intros Hctx H. open_written H.
  cbn [SagaStep.execute PaymentService.process_with_provider].
  rewrite Hctx. run_payment.
  destruct (_ || _).
  - run_payment.
    destruct (Env.provider_processPayment env _ _ _) as [response|e].
    + run_payment. rewrite ?Hpay, ?Htx, ?Hlog.
      rewrite (update_where_id_last (Payment.id p)) by (cbn; assumption).
      rewrite (map_where_id_last (Payment.id p)) by (cbn; assumption).
      rewrite find_app_fresh;
        [|exact Hfresh|unfold PaymentModel.has_id; cbn; rewrite Hrow;
                       apply String.eqb_refl].
      eexists. split; [reflexivity|].
      unfold ChargeLedger.written. cbn. rewrite Hrow.
      split; [eexists; split; [reflexivity|]; cbn; now repeat split|].
      rewrite <- !app_assoc. repeat split; try assumption.
      * eexists. split; [reflexivity|].
        apply Forall_app. split; [exact Htxs|]. repeat constructor.
      * eexists. split; [reflexivity|].
        apply Forall_app. split; [exact Hlogs|]. repeat constructor.
      * exists events. split; [first [reflexivity|exact Hev]|exact Hevs].
    + run_payment. rewrite ?Hpay, ?Htx, ?Hlog.
      rewrite (update_where_id_last (Payment.id p)) by (cbn; assumption).
      unfold ChargeLedger.written. cbn.
      split; [eexists; split; [reflexivity|]; cbn; now repeat split|].
      rewrite <- !app_assoc. repeat split; try assumption.
      * eexists. split; [reflexivity|].
        apply Forall_app. split; [exact Htxs|]. repeat constructor.
      * exists logs. split; [first [reflexivity|exact Hlog]|exact Hlogs].
      * exists events. split; [first [reflexivity|exact Hev]|exact Hevs].
  - run_payment. rewrite ?Hpay, ?Htx, ?Hlog.
    rewrite (update_where_id_last (Payment.id p)) by (cbn; assumption).
    unfold ChargeLedger.written. cbn.
    split; [eexists; split; [reflexivity|]; cbn; now repeat split|].
    rewrite <- !app_assoc. repeat split; try assumption.
    * eexists. split; [reflexivity|].
      apply Forall_app. split; [exact Htxs|]. repeat constructor.
    * exists logs. split; [first [reflexivity|exact Hlog]|exact Hlogs].
    * exists events. split; [first [reflexivity|exact Hev]|exact Hevs].
Qed.

(** [queueWebhook] writes at most one event, for the payment it was given,
    and touches no other table. *)
Lemma queueWebhook_frame (env : Env.t)
    (input : WebhookService.QueueWebhookInput) (w : World.t) :
  let w' := snd (WebhookService.queueWebhook env input w) in
  World.payments w' = World.payments w
  /\ World.transactions w' = World.transactions w
  /\ World.audit_logs w' = World.audit_logs w
  /\ World.refunds w' = World.refunds w
  /\ World.idempotency_keys w' = World.idempotency_keys w
  /\ World.redis w' = World.redis w
  /\ World.now w' = World.now w
  /\ World.channel w' = World.channel w
  /\ (World.webhook_events w' = World.webhook_events w
      \/ exists ev,
           World.webhook_events w' = World.webhook_events w ++ [ev]
           /\ WebhookEvent.payment_id ev
              = Str.truthy (WebhookService.payment_id input)).
Proof.
  unfold WebhookService.queueWebhook.
  destruct (WebhookService.valid
              (WebhookService.validateWebhookUrl env
                 (WebhookService.url input))).
  - run. destruct (World.channel w) eqn:Hch; run; rewrite ?Hch;
      repeat split; right; eexists; now split.
  - cbn. repeat split. now left.
Qed.

(** Step 3 from a context that holds the payment. *)
Lemma send_webhook_written (env : Env.t)
    (input : PaymentService.ProcessPaymentInput) (w0 : World.t)
    (ctx : PaymentService.Ctx.t) (w : World.t) (p : Payment.t) :
  PaymentService.Ctx.payment ctx = Some p ->
  ChargeLedger.written input w0 (Some p) w ->
  match SagaStep.execute (PaymentService.send_webhook env) ctx w with
  | (Returned ctx3, w3) =>
      ctx3 = ctx /\ ChargeLedger.written input w0 (Some p) w3
  | (Threw _, w3) => ChargeLedger.written input w0 (Some p) w3
  end.
Proof.
  intros Hctx H.
  cbn [SagaStep.execute PaymentService.send_webhook]. rewrite Hctx.
  destruct (Str.truthy (Payment.webhook_url p)) as [url|]; [|now cbn].
  unfold bind.
  match goal with
  | |- context [WebhookService.queueWebhook env ?i w] =>
      pose proof (queueWebhook_frame env i w) as Hq;
      destruct (WebhookService.queueWebhook env i w) as [o w3]
  end.
  cbn [snd WebhookService.payment_id] in Hq.
  destruct Hq as (E1 & E2 & E3 & E4 & E5 & E6 & E7 & E8 & E9).
  assert (Hw : ChargeLedger.written input w0 (Some p) w3).
  { open_written H. unfold ChargeLedger.written.
    rewrite E1, E2, E3, E4, E5, E6, E7, E8.
    split; [exists row; now repeat split|].
    split; [exists txs; now split|]. split; [exists logs; now split|].
    split; [|now repeat split].
    destruct E9 as [->|(ev & -> & Hid)]; [now exists events|].
    rewrite Hev, <- app_assoc. eexists. split; [reflexivity|].
    apply Forall_app. split; [exact Hevs|]. now repeat constructor. }
  destruct o; [now split|exact Hw].
Qed.

(** The compensation of step 1 with the payment in the context. *)
Lemma compensation_written (env : Env.t)
    (input : PaymentService.ProcessPaymentInput) (w0 : World.t)
    (ctx : PaymentService.Ctx.t) (w : World.t) (p : Payment.t) :
  PaymentService.Ctx.payment ctx = Some p ->
  ChargeLedger.written input w0 (Some p) w ->
  ChargeLedger.written input w0 (Some p)
    (SagaOrchestrator.compensated (PaymentService.create_payment_record env)
       ctx w).
Proof.
  intros Hctx H. open_written H.
  unfold SagaOrchestrator.compensated.
  cbn [SagaStep.compensate PaymentService.create_payment_record].
  rewrite Hctx. run_payment. rewrite ?Hpay, ?Hlog.
  rewrite (update_where_id_last (Payment.id p)) by (cbn; assumption).
  unfold ChargeLedger.written. cbn.
  split; [eexists; split; [reflexivity|]; cbn; now repeat split|].
  rewrite <- ?app_assoc. repeat split; try assumption.
  - exists txs. split; [first [reflexivity|exact Htx]|exact Htxs].
  - eexists. split; [reflexivity|].
    apply Forall_app. split; [exact Hlogs|]. repeat constructor.
  - exists events. split; [first [reflexivity|exact Hev]|exact Hevs].
Qed.

(** The outcome of [processPayment] and what it has written. *)
Lemma processPayment_written
    (env : Env.t) (input : PaymentService.ProcessPaymentInput)
    (auditContext : option AuditContext.t) (w : World.t) :
  match PaymentService.validate input with
  | Some error =>
      PaymentService.processPayment env input auditContext w
      = (Threw error, w)
      /\ instanceOf "PaymentValidationError" error = true
  | None =>
      exists (r : PaymentService.ProcessPaymentResult) (w' : World.t),
        PaymentService.processPayment env input auditContext w
        = (Returned r, w')
        /\ ChargeLedger.written input w (PaymentService.payment r) w'
  end.
Proof.
  unfold PaymentService.processPayment.
  destruct (PaymentService.validate input) as [error|] eqn:Hvalid.
  { split; [reflexivity|]. unfold PaymentService.validate in Hvalid.
    cbv zeta in Hvalid.
    repeat match type of Hvalid with
           | (if ?c then _ else _) = _ => destruct c
           end; first [discriminate|now injection Hvalid as <-]. }
  unfold bind. unfold PaymentService.createPaymentSaga.
  set (ctx0 := PaymentService.Ctx.mk input None None auditContext).
  set (s1 := PaymentService.create_payment_record env).
  set (s2 := PaymentService.process_with_provider env).
  set (s3 := PaymentService.send_webhook env).
  pose proof (create_payment_record_written env input auditContext w) as H1.
  cbv zeta in H1. fold ctx0 s1 in H1.
  destruct (SagaStep.execute s1 ctx0 w) as [[ctx1|e1] w1] eqn:E1.
  2: {
    pose proof (execute_failure [] s1 [s2; s3] ctx0 ctx0 w w w1 e1 eq_refl E1)
      as Hx.
    cbn [app] in Hx. rewrite Hx. clear Hx.
    cbn [rev SagaOrchestrator.sweep fold_left SagaResult.success
         SagaResult.context SagaResult.error].
    eexists _, _. split; [reflexivity|]. exact H1.
  }
  destruct H1 as (p & Hp1 & Hw1).
  pose proof (process_with_provider_written env input w ctx1 w1 p Hp1 Hw1)
    as H2.
  fold s2 in H2.
  destruct (SagaStep.execute s2 ctx1 w1) as [[ctx2|e2] w2] eqn:E2.
  2: {
    assert (Hc : SagaOrchestrator.completes [s1] ctx0 w = Some (ctx1, w1))
      by (cbn [SagaOrchestrator.completes]; now rewrite E1).
    pose proof (execute_failure [s1] s2 [s3] ctx0 ctx1 w w1 w2 e2 Hc E2)
      as Hx.
    cbn [app] in Hx. rewrite Hx. clear Hx.
    cbn [rev app SagaOrchestrator.sweep fold_left SagaResult.success
         SagaResult.context SagaResult.error].
    rewrite Hp1. eexists _, _. split; [reflexivity|].
    cbn [PaymentService.payment].
    exact (compensation_written env input w ctx1 w2 p Hp1 H2).
  }
  destruct H2 as (p2 & Hp2 & Hw2).
  pose proof (send_webhook_written env input w ctx2 w2 p2 Hp2 Hw2) as H3.
  fold s3 in H3.
  destruct (SagaStep.execute s3 ctx2 w2) as [[ctx3|e3] w3] eqn:E3.
  2: {
    assert (Hc : SagaOrchestrator.completes [s1; s2] ctx0 w = Some (ctx2, w2))
      by (cbn [SagaOrchestrator.completes]; now rewrite E1, E2).
    pose proof (execute_failure [s1; s2] s3 [] ctx0 ctx2 w w2 w3 e3 Hc E3)
      as Hx.
    cbn [app] in Hx. rewrite Hx. clear Hx.
    cbn [rev app SagaOrchestrator.sweep fold_left SagaResult.success
         SagaResult.context SagaResult.error].
    change (SagaOrchestrator.compensated s2 ctx2 w3) with w3.
    rewrite Hp2. eexists _, _. split; [reflexivity|].
    cbn [PaymentService.payment].
    exact (compensation_written env input w ctx2 w3 p2 Hp2 H3).
  }
  destruct H3 as [-> Hw3].
  assert (Hc : SagaOrchestrator.completes [s1; s2; s3] ctx0 w
               = Some (ctx2, w3))
    by (cbn [SagaOrchestrator.completes]; now rewrite E1, E2, E3).
  rewrite (execute_success [s1; s2; s3] ctx0 ctx2 w w3 Hc).
  cbn [SagaResult.success SagaResult.context SagaResult.error].
  rewrite Hp2. eexists _, _. split; [reflexivity|]. exact Hw3.
Qed.

(** A charge writes only its own rows. [processPayment] on an input that
    fails the checks throws the validation error and leaves the world as
    it was. On any other input it returns; the rows of [payments] that were
    there are untouched and at most one row, of the merchant and the amount
    of the input, follows them; the rows it adds to [transactions],
    [audit_logs] and [webhook_events] refer to that payment; refunds,
    idempotency records and the cache are not touched. This holds on the
    success path and after compensation alike. *)
Theorem process_payment_writes_its_own_rows
    (env : Env.t) (input : PaymentService.ProcessPaymentInput)
    (auditContext : option AuditContext.t) (w : World.t) :
  match PaymentService.validate input with
  | Some error =>
      PaymentService.processPayment env input auditContext w
      = (Threw error, w)
      /\ instanceOf "PaymentValidationError" error = true
  | None =>
      exists (r : PaymentService.ProcessPaymentResult) (w' : World.t),
        PaymentService.processPayment env input auditContext w
        = (Returned r, w')
        /\ ChargeLedger.written input w (PaymentService.payment r) w'
  end.
Proof. exact (processPayment_written env input auditContext w). Qed.
(** ** Refunds answered by the provider *)

(** Evaluation of the refund service inside its transaction. *)
Ltac run_refund :=
  repeat (progress
            (cbn;
             unfold Tx.bind, Tx.ret, Tx.throw, Tx.try_catch, Tx.lift,
               Js.bind, Js.ret, Js.get, Js.modify, Js.throw,
               Js.try_catch, Db.uuidv4, Db.remote,
               WebhookService.generateSignature, WebhookService.insert_event,
               WebhookService.publishToQueue,
               TransactionModel.createTransaction, AuditService.log,
               AuditService.logRefundStatusChanged,
               AuditService.logPaymentStatusChanged,
               AuditService.logRefundCreated,
               PaymentModel.getPaymentById, RefundModel.getRefundById,
               RefundModel.updateRefund, Providers.getProvider)).

(** [createRefund] on a request that its checks let through and whose
    insertion succeeds, up to the [try] block: the payment row is locked,
    the refund is stored [pending] and audited. *)
Lemma createRefund_reaches_provider (env : Env.t)
    (input : RefundService.CreateRefundInput)
    (auditContext : option AuditContext.t) (w : World.t)
    (payment : Payment.t) (stored : Z) :
  Refunds.admitted input payment w ->
  Number.toDecimal (RefundService.amount input) = Some stored ->
  (0 < stored)%Z ->
  existsb (RefundModel.has_id (Env.uuid env (World.uuid_next w)))
    (World.refunds w) = false ->
  exists (refund : Refund.t) (a : AuditLog.t) (w1 : World.t)
         (locked : list string),
    RefundService.createRefund env input auditContext w
    = Locking.withTransaction
        (fun _ =>
           Tx.try_catch
             (RefundService.process_with_provider env input auditContext
                payment refund (Number.ofDecimal (Payment.amount payment))
                (Number.ofDecimal
                   (Refunds.completed_total (Payment.id payment) w)))
             (RefundService.mark_failed env auditContext payment refund)
             (Tx.mkState w1 (Payment.id payment :: locked)))
        w
    /\ refund
       = {| Refund.id := Env.uuid env (World.uuid_next w);
            Refund.payment_id := RefundService.payment_id input;
            Refund.amount := stored;
            Refund.status := RefundStatus.pending;
            Refund.reason := Str.truthy (RefundService.reason input);
            Refund.provider_refund_id := None;
            Refund.created_at := World.now w;
            Refund.updated_at := World.now w |}
    /\ w1 = World.with_audit_logs (World.audit_logs w ++ [a])
              (World.with_uuid_next (S (S (World.uuid_next w)))
                 (World.with_refunds (World.refunds w ++ [refund]) w)).
Proof.
  intros (Hfind & Hstatus & Hpos & Havail) Hstored Hstored_pos Hfresh.
  unfold Refunds.available, Refunds.completed_total, Refunds.pending_total
    in *.
  destruct (filter_head _ _ _ Hfind) as (rest & Hrows).
  apply Z.leb_gt in Hstored_pos.
  eexists _, _, _, _. split; [|split; reflexivity].
  unfold RefundService.createRefund, Locking.withTransaction.
  unfold Tx.bind at 1. unfold Tx.select_for_update at 1.
  cbn [Tx.world Tx.locked]. rewrite Hrows, Hstatus. cbn [negb].
  rewrite Hpos.
  unfold Tx.bind at 1. unfold Tx.lift at 1.
  unfold RefundModel.getTotalRefundedAmount at 1. cbn [Tx.world Tx.locked].
  unfold Tx.bind at 1. unfold Tx.lift at 1.
  unfold RefundModel.getPendingRefundsAmount at 1. cbn [Tx.world Tx.locked].
  rewrite Havail.
  unfold Tx.bind at 1. unfold Tx.lift at 1.
  unfold RefundModel.createRefund at 1.
  unfold bind at 1, Db.uuidv4 at 1.
  cbn [World.refunds World.with_uuid_next RefundModel.amount Tx.world
       Tx.locked].
  rewrite Hstored, Hfresh, Hstored_pos.
  unfold Tx.bind at 1. unfold Tx.lift at 1.
  unfold AuditService.logRefundCreated at 1.
  unfold AuditService.log at 1.
  unfold bind at 1, Db.uuidv4 at 1.
  cbn [Tx.world Tx.locked map app].
  reflexivity.
Qed.

Lemma find_refund_app_fresh (i : string) (l : list Refund.t) (r : Refund.t) :
  existsb (RefundModel.has_id i) l = false ->
  RefundModel.has_id i r = true ->
  find (RefundModel.has_id i) (l ++ [r]) = Some r.
Proof.
  intros Hl Hr. induction l as [|q l IH]; cbn in *.
  - now rewrite Hr.
  - apply orb_false_iff in Hl as [-> Hl]. now apply IH.
Qed.

Lemma map_refund_last (i : string) (f : Refund.t -> Refund.t)
    (l : list Refund.t) (r : Refund.t) :
  existsb (RefundModel.has_id i) l = false ->
  Refund.id r = i ->
  map (fun x => if RefundModel.has_id i x then f x else x) (l ++ [r])
  = l ++ [f r].
Proof.
  intros H Hid. induction l as [|q l IH]; cbn in *.
  - unfold RefundModel.has_id. now rewrite Hid, String.eqb_refl.
  - apply orb_false_iff in H as [-> H]. now rewrite IH.
Qed.

(** The provider round of [createRefund], from the refund stored last in
    the table to the answer of the provider. *)
Ltac enter_provider_round w1 Hrows Hprov Htx Hanswer :=
  destruct w1 as [pays txs refs evs logs keys rd ch qu tm dl nw un rc];
  cbn [World.payments World.transactions World.refunds World.webhook_events
       World.audit_logs World.now World.remote_calls World.channel
       World.queue] in *;
  subst refs;
  unfold RefundService.process_with_provider, RefundService.mark_failed,
    Locking.queueWebhook;
  run_refund;
  cbn in Hprov; rewrite Hprov; run_refund; rewrite Htx; run_refund;
  rewrite Hanswer; run_refund.

Section ProviderRound.

Variables (env : Env.t) (input : RefundService.CreateRefundInput)
  (auditContext : option AuditContext.t) (payment : Payment.t)
  (refund : Refund.t) (paymentAmount totalRefunded : Number.t)
  (w1 : World.t) (locked : list string) (rows : list Refund.t)
  (transactionId : string) (response : RefundResponse.t).

Hypothesis stored_last : World.refunds w1 = rows ++ [refund].

Hypothesis stored_once :
  existsb (RefundModel.has_id (Refund.id refund)) rows = false.

Hypothesis registered :
  WebhookService.includes (Str.toLowerCase (Payment.provider payment))
    Providers.getSupportedProviders = true.

Hypothesis charged :
  Str.truthy (Payment.provider_transaction_id payment) = Some transactionId.

Hypothesis answered :
  Env.provider_processRefund env (Str.toLowerCase (Payment.provider payment))
    (World.remote_calls w1)
    {| RefundRequest.transactionId := transactionId;
       RefundRequest.amount := RefundService.amount input;
       RefundRequest.reason := RefundService.reason input |}
  = Returned response.

Local Abbreviation provider_round :=
  (Tx.try_catch
     (RefundService.process_with_provider env input auditContext payment
        refund paymentAmount totalRefunded)
     (RefundService.mark_failed env auditContext payment refund)
     (Tx.mkState w1 (Payment.id payment :: locked))).

Local Abbreviation settled_refund :=
  (RefundRound.settled response (World.now w1) refund).

Local Abbreviation settled_status :=
  (RefundRound.payment_status paymentAmount totalRefunded
     (RefundService.amount input)).

Lemma refund_round_refused :
  RefundResponse.success response = false ->
  exists res w2,
    provider_round
    = Tx.Ends (Returned res) (Tx.mkState w2 (Payment.id payment :: locked))
    /\ World.refunds w2 = rows ++ [settled_refund]
    /\ RefundService.refund res = Some settled_refund
    /\ RefundService.success res = false
    /\ World.payments w2 = World.payments w1
    /\ World.transactions w2 = World.transactions w1
    /\ World.webhook_events w2 = World.webhook_events w1
    /\ World.remote_calls w2 = S (World.remote_calls w1)
    /\ RefundService.payment res = Some payment
    /\ RefundService.error res
       = Some (match Str.truthy (RefundResponse.errorMessage response) with
               | Some m => m
               | None => "Refund failed"
               end).
Proof.
  intros Hok. unfold RefundRound.settled.
  assert (Hself : RefundModel.has_id (Refund.id refund) refund = true)
    by apply String.eqb_refl.
  enter_provider_round w1 stored_last registered charged answered.
  rewrite Hok. run_refund.
  rewrite (map_refund_last (Refund.id refund)) by (cbn; auto).
  rewrite find_refund_app_fresh by (cbn; auto).
  eexists _, _. split; [reflexivity|]. cbn. repeat split.
Qed.

Lemma refund_round_settled :
  RefundResponse.success response = true ->
  Str.truthy (Payment.webhook_url payment) = None ->
  exists res w2,
    provider_round
    = Tx.Ends (Returned res) (Tx.mkState w2 (Payment.id payment :: locked))
    /\ World.refunds w2 = rows ++ [settled_refund]
    /\ RefundService.refund res = Some settled_refund
    /\ RefundService.success res = true
    /\ RefundService.error res = None
    /\ World.payments w2
       = PaymentModel.update_where_id (Payment.id payment)
           (Payment.with_status settled_status (World.now w1))
           (World.payments w1)
    /\ RefundService.payment res
       = find (PaymentModel.has_id (Payment.id payment)) (World.payments w2)
    /\ World.webhook_events w2 = World.webhook_events w1
    /\ exists tx,
         World.transactions w2 = World.transactions w1 ++ [tx]
         /\ Transaction.payment_id tx = Payment.id payment
         /\ Transaction.status tx = settled_status.
Proof.
  intros Hok Hurl. unfold RefundRound.settled, RefundRound.payment_status.
  assert (Hself : RefundModel.has_id (Refund.id refund) refund = true)
    by apply String.eqb_refl.
  enter_provider_round w1 stored_last registered charged answered.
  rewrite Hok. run_refund. rewrite Hurl. run_refund.
  rewrite (map_refund_last (Refund.id refund)) by (cbn; auto).
  rewrite find_refund_app_fresh by (cbn; auto).
  eexists _, _. split; [reflexivity|]. cbn.
  repeat split. eexists. repeat split.
Qed.

Lemma refund_round_waits (url : string) :
  Payment.id payment <> "" ->
  RefundResponse.success response = true ->
  Str.truthy (Payment.webhook_url payment) = Some url ->
  WebhookService.valid (WebhookService.validateWebhookUrl env url) = true ->
  exists s2,
    provider_round = Tx.Waits s2
    /\ World.webhook_events (Tx.world s2) = World.webhook_events w1
    /\ World.queue (Tx.world s2) = World.queue w1
    /\ World.remote_calls (Tx.world s2) = S (World.remote_calls w1).
Proof.
  intros Hid Hok Hurl Hvalid.
  enter_provider_round w1 stored_last registered charged answered.
  rewrite Hok. run_refund. rewrite Hurl. run_refund.
  rewrite Hvalid. run_refund.
  unfold Tx.insert_event. cbn [WebhookEvent.payment_id].
  destruct (Payment.id payment) as [|c rest] eqn:Eid; [contradiction|].
  cbn [Tx.locked existsb]. rewrite String.eqb_refl. cbn.
  eexists. split; [reflexivity|]. cbn. repeat split.
Qed.

Lemma refund_round_url_rejected (url : string) :
  RefundResponse.success response = true ->
  Str.truthy (Payment.webhook_url payment) = Some url ->
  WebhookService.valid (WebhookService.validateWebhookUrl env url) = false ->
  exists res w2,
    provider_round
    = Tx.Ends (Returned res) (Tx.mkState w2 (Payment.id payment :: locked))
    /\ World.refunds w2
       = rows ++ [Refund.with_status RefundStatus.failed (World.now w1)
                    settled_refund]
    /\ RefundService.refund res
       = Some (Refund.with_status RefundStatus.failed (World.now w1)
                 settled_refund)
    /\ RefundService.success res = false
    /\ RefundService.payment res = Some payment
    /\ RefundService.error res
       = Some (match Str.truthy
                       (WebhookService.error
                          (WebhookService.validateWebhookUrl env url)) with
               | Some e => e
               | None => "Invalid webhook URL"
               end)
    /\ World.payments w2
       = PaymentModel.update_where_id (Payment.id payment)
           (Payment.with_status settled_status (World.now w1))
           (World.payments w1)
    /\ World.webhook_events w2 = World.webhook_events w1.
Proof.
  intros Hok Hurl Hvalid.
  unfold RefundRound.settled, RefundRound.payment_status.
  assert (Hself : RefundModel.has_id (Refund.id refund) refund = true)
    by apply String.eqb_refl.
  enter_provider_round w1 stored_last registered charged answered.
  rewrite Hok. run_refund. rewrite Hurl. run_refund.
  rewrite Hvalid. run_refund.
  rewrite (map_refund_last (Refund.id refund)) by (cbn; auto).
  rewrite (map_refund_last (Refund.id refund)) by (cbn; auto).
  rewrite find_refund_app_fresh by (cbn; auto).
  eexists _, _. split; [reflexivity|]. cbn. repeat split.
Qed.

End ProviderRound.

(** A refund that the provider accepts settles the payment. For a request
    that the checks of [createRefund] let through, on a payment without
    webhook URL that has a provider transaction id and a registered
    provider, when the provider answers with [success], [createRefund]
    returns [success = true]; the refund is stored [completed], after the
    refunds that were there, with the provider's refund id and the amount
    rounded to the four decimals of the column; and the payment is stored
    [refunded] when the completed refunds plus the requested amount reach
    the payment amount (in double precision), [partially_refunded]
    otherwise. Pending refunds do not count towards that threshold. *)
Theorem accepted_refund_settles_payment
    (env : Env.t) (input : RefundService.CreateRefundInput)
    (auditContext : option AuditContext.t) (w : World.t)
    (payment : Payment.t) (stored : Z) (transactionId : string)
    (response : RefundResponse.t) :
  Refunds.admitted input payment w ->
  Number.toDecimal (RefundService.amount input) = Some stored ->
  (0 < stored)%Z ->
  existsb (RefundModel.has_id (Env.uuid env (World.uuid_next w)))
    (World.refunds w) = false ->
  WebhookService.includes (Str.toLowerCase (Payment.provider payment))
    Providers.getSupportedProviders = true ->
  Str.truthy (Payment.provider_transaction_id payment) = Some transactionId ->
  Env.provider_processRefund env (Str.toLowerCase (Payment.provider payment))
    (World.remote_calls w)
    {| RefundRequest.transactionId := transactionId;
       RefundRequest.amount := RefundService.amount input;
       RefundRequest.reason := RefundService.reason input |}
  = Returned response ->
  RefundResponse.success response = true ->
  Str.truthy (Payment.webhook_url payment) = None ->
  exists (res : RefundService.RefundResult) (w' : World.t) (r : Refund.t)
         (row : Payment.t),
    RefundService.createRefund env input auditContext w
    = Tx.Ends (Returned res) w'
    /\ RefundService.success res = true
    /\ RefundService.refund res = Some r
    /\ World.refunds w' = World.refunds w ++ [r]
    /\ Refund.status r = RefundStatus.completed
    /\ Refund.payment_id r = RefundService.payment_id input
    /\ Refund.amount r = stored
    /\ Refund.provider_refund_id r = Some (RefundResponse.refundId response)
    /\ RefundService.payment res = Some row
    /\ find (PaymentModel.has_id (RefundService.payment_id input))
         (World.payments w') = Some row
    /\ Payment.status row
       = RefundRound.payment_status
           (Number.ofDecimal (Payment.amount payment))
           (Number.ofDecimal
              (Refunds.completed_total (Payment.id payment) w))
           (RefundService.amount input)
    /\ World.webhook_events w' = World.webhook_events w.
Proof.
  intros Hadm Hstored Hpos Hfresh Hprov Htx Hanswer Hok Hurl.
  pose proof Hadm as (Hfind & _).
  pose proof (payment_found_id _ _ _ Hfind) as Hid.
  destruct (createRefund_reaches_provider env input auditContext w payment
              stored Hadm Hstored Hpos Hfresh)
    as (refund & a & w1 & locked & -> & Hrefund & Hw1).
  destruct (refund_round_settled env input auditContext payment refund
              (Number.ofDecimal (Payment.amount payment))
              (Number.ofDecimal
                 (Refunds.completed_total (Payment.id payment) w))
              w1 locked (World.refunds w) transactionId response)
    as (res & w2 & Hrun & Hrows & Hres & Hsucc & _ & Hpay & Hrespay & Hevs
        & _);
    try assumption.
  { now rewrite Hw1. }
  { now rewrite Hrefund. }
  { now rewrite Hw1. }
  unfold Locking.withTransaction. rewrite Hrun.
  cbn [Tx.world].
  assert (Hrow : find (PaymentModel.has_id (RefundService.payment_id input))
                   (World.payments w2)
                 = Some (Payment.with_status
                           (RefundRound.payment_status
                              (Number.ofDecimal (Payment.amount payment))
                              (Number.ofDecimal
                                 (Refunds.completed_total
                                    (Payment.id payment) w))
                              (RefundService.amount input))
                           (World.now w1) payment)).
  { rewrite <- Hid. rewrite Hpay, find_update_where_id by reflexivity.
    rewrite Hw1. cbn [World.payments World.with_audit_logs
                        World.with_uuid_next World.with_refunds].
    rewrite Hid, Hfind. reflexivity. }
  eexists res, w2, _, _. split; [reflexivity|].
  split; [exact Hsucc|]. split; [exact Hres|].
  split; [exact Hrows|]. unfold RefundRound.settled.
  rewrite Hok, Hrefund. cbn.
  repeat split; try exact Hrow.
  - rewrite Hrespay. rewrite <- Hid in Hrow. exact Hrow.
  - reflexivity.
  - rewrite Hevs, Hw1. reflexivity.
Qed.

(** A first refund of 30 on a completed charge of 100.0000. *)
Lemma accepted_refund_settles_payment_witness :
  exists res w' row,
    RefundService.createRefund Fixture.env (Fixture.refund 30 1) None
      (Fixture.with_payment (Fixture.payment PaymentStatus.completed None))
    = Tx.Ends (Returned res) w'
    /\ RefundService.payment res = Some row
    /\ Payment.status row = PaymentStatus.partially_refunded.
Proof.
  destruct (accepted_refund_settles_payment Fixture.env
              (Fixture.refund 30 1) None
              (Fixture.with_payment
                 (Fixture.payment PaymentStatus.completed None))
              (Fixture.payment PaymentStatus.completed None) 300000 "ch_1"
              {| RefundResponse.success := true;
                 RefundResponse.refundId := "re_1";
                 RefundResponse.status := ProviderStatus.completed;
                 RefundResponse.rawResponse := JObject [];
                 RefundResponse.errorCode := None;
                 RefundResponse.errorMessage := None |}
              ltac:(repeat split; vm_compute; reflexivity)
              ltac:(vm_compute; reflexivity) ltac:(lia)
              ltac:(vm_compute; reflexivity) ltac:(vm_compute; reflexivity)
              ltac:(vm_compute; reflexivity) ltac:(vm_compute; reflexivity)
              ltac:(reflexivity) ltac:(reflexivity))
    as (res & w' & r & row & Hrun & _ & _ & _ & _ & _ & _ & _ & Hpay & _
        & Hs & _).
  exists res, w', row. split; [exact Hrun|]. split; [exact Hpay|].
  rewrite Hs. vm_compute. reflexivity.
Defined.

Lemma sum_amount_app (pid : string) (s : RefundStatus.t)
    (l : list Refund.t) (r : Refund.t) :
  RefundModel.sum_amount pid s (l ++ [r])
  = (RefundModel.sum_amount pid s l
     + (if String.eqb (Refund.payment_id r) pid
           && RefundStatus.eqb (Refund.status r) s
        then Refund.amount r else 0))%Z.
Proof.
  unfold RefundModel.sum_amount. induction l as [|x l IH]; cbn.
  - destruct (_ && _); cbn; lia.
  - destruct (String.eqb (Refund.payment_id x) pid
              && RefundStatus.eqb (Refund.status x) s); cbn; rewrite IH; lia.
Qed.

(** A refund that the provider refuses costs nothing. For a request that
    the checks let through, when the provider answers without [success],
    [createRefund] returns (it does not throw) with [success = false] and
    the provider's message, or ["Refund failed"]; the refund is stored
    [failed]; no payment, transaction or webhook event is written; and the
    completed and pending totals of every payment are what they were, so
    the refused amount can be refunded again. *)
Theorem refused_refund_changes_no_payment
    (env : Env.t) (input : RefundService.CreateRefundInput)
    (auditContext : option AuditContext.t) (w : World.t)
    (payment : Payment.t) (stored : Z) (transactionId : string)
    (response : RefundResponse.t) :
  Refunds.admitted input payment w ->
  Number.toDecimal (RefundService.amount input) = Some stored ->
  (0 < stored)%Z ->
  existsb (RefundModel.has_id (Env.uuid env (World.uuid_next w)))
    (World.refunds w) = false ->
  WebhookService.includes (Str.toLowerCase (Payment.provider payment))
    Providers.getSupportedProviders = true ->
  Str.truthy (Payment.provider_transaction_id payment) = Some transactionId ->
  Env.provider_processRefund env (Str.toLowerCase (Payment.provider payment))
    (World.remote_calls w)
    {| RefundRequest.transactionId := transactionId;
       RefundRequest.amount := RefundService.amount input;
       RefundRequest.reason := RefundService.reason input |}
  = Returned response ->
  RefundResponse.success response = false ->
  exists (res : RefundService.RefundResult) (w' : World.t) (r : Refund.t),
    RefundService.createRefund env input auditContext w
    = Tx.Ends (Returned res) w'
    /\ RefundService.success res = false
    /\ RefundService.error res
       = Some (match Str.truthy (RefundResponse.errorMessage response) with
               | Some m => m
               | None => "Refund failed"
               end)
    /\ RefundService.payment res = Some payment
    /\ RefundService.refund res = Some r
    /\ World.refunds w' = World.refunds w ++ [r]
    /\ Refund.status r = RefundStatus.failed
    /\ World.payments w' = World.payments w
    /\ World.transactions w' = World.transactions w
    /\ World.webhook_events w' = World.webhook_events w
    /\ forall pid,
         Refunds.completed_total pid w' = Refunds.completed_total pid w
         /\ Refunds.pending_total pid w' = Refunds.pending_total pid w.
Proof.
  intros Hadm Hstored Hpos Hfresh Hprov Htx Hanswer Hok.
  destruct (createRefund_reaches_provider env input auditContext w payment
              stored Hadm Hstored Hpos Hfresh)
    as (refund & a & w1 & locked & -> & Hrefund & Hw1).
  destruct (refund_round_refused env input auditContext payment refund
              (Number.ofDecimal (Payment.amount payment))
              (Number.ofDecimal
                 (Refunds.completed_total (Payment.id payment) w))
              w1 locked (World.refunds w) transactionId response)
    as (res & w2 & Hrun & Hrows & Hres & Hsucc & Hpay & Htxs & Hevs & _
        & Hrespay & Herr);
    try assumption.
  { now rewrite Hw1. }
  { now rewrite Hrefund. }
  { now rewrite Hw1. }
  unfold Locking.withTransaction. rewrite Hrun. cbn [Tx.world].
  eexists res, w2, _. split; [reflexivity|].
  split; [exact Hsucc|]. split; [exact Herr|].
  split; [exact Hrespay|]. split; [exact Hres|]. split; [exact Hrows|].
  unfold RefundRound.settled. rewrite Hok, Hrefund, Hpay, Htxs, Hevs, Hw1.
  cbn. repeat split.
  all: unfold Refunds.completed_total, Refunds.pending_total.
  all: rewrite Hrows, sum_amount_app; unfold RefundRound.settled.
  all: rewrite Hok, Hrefund; cbn.
  all: rewrite andb_false_r; lia.
Qed.

(** A refund of 30 that the provider refuses. *)
Lemma refused_refund_changes_no_payment_witness :
  exists res w',
    RefundService.createRefund Scenario.refusing (Fixture.refund 30 1) None
      (Fixture.with_payment (Fixture.payment PaymentStatus.completed None))
    = Tx.Ends (Returned res) w'
    /\ RefundService.success res = false
    /\ World.payments w'
       = [Fixture.payment PaymentStatus.completed None].
Proof.
  destruct (refused_refund_changes_no_payment Scenario.refusing
              (Fixture.refund 30 1) None
              (Fixture.with_payment
                 (Fixture.payment PaymentStatus.completed None))
              (Fixture.payment PaymentStatus.completed None) 300000 "ch_1"
              Scenario.refused
              ltac:(repeat split; vm_compute; reflexivity)
              ltac:(vm_compute; reflexivity) ltac:(lia)
              ltac:(vm_compute; reflexivity) ltac:(vm_compute; reflexivity)
              ltac:(vm_compute; reflexivity) ltac:(vm_compute; reflexivity)
              ltac:(reflexivity))
    as (res & w' & r & Hrun & Hs & _ & _ & _ & _ & _ & Hpay & _).
  exists res, w'. split; [exact Hrun|]. split; [exact Hs|].
  rewrite Hpay. reflexivity.
Defined.

(** [createRefund] on a request that no stored payment admits. *)
Lemma createRefund_not_admitted
    (env : Env.t) (input : RefundService.CreateRefundInput)
    (auditContext : option AuditContext.t) (w : World.t) :
  (forall payment, ~ Refunds.admitted input payment w) ->
  exists message,
    RefundService.createRefund env input auditContext w
    = Tx.Ends (Threw (RefundService.RefundValidationError message)) w.
Proof.
  intros Hnot.
  unfold RefundService.createRefund, Locking.withTransaction.
  unfold Tx.bind at 1. unfold Tx.select_for_update at 1.
  cbn [Tx.world Tx.locked].
  destruct (find (PaymentModel.has_id (RefundService.payment_id input))
              (World.payments w)) as [payment|] eqn:Hfind.
  2:{ rewrite (filter_none _ _ Hfind). cbn. rewrite rollback_same.
      now eexists. }
  destruct (filter_head _ _ _ Hfind) as (rest & ->).
  destruct (RefundService.refundable_status (Payment.status payment))
    eqn:Hstatus; cbn [negb].
  2:{ cbn. rewrite rollback_same. now eexists. }
  destruct (PrimFloat.leb (RefundService.amount input) PrimFloat.zero)
    eqn:Hpos.
  1:{ cbn. rewrite rollback_same. now eexists. }
  unfold Tx.bind at 1. unfold Tx.lift at 1.
  unfold RefundModel.getTotalRefundedAmount at 1. cbn [Tx.world Tx.locked].
  unfold Tx.bind at 1. unfold Tx.lift at 1.
  unfold RefundModel.getPendingRefundsAmount at 1. cbn [Tx.world Tx.locked].
  destruct (PrimFloat.ltb _ (RefundService.amount input)) eqn:Havail.
  1:{ unfold Tx.throw. cbn [Tx.world]. rewrite rollback_same. now eexists. }
  destruct (Hnot payment). now repeat split.
Qed.

(** A request that the checks refuse leaves no trace. When no stored
    payment admits the request (the payment is unknown, or not [completed]
    or [partially_refunded], or the amount is not above zero or exceeds
    what is left), [createRefund] throws a [RefundValidationError] and the
    database is what it was: no refund row, no audit row, no call of the
    provider. *)
Theorem refund_validation_leaves_no_trace
    (env : Env.t) (input : RefundService.CreateRefundInput)
    (auditContext : option AuditContext.t) (w : World.t) :
  (forall payment, ~ Refunds.admitted input payment w) ->
  exists message,
    RefundService.createRefund env input auditContext w
    = Tx.Ends (Threw (RefundService.RefundValidationError message)) w.
Proof. exact (createRefund_not_admitted env input auditContext w). Qed.

(** A refund of 200 on a completed charge of 100.0000. *)
Lemma refund_validation_leaves_no_trace_witness :
  RefundService.createRefund Fixture.env (Fixture.refund 200 1) None
    (Fixture.with_payment (Fixture.payment PaymentStatus.completed None))
  = Tx.Ends
      (Threw (RefundService.RefundValidationError
                "Refund amount 200 exceeds available amount 100.00"))
      (Fixture.with_payment (Fixture.payment PaymentStatus.completed None)).
Proof.
  destruct (refund_validation_leaves_no_trace Fixture.env
              (Fixture.refund 200 1) None
              (Fixture.with_payment
                 (Fixture.payment PaymentStatus.completed None)))
    as (message & Hrun).
  - intros payment (Hfind & _ & _ & Havail).
    cbn in Hfind. injection Hfind as <-.
    vm_compute in Havail. discriminate.
  - rewrite Hrun. vm_compute in Hrun. injection Hrun as ->. reflexivity.
Defined.

(** An accepted refund of a payment with a webhook URL never returns. For
    a request that the checks let through, when the provider accepts and
    the payment has a webhook URL that passes validation, [createRefund]
    comes to [queueWebhook] inside the transaction that holds the payment
    row [FOR UPDATE]; the insertion of the event, sent through the pool,
    waits for that lock, and the call does not end. The provider has
    refunded the money (it was called once), and the database shows none
    of it: no refund row, the payment as it was, no transaction row, no
    webhook event. *)
Theorem accepted_refund_with_webhook_url_never_returns
    (env : Env.t) (input : RefundService.CreateRefundInput)
    (auditContext : option AuditContext.t) (w : World.t)
    (payment : Payment.t) (stored : Z) (transactionId url : string)
    (response : RefundResponse.t) :
  Refunds.admitted input payment w ->
  Number.toDecimal (RefundService.amount input) = Some stored ->
  (0 < stored)%Z ->
  existsb (RefundModel.has_id (Env.uuid env (World.uuid_next w)))
    (World.refunds w) = false ->
  WebhookService.includes (Str.toLowerCase (Payment.provider payment))
    Providers.getSupportedProviders = true ->
  Str.truthy (Payment.provider_transaction_id payment) = Some transactionId ->
  Env.provider_processRefund env (Str.toLowerCase (Payment.provider payment))
    (World.remote_calls w)
    {| RefundRequest.transactionId := transactionId;
       RefundRequest.amount := RefundService.amount input;
       RefundRequest.reason := RefundService.reason input |}
  = Returned response ->
  RefundResponse.success response = true ->
  Payment.id payment <> "" ->
  Str.truthy (Payment.webhook_url payment) = Some url ->
  WebhookService.valid (WebhookService.validateWebhookUrl env url) = true ->
  exists w',
    RefundService.createRefund env input auditContext w = Tx.Waits w'
    /\ World.remote_calls w' = S (World.remote_calls w)
    /\ World.refunds w' = World.refunds w
    /\ World.payments w' = World.payments w
    /\ World.transactions w' = World.transactions w
    /\ World.audit_logs w' = World.audit_logs w
    /\ World.webhook_events w' = World.webhook_events w
    /\ World.queue w' = World.queue w.
Proof.
  intros Hadm Hstored Hpos Hfresh Hprov Htx Hanswer Hok Hid Hurl Hvalid.
  destruct (createRefund_reaches_provider env input auditContext w payment
              stored Hadm Hstored Hpos Hfresh)
    as (refund & a & w1 & locked & -> & Hrefund & Hw1).
  destruct (refund_round_waits env input auditContext payment refund
              (Number.ofDecimal (Payment.amount payment))
              (Number.ofDecimal
                 (Refunds.completed_total (Payment.id payment) w))
              w1 locked (World.refunds w) transactionId response)
    with (url := url)
    as (s2 & Hrun & Hevs & Hqueue & Hcalls);
    try assumption.
  { now rewrite Hw1. }
  { now rewrite Hw1. }
  unfold Locking.withTransaction. rewrite Hrun.
  eexists. split; [reflexivity|].
  destruct s2 as [w2 l2]. cbn [Tx.world] in *.
  destruct w2, w. cbn in *. subst. cbn in *. now repeat split.
Qed.

(** A refund of 30 on a completed charge whose merchant has registered a
    webhook endpoint. *)
Lemma accepted_refund_with_webhook_url_never_returns_witness :
  exists w',
    RefundService.createRefund Fixture.env (Fixture.refund 30 1) None
      (Fixture.with_payment
         (Fixture.payment PaymentStatus.completed
            (Some "https://merchant.example/hooks")))
    = Tx.Waits w'
    /\ World.remote_calls w' = 1%nat
    /\ World.refunds w' = [].
Proof.
  destruct (accepted_refund_with_webhook_url_never_returns Fixture.env
              (Fixture.refund 30 1) None
              (Fixture.with_payment
                 (Fixture.payment PaymentStatus.completed
                    (Some "https://merchant.example/hooks")))
              (Fixture.payment PaymentStatus.completed
                 (Some "https://merchant.example/hooks"))
              300000 "ch_1" "https://merchant.example/hooks"
              {| RefundResponse.success := true;
                 RefundResponse.refundId := "re_1";
                 RefundResponse.status := ProviderStatus.completed;
                 RefundResponse.rawResponse := JObject [];
                 RefundResponse.errorCode := None;
                 RefundResponse.errorMessage := None |}
              ltac:(repeat split; vm_compute; reflexivity)
              ltac:(vm_compute; reflexivity) ltac:(lia)
              ltac:(vm_compute; reflexivity) ltac:(vm_compute; reflexivity)
              ltac:(vm_compute; reflexivity) ltac:(vm_compute; reflexivity)
              ltac:(reflexivity) ltac:(discriminate)
              ltac:(reflexivity) ltac:(vm_compute; reflexivity))
    as (w' & Hrun & Hcalls & Hrefunds & _).
  exists w'. split; [exact Hrun|]. split; [exact Hcalls|exact Hrefunds].
Defined.

(** A webhook URL that no longer passes validation turns an accepted
    refund into a failed one. For a request that the checks let through,
    when the provider accepts and the webhook URL of the payment is
    rejected by [validateWebhookUrl], the error of [queueWebhook] is
    caught by the [catch] block of [createRefund]: the call returns
    [success = false] with the validation message, the refund is stored
    [failed], and the transaction commits with the payment stored
    [refunded] or [partially_refunded] and no webhook event. *)
Theorem accepted_refund_with_rejected_url_is_stored_failed
    (env : Env.t) (input : RefundService.CreateRefundInput)
    (auditContext : option AuditContext.t) (w : World.t)
    (payment : Payment.t) (stored : Z) (transactionId url : string)
    (response : RefundResponse.t) :
  Refunds.admitted input payment w ->
  Number.toDecimal (RefundService.amount input) = Some stored ->
  (0 < stored)%Z ->
  existsb (RefundModel.has_id (Env.uuid env (World.uuid_next w)))
    (World.refunds w) = false ->
  WebhookService.includes (Str.toLowerCase (Payment.provider payment))
    Providers.getSupportedProviders = true ->
  Str.truthy (Payment.provider_transaction_id payment) = Some transactionId ->
  Env.provider_processRefund env (Str.toLowerCase (Payment.provider payment))
    (World.remote_calls w)
    {| RefundRequest.transactionId := transactionId;
       RefundRequest.amount := RefundService.amount input;
       RefundRequest.reason := RefundService.reason input |}
  = Returned response ->
  RefundResponse.success response = true ->
  Str.truthy (Payment.webhook_url payment) = Some url ->
  WebhookService.valid (WebhookService.validateWebhookUrl env url) = false ->
  exists (res : RefundService.RefundResult) (w' : World.t) (r : Refund.t)
         (row : Payment.t),
    RefundService.createRefund env input auditContext w
    = Tx.Ends (Returned res) w'
    /\ RefundService.success res = false
    /\ RefundService.error res
       = Some (match Str.truthy
                       (WebhookService.error
                          (WebhookService.validateWebhookUrl env url)) with
               | Some e => e
               | None => "Invalid webhook URL"
               end)
    /\ RefundService.refund res = Some r
    /\ World.refunds w' = World.refunds w ++ [r]
    /\ Refund.status r = RefundStatus.failed
    /\ find (PaymentModel.has_id (RefundService.payment_id input))
         (World.payments w') = Some row
    /\ Payment.status row
       = RefundRound.payment_status
           (Number.ofDecimal (Payment.amount payment))
           (Number.ofDecimal
              (Refunds.completed_total (Payment.id payment) w))
           (RefundService.amount input)
    /\ World.webhook_events w' = World.webhook_events w.
Proof.
  intros Hadm Hstored Hpos Hfresh Hprov Htx Hanswer Hok Hurl Hvalid.
  pose proof Hadm as (Hfind & _).
  pose proof (payment_found_id _ _ _ Hfind) as Hid.
  destruct (createRefund_reaches_provider env input auditContext w payment
              stored Hadm Hstored Hpos Hfresh)
    as (refund & a & w1 & locked & -> & Hrefund & Hw1).
  destruct (refund_round_url_rejected env input auditContext payment refund
              (Number.ofDecimal (Payment.amount payment))
              (Number.ofDecimal
                 (Refunds.completed_total (Payment.id payment) w))
              w1 locked (World.refunds w) transactionId response)
    with (url := url)
    as (res & w2 & Hrun & Hrows & Hres & Hsucc & _ & Herr & Hpay & Hevs);
    try assumption.
  { now rewrite Hw1. }
  { now rewrite Hrefund. }
  { now rewrite Hw1. }
  unfold Locking.withTransaction. rewrite Hrun. cbn [Tx.world].
  assert (Hrow : find (PaymentModel.has_id (RefundService.payment_id input))
                   (World.payments w2)
                 = Some (Payment.with_status
                           (RefundRound.payment_status
                              (Number.ofDecimal (Payment.amount payment))
                              (Number.ofDecimal
                                 (Refunds.completed_total
                                    (Payment.id payment) w))
                              (RefundService.amount input))
                           (World.now w1) payment)).
  { rewrite <- Hid. rewrite Hpay, find_update_where_id by reflexivity.
    rewrite Hw1. cbn [World.payments World.with_audit_logs
                        World.with_uuid_next World.with_refunds].
    rewrite Hid, Hfind. reflexivity. }
  eexists res, w2, _, _. split; [reflexivity|].
  split; [exact Hsucc|]. split; [exact Herr|]. split; [exact Hres|].
  split; [exact Hrows|]. split; [reflexivity|].
  split; [exact Hrow|]. split; [reflexivity|].
  rewrite Hevs, Hw1. reflexivity.
Qed.

(** A refund of 100 on a completed charge whose webhook URL names the
    local host: the payment ends [refunded], the refund [failed]. *)
Lemma accepted_refund_with_rejected_url_is_stored_failed_witness :
  exists res w' r,
    RefundService.createRefund Fixture.env (Fixture.refund 100 1) None
      (Fixture.with_payment
         (Fixture.payment PaymentStatus.completed
            (Some "https://localhost/hooks")))
    = Tx.Ends (Returned res) w'
    /\ RefundService.success res = false
    /\ World.refunds w' = [r]
    /\ Refund.status r = RefundStatus.failed
    /\ Payment.status <$> World.payments w' = [PaymentStatus.refunded].
Proof.
  destruct (accepted_refund_with_rejected_url_is_stored_failed Fixture.env
              (Fixture.refund 100 1) None
              (Fixture.with_payment
                 (Fixture.payment PaymentStatus.completed
                    (Some "https://localhost/hooks")))
              (Fixture.payment PaymentStatus.completed
                 (Some "https://localhost/hooks"))
              1000000 "ch_1" "https://localhost/hooks"
              {| RefundResponse.success := true;
                 RefundResponse.refundId := "re_1";
                 RefundResponse.status := ProviderStatus.completed;
                 RefundResponse.rawResponse := JObject [];
                 RefundResponse.errorCode := None;
                 RefundResponse.errorMessage := None |}
              ltac:(repeat split; vm_compute; reflexivity)
              ltac:(vm_compute; reflexivity) ltac:(lia)
              ltac:(vm_compute; reflexivity) ltac:(vm_compute; reflexivity)
              ltac:(vm_compute; reflexivity) ltac:(vm_compute; reflexivity)
              ltac:(reflexivity) ltac:(reflexivity)
              ltac:(vm_compute; reflexivity))
    as (res & w' & r & row & Hrun & Hs & _ & _ & Hrows & Hr & _).
  exists res, w', r. split; [exact Hrun|]. split; [exact Hs|].
  split; [exact Hrows|]. split; [exact Hr|].
  vm_compute in Hrun. injection Hrun as _ <-. reflexivity.
Defined.
(** ** Provider webhooks for payments with a webhook URL *)

(** A permitted transition of a payment that has a webhook URL is never
    applied. When a provider webhook reports a status that the table
    permits for a payment with a webhook URL,
    [updatePaymentFromWebhook] comes to [queueWebhook] inside the
    transaction that holds the payment row [FOR UPDATE]. With a URL that
    passes validation, the insertion of the event waits for that lock and
    the call does not end; with a URL that validation rejects,
    [queueWebhook] throws and the transaction is rolled back. Either way
    the payment keeps its status, and no transaction row, audit row or
    webhook event is written. *)
Theorem webhook_update_with_url_is_not_applied
    (env : Env.t) (providerTransactionId provider : string)
    (newStatus : PaymentStatus.t) (providerResponse : Json)
    (w : World.t) (payment : Payment.t) (url : string) :
  find (PaymentService.matches_provider providerTransactionId provider)
    (World.payments w) = Some payment ->
  PaymentService.permitted (Payment.status payment) newStatus ->
  Payment.id payment <> "" ->
  Str.truthy (Payment.webhook_url payment) = Some url ->
  exists w',
    PaymentService.updatePaymentFromWebhook env providerTransactionId
      provider newStatus providerResponse w
    = (if WebhookService.valid (WebhookService.validateWebhookUrl env url)
       then Tx.Waits w'
       else
         Tx.Ends
           (Threw
              (ErrorObject "WebhookUrlValidationError"
                 (match Str.truthy
                          (WebhookService.error
                             (WebhookService.validateWebhookUrl env url))
                  with
                  | Some e => e
                  | None => "Invalid webhook URL"
                  end))) w')
    /\ World.payments w' = World.payments w
    /\ World.transactions w' = World.transactions w
    /\ World.audit_logs w' = World.audit_logs w
    /\ World.webhook_events w' = World.webhook_events w
    /\ World.queue w' = World.queue w.
Proof.
  intros Hfind Hpermitted Hid Hurl.
  apply transition_table in Hpermitted.
  destruct (filter_head _ _ _ Hfind) as (rest & Hrows).
  unfold PaymentService.updatePaymentFromWebhook, Locking.withTransaction.
  unfold Tx.bind at 1, Tx.select_for_update. cbn [Tx.world Tx.locked].
  rewrite Hrows, Hpermitted, Hurl. cbn [negb].
  destruct w as [pays txs refs evs logs keys rd ch qu tm dl nw un rc].
  unfold Locking.queueWebhook. run_tx.
  destruct (WebhookService.valid (WebhookService.validateWebhookUrl env url)).
  - run_tx. unfold Tx.insert_event. cbn [WebhookEvent.payment_id].
    destruct (Payment.id payment) as [|c id] eqn:Eid; [contradiction|].
    cbn [Tx.locked existsb map app]. rewrite String.eqb_refl. cbn.
    eexists. split; [reflexivity|]. cbn. now repeat split.
  - run_tx. eexists. split; [reflexivity|]. cbn. now repeat split.
Qed.

(** The provider reports [completed] for a pending charge whose merchant
    has registered a webhook endpoint. *)
Lemma webhook_update_with_url_is_not_applied_witness :
  exists w',
    PaymentService.updatePaymentFromWebhook Fixture.env "ch_1" "stripe"
      PaymentStatus.completed JNull
      (Fixture.with_payment
         (Fixture.payment PaymentStatus.pending
            (Some "https://merchant.example/hooks")))
    = Tx.Waits w'
    /\ World.payments w'
       = [Fixture.payment PaymentStatus.pending
            (Some "https://merchant.example/hooks")].
Proof.
  destruct (webhook_update_with_url_is_not_applied Fixture.env "ch_1"
              "stripe" PaymentStatus.completed JNull
              (Fixture.with_payment
                 (Fixture.payment PaymentStatus.pending
                    (Some "https://merchant.example/hooks")))
              (Fixture.payment PaymentStatus.pending
                 (Some "https://merchant.example/hooks"))
              "https://merchant.example/hooks"
              ltac:(vm_compute; reflexivity)
              ltac:(left; split; [reflexivity|right; now left])
              ltac:(discriminate) ltac:(reflexivity))
    as (w' & Hrun & Hpay & _).
  exists w'. split; [exact Hrun|]. rewrite Hpay. reflexivity.
Defined.

(** ** The life of an idempotency record *)

Lemma stored_record_none (key merchant : string) (w : World.t) :
  IdempotencyService.stored_record key merchant w = None ->
  Redis.lookup (IdempotencyService.getRedisKey key merchant) w = None
  /\ find (IdempotencyService.live_row key merchant (World.now w))
       (World.idempotency_keys w) = None.
Proof.
  unfold IdempotencyService.stored_record.
  destruct (Redis.lookup _ w); [discriminate|]. now split.
Qed.

(** [check] without a visible record. *)
Lemma check_fresh (key merchant requestHash : string) (w : World.t) :
  IdempotencyService.stored_record key merchant w = None ->
  IdempotencyService.check key merchant requestHash w
  = (Returned
       {| IdempotencyService.exists_ := false;
          IdempotencyService.isProcessing := false;
          IdempotencyService.response := None;
          IdempotencyService.statusCode := None |}, w).
Proof.
  intros H. apply stored_record_none in H as [Hr Hf].
  unfold IdempotencyService.check, bind, Redis.get,
    IdempotencyService.select_live.
  now rewrite Hr, Hf.
Qed.


(** The record that [startProcessing] caches. *)
Lemma startProcessing_fresh (env : Env.t)
    (key merchant requestHash requestPath requestMethod : string)
    (w : World.t) :
  IdempotencyService.stored_record key merchant w = None ->
  exists (w1 : World.t) (record : IdempotencyRecord.t),
    IdempotencyService.startProcessing env key merchant requestHash
      requestPath requestMethod w = (Returned tt, w1)
    /\ World.redis w1
       = <[IdempotencyService.getRedisKey key merchant
           := (record, (World.now w + Env.ttlSeconds env * 1000)%Z)]>
           (World.redis w)
    /\ IdempotencyRecord.request_hash record = requestHash
    /\ IdempotencyRecord.status record = IdempotencyStatus.processing
    /\ World.payments w1 = World.payments w
    /\ World.transactions w1 = World.transactions w
    /\ World.refunds w1 = World.refunds w
    /\ World.webhook_events w1 = World.webhook_events w
    /\ World.audit_logs w1 = World.audit_logs w
    /\ World.queue w1 = World.queue w
    /\ World.now w1 = World.now w
    /\ World.channel w1 = World.channel w
    /\ World.uuid_next w1 = World.uuid_next w
    /\ World.remote_calls w1 = World.remote_calls w.
Proof.
  intros H. apply stored_record_none in H as [Hr Hf].
  unfold IdempotencyService.startProcessing, Db.withLock, Db.withTransaction.
  unfold bind at 1, get at 1. unfold bind at 1.
  unfold bind at 1, IdempotencyService.select_live at 1. rewrite Hf.
  unfold modify, Redis.setex, modify.
  eexists _, _. split; [reflexivity|].
  destruct (existsb _ _); cbn; repeat split.
Qed.





(** ** Scoping of idempotency keys *)

Lemma string_app_inv_head (a x y : string) : a +:+ x = a +:+ y -> x = y.
Proof.
  induction a as [|c a IH]; cbn; [auto|]. intros [= H]. now apply IH.
Qed.

Lemma plain_split (m m' k k' : string) :
  IdempotencyKeys.plain m = true ->
  IdempotencyKeys.plain m' = true ->
  m +:+ String ":" k = m' +:+ String ":" k' ->
  m = m' /\ k = k'.
Proof.
  revert m'. induction m as [|c m IH]; intros [|c' m'] Hm Hm'; cbn.
  - now intros [= ->].
  - intros [= <- _]. cbn in Hm'. discriminate.
  - intros [= -> _]. cbn in Hm. discriminate.
  - intros [= -> H]. cbn in Hm, Hm'.
    apply andb_true_iff in Hm as [_ Hm]. apply andb_true_iff in Hm' as [_ Hm'].
    destruct (IH m' Hm Hm' H) as [-> ->]. now split.
Qed.

(** Two merchants never share a cache key, as long as their identifiers
    hold no colon. *)
Lemma getRedisKey_inj (key merchant key' merchant' : string) :
  IdempotencyKeys.plain merchant = true ->
  IdempotencyKeys.plain merchant' = true ->
  IdempotencyService.getRedisKey key merchant
  = IdempotencyService.getRedisKey key' merchant' ->
  merchant = merchant' /\ key = key'.
Proof.
  intros Hm Hm' H. unfold IdempotencyService.getRedisKey in H.
  apply string_app_inv_head in H. now apply plain_split.
Qed.

Lemma find_filter_same {A} (P Q : A -> bool) (l : list A) :
  (forall x, P x = true -> Q x = true) ->
  find P (List.filter Q l) = find P l.
Proof.
  intros H. induction l as [|x l IH]; cbn; [reflexivity|].
  destruct (Q x) eqn:Hq; cbn.
  - now rewrite IH.
  - destruct (P x) eqn:Hp; [|exact IH]. apply H in Hp. congruence.
Qed.

Lemma find_filter_none {A} (P Q : A -> bool) (l : list A) :
  (forall x, P x = true -> Q x = false) ->
  find P (List.filter Q l) = None.
Proof.
  intros H. induction l as [|x l IH]; cbn; [reflexivity|].
  destruct (Q x) eqn:Hq; cbn; [|exact IH].
  destruct (P x) eqn:Hp; [|exact IH]. apply H in Hp. congruence.
Qed.

(** [remove] forgets one key of one merchant. After [remove] no record is
    visible for the key and the merchant, so a [check] answers that the
    key is new and the request is processed again; the records of every
    other pair of key and merchant are what they were, for merchant
    identifiers that hold no colon. *)
Theorem idempotency_remove_forgets_one_key
    (key merchant : string) (w : World.t) :
  let w' := snd (IdempotencyService.remove key merchant w) in
  IdempotencyService.remove key merchant w = (Returned tt, w')
  /\ IdempotencyService.stored_record key merchant w' = None
  /\ (forall requestHash,
        IdempotencyService.check key merchant requestHash w'
        = (Returned
             {| IdempotencyService.exists_ := false;
                IdempotencyService.isProcessing := false;
                IdempotencyService.response := None;
                IdempotencyService.statusCode := None |}, w'))
  /\ (forall key' merchant',
        IdempotencyKeys.plain merchant = true ->
        IdempotencyKeys.plain merchant' = true ->
        (key' <> key \/ merchant' <> merchant) ->
        IdempotencyService.stored_record key' merchant' w'
        = IdempotencyService.stored_record key' merchant' w).
Proof.
  intros w'.
  assert (Hnone : IdempotencyService.stored_record key merchant w' = None).
  { unfold IdempotencyService.stored_record, Redis.lookup. cbn.
    rewrite lookup_delete_eq. apply find_filter_none.
    intros x Hx. unfold IdempotencyService.live_row in Hx.
    apply andb_true_iff in Hx as [Hx _]. now rewrite Hx. }
  split; [reflexivity|]. split; [exact Hnone|]. split.
  - intros requestHash. now apply check_fresh.
  - intros key' merchant' Hm Hm' Hne.
    unfold IdempotencyService.stored_record, Redis.lookup. cbn.
    rewrite lookup_delete_ne.
    2:{ intros Heq. apply getRedisKey_inj in Heq as [-> ->]; try assumption.
        now destruct Hne. }
    rewrite find_filter_same; [reflexivity|].
    intros x Hx. unfold IdempotencyService.live_row in Hx.
    apply andb_true_iff in Hx as [Hx _]. apply andb_true_iff in Hx as [Hk Hmm].
    apply String.eqb_eq in Hk, Hmm. rewrite Hk, Hmm.
    apply negb_true_iff, andb_false_iff.
    destruct Hne as [Hne|Hne]; [left|right]; now apply String.eqb_neq.
Qed.

(** Removing key [B] of merchant [m-1] leaves the completed record of
    key [A]. *)
Lemma idempotency_remove_forgets_one_key_witness :
  IdempotencyService.stored_record "A" "m-1"
    (snd (IdempotencyService.remove "B" "m-1"
            (World.with_idempotency_keys [Fixture.completed_record]
               Fixture.empty)))
  = Some Fixture.completed_record.
Proof.
  rewrite (proj2 (proj2 (proj2
             (idempotency_remove_forgets_one_key "B" "m-1"
                (World.with_idempotency_keys [Fixture.completed_record]
                   Fixture.empty)))) "A" "m-1" eq_refl eq_refl).
  - reflexivity.
  - left. discriminate.
Defined.

(** The clean-up of expired keys is invisible to [check]. 
    [cleanup_expired_idempotency_keys] returns the number of rows it
    deletes; every deleted row has expired; the record visible for any key
    and merchant is the same before and after, so [check] gives the same
    answer. *)
Theorem cleanup_keeps_visible_records (w : World.t) :
  exists (deleted : Z) (w' : World.t),
    IdempotencyHooks.cleanup_expired_idempotency_keys w
    = (Returned deleted, w')
    /\ (Z.of_nat (length (World.idempotency_keys w'))
        = Z.of_nat (length (World.idempotency_keys w)) - deleted)%Z
    /\ (forall r,
          In r (World.idempotency_keys w) ->
          In r (World.idempotency_keys w')
          \/ (IdempotencyRecord.expires_at r < World.now w)%Z)
    /\ (forall key merchant,
          IdempotencyService.stored_record key merchant w'
          = IdempotencyService.stored_record key merchant w)
    /\ (forall key merchant requestHash,
          fst (IdempotencyService.check key merchant requestHash w')
          = fst (IdempotencyService.check key merchant requestHash w)).
Proof.
  eexists _, _. split; [reflexivity|].
  assert (Hfind : forall key merchant,
             find (IdempotencyService.live_row key merchant (World.now w))
               (List.filter
                  (fun r => negb (IdempotencyHooks.expired (World.now w) r))
                  (World.idempotency_keys w))
             = find (IdempotencyService.live_row key merchant (World.now w))
                 (World.idempotency_keys w)).
  { intros key merchant. apply find_filter_same. intros x Hx.
    unfold IdempotencyService.live_row in Hx.
    apply andb_true_iff in Hx as [_ Hx].
    unfold IdempotencyHooks.expired. apply negb_true_iff. lia. }
  split; [|split; [|split]].
  - clear Hfind.
    cbn [World.idempotency_keys World.with_idempotency_keys].
    induction (World.idempotency_keys w) as [|r rows IH]; cbn; [lia|].
    destruct (IdempotencyHooks.expired (World.now w) r); cbn [negb length];
      lia.
  - intros r Hin. cbn [World.idempotency_keys World.with_idempotency_keys].
    destruct (IdempotencyHooks.expired (World.now w) r) eqn:He.
    + right. unfold IdempotencyHooks.expired in He. lia.
    + left. apply filter_In. split; [exact Hin|]. now rewrite He.
  - intros key merchant.
    unfold IdempotencyService.stored_record, Redis.lookup. cbn.
    now rewrite Hfind.
  - intros key merchant requestHash.
    unfold IdempotencyService.check, bind, Redis.get, Redis.lookup,
      IdempotencyService.select_live.
    cbn [World.redis World.now World.idempotency_keys
           World.with_idempotency_keys].
    destruct (World.redis w !! IdempotencyService.getRedisKey key merchant)
      as [[cached expiry]|];
      [destruct (World.now w <? expiry)%Z; [now destruct (negb _)|]|].
    all: cbv beta.
    all: cbn [World.now World.idempotency_keys World.with_idempotency_keys].
    all: rewrite Hfind.
    all: destruct (find _ _) as [record|]; [|reflexivity].
    all: destruct (negb _); [reflexivity|].
    all: unfold IdempotencyService.cacheRecord, bind, get.
    all: cbn [World.now World.with_idempotency_keys].
    all: now destruct (0 <? _)%Z.
Qed.

(** ** Requests with an idempotency key *)

Lemma truthy_some (o : option string) (s : string) :
  Str.truthy o = Some s -> Str.truthy (Some s) = Some s.
Proof. destruct o as [[|c r]|]; cbn; intros [= <-]; reflexivity. Qed.

(** The hook in front of a key that has no visible record. *)
Lemma middleware_fresh (env : Env.t) (request : IdempotencyMiddleware.Request)
    (key merchant : string) (w : World.t) :
  WebhookService.includes (IdempotencyMiddleware.method request)
    ["POST"; "PUT"; "PATCH"] = true ->
  Str.truthy (IdempotencyMiddleware.idempotency_key_header request)
  = Some key ->
  Str.truthy (IdempotencyMiddleware.merchantId request) = Some merchant ->
  IdempotencyService.stored_record key merchant w = None ->
  exists (w1 : World.t) (record : IdempotencyRecord.t),
    IdempotencyMiddleware.idempotencyMiddleware env request w
    = (Returned (IdempotencyMiddleware.Continue (Some key)), w1)
    /\ World.redis w1
       = <[IdempotencyService.getRedisKey key merchant
           := (record, (World.now w + Env.ttlSeconds env * 1000)%Z)]>
           (World.redis w)
    /\ IdempotencyRecord.request_hash record
       = IdempotencyService.generateRequestHash env
           (IdempotencyMiddleware.body request)
           (IdempotencyMiddleware.url request)
           (IdempotencyMiddleware.method request)
    /\ IdempotencyRecord.status record = IdempotencyStatus.processing
    /\ World.payments w1 = World.payments w
    /\ World.transactions w1 = World.transactions w
    /\ World.refunds w1 = World.refunds w
    /\ World.webhook_events w1 = World.webhook_events w
    /\ World.audit_logs w1 = World.audit_logs w
    /\ World.queue w1 = World.queue w
    /\ World.now w1 = World.now w
    /\ World.channel w1 = World.channel w
    /\ World.uuid_next w1 = World.uuid_next w
    /\ World.remote_calls w1 = World.remote_calls w.
Proof.
  intros Hmethod Hkey Hmerchant Hfresh.
  unfold IdempotencyMiddleware.idempotencyMiddleware.
  rewrite Hmethod, Hkey, Hmerchant. cbn [negb]. cbv zeta.
  unfold try_catch. unfold bind at 1.
  rewrite (check_fresh key merchant _ w Hfresh).
  cbn [IdempotencyService.exists_]. unfold bind at 1.
  destruct (startProcessing_fresh env key merchant
              (IdempotencyService.generateRequestHash env
                 (IdempotencyMiddleware.body request)
                 (IdempotencyMiddleware.url request)
                 (IdempotencyMiddleware.method request))
              (IdempotencyMiddleware.url request)
              (IdempotencyMiddleware.method request) w Hfresh)
    as (w1 & record & -> & Hrest).
  exists w1, record. split; [reflexivity|exact Hrest].
Qed.





(** [remove] leaves no visible record for the key of the merchant. *)
Lemma remove_forgets (key merchant : string) (w : World.t) :
  IdempotencyService.stored_record key merchant
    (snd (IdempotencyService.remove key merchant w)) = None.
Proof.
  unfold IdempotencyService.stored_record, Redis.lookup. cbn.
  rewrite lookup_delete_eq. apply find_filter_none.
  intros x Hx. unfold IdempotencyService.live_row in Hx.
  apply andb_true_iff in Hx as [Hx _]. now rewrite Hx.
Qed.

(** A charge that fails the checks does not use up its idempotency key.
    For a [POST /] with a fresh key whose body fails the checks of
    [processPayment], the route throws the [PaymentValidationError]; no
    payment, transaction, audit row or webhook event is written; the key
    is removed again, so that a corrected request with the same key is
    processed; and [errorHandler] answers the error with 400, its message
    and the code [VALIDATION_ERROR]. *)
Theorem rejected_charge_releases_key
    (env : Env.t) (request : PaymentRoutes.Request) (key merchant : string)
    (w : World.t) (error : Thrown) :
  WebhookService.includes
    (IdempotencyMiddleware.method (PaymentRoutes.hook request))
    ["POST"; "PUT"; "PATCH"] = true ->
  Str.truthy
    (IdempotencyMiddleware.idempotency_key_header (PaymentRoutes.hook request))
  = Some key ->
  Str.truthy (IdempotencyMiddleware.merchantId (PaymentRoutes.hook request))
  = Some merchant ->
  IdempotencyService.stored_record key merchant w = None ->
  PaymentService.validate
    {| PaymentService.external_id :=
         PaymentRoutes.external_id (PaymentRoutes.body request);
       PaymentService.merchant_id := merchant;
       PaymentService.amount :=
         PaymentRoutes.amount (PaymentRoutes.body request);
       PaymentService.currency :=
         PaymentRoutes.currency (PaymentRoutes.body request);
       PaymentService.provider :=
         PaymentRoutes.provider (PaymentRoutes.body request);
       PaymentService.description :=
         PaymentRoutes.description (PaymentRoutes.body request);
       PaymentService.metadata :=
         PaymentRoutes.metadata (PaymentRoutes.body request);
       PaymentService.webhook_url :=
         PaymentRoutes.webhook_url (PaymentRoutes.body request) |}
  = Some error ->
  exists w1,
    PaymentRoutes.createPayment env request w = (Threw error, w1)
    /\ World.payments w1 = World.payments w
    /\ World.transactions w1 = World.transactions w
    /\ World.audit_logs w1 = World.audit_logs w
    /\ World.webhook_events w1 = World.webhook_events w
    /\ IdempotencyService.stored_record key merchant w1 = None
    /\ ErrorHandler.errorHandler (ErrorHandler.ofThrown error)
       = Http.mkReply 400
           (Some (JObject
                    [ ("error", JString "Bad Request");
                      ("message", JString (messageOf error));
                      ("code", JString "VALIDATION_ERROR") ])).
Proof.
  intros Hmethod Hkey Hmerchant Hfresh Hvalid.
  destruct (middleware_fresh env (PaymentRoutes.hook request) key merchant w
              Hmethod Hkey Hmerchant Hfresh)
    as (ws & record & Hhook & _ & _ & _ & Hp & Ht & _ & He & Ha & _).
  unfold PaymentRoutes.createPayment. unfold bind at 1. rewrite Hhook.
  unfold PaymentRoutes.createPaymentHandler.
  rewrite Hmerchant. cbv zeta. rewrite (truthy_some _ _ Hkey).
  unfold try_catch. unfold bind at 1.
  match goal with
  | |- context [PaymentService.processPayment env ?i ?a ws] =>
      pose proof (processPayment_written env i a ws) as Hcharge
  end.
  rewrite Hvalid in Hcharge. destruct Hcharge as [-> Hclass].
  unfold IdempotencyHooks.idempotencyRemove.
  rewrite (truthy_some _ _ Hkey), Hmerchant.
  unfold bind, try_catch, throw.
  pose proof (remove_forgets key merchant ws) as Hgone.
  destruct (IdempotencyService.remove key merchant ws) as [[[]|e] w1] eqn:Hrm;
    [|discriminate].
  cbn [snd] in Hgone. exists w1. split; [reflexivity|].
  assert (Hw1 : w1 = snd (IdempotencyService.remove key merchant ws))
    by now rewrite Hrm.
  rewrite Hw1 at 1 2 3 4. cbn.
  rewrite Hp, Ht, He, Ha. repeat split; try assumption.
  unfold ErrorHandler.errorHandler, ErrorHandler.ofThrown. cbn.
  rewrite Hclass. cbn. now destruct error.
Qed.

(** A charge through a provider that is not registered. *)
Lemma rejected_charge_releases_key_witness :
  exists w1,
    PaymentRoutes.createPayment Fixture.env Scenario.unsupported_request
      Fixture.empty
    = (Threw (PaymentService.PaymentValidationError
                "Unsupported provider: bitcoin"), w1)
    /\ World.payments w1 = []
    /\ IdempotencyService.stored_record "A" "m-1" w1 = None.
Proof.
  destruct (rejected_charge_releases_key Fixture.env
              Scenario.unsupported_request "A" "m-1" Fixture.empty
              (PaymentService.PaymentValidationError
                 "Unsupported provider: bitcoin")
              eq_refl eq_refl eq_refl eq_refl eq_refl)
    as (w1 & Hrun & Hp & _ & _ & _ & Hkey & _).
  exists w1. now repeat split.
Defined.

(** ** The error handler *)

(** An error of unknown origin tells the client nothing. When
    [errorHandler] answers with a status of 500 or more an error that is no
    [ProviderError], the body is the fixed text for server errors with the
    error's [code] (or [UNKNOWN_ERROR]): the message of the error is not
    part of it. The errors of the services map to 400 (validation), 404,
    409 and 502, so this is the reply to every other error without a
    status below 500. *)
Theorem server_errors_are_masked (e : ErrorHandler.FastifyError) :
  (500 <= Http.code (ErrorHandler.errorHandler e))%Z ->
  instanceOf "ProviderError" (ErrorHandler.error e) = false ->
  Http.payload (ErrorHandler.errorHandler e)
  = Some (JObject
            [ ("error", JString "Internal Server Error");
              ("message", JString "An unexpected error occurred");
              ("code",
               JString (match Str.truthy (ErrorHandler.code e) with
                        | Some c => c
                        | None => "UNKNOWN_ERROR"
                        end)) ]).
Proof.
  unfold ErrorHandler.errorHandler. intros Hcode Hprov. rewrite Hprov in *.
  destruct (_ || _); [cbn in Hcode; lia|].
  destruct (instanceOf "PaymentNotFoundError" _); [cbn in Hcode; lia|].
  destruct (instanceOf "IdempotencyConflictError" _); [cbn in Hcode; lia|].
  destruct (ErrorHandler.truthy_validation _); [cbn in Hcode; lia|].
  cbv zeta in *. cbn [Http.code Http.payload] in *.
  apply Z.leb_le in Hcode. now rewrite Hcode.
Qed.

(** A violated database constraint reaches the client as a plain 500. *)
Lemma server_errors_are_masked_witness :
  ErrorHandler.errorHandler
    (ErrorHandler.ofThrown
       (ErrorObject "error"
          "duplicate key value violates unique constraint"))
  = Http.mkReply 500
      (Some (JObject
               [ ("error", JString "Internal Server Error");
                 ("message", JString "An unexpected error occurred");
                 ("code", JString "UNKNOWN_ERROR") ])).
Proof.
  pose proof (server_errors_are_masked
                (ErrorHandler.ofThrown
                   (ErrorObject "error"
                      "duplicate key value violates unique constraint"))
                ltac:(vm_compute; discriminate) eq_refl) as H.
  destruct (ErrorHandler.errorHandler _) as [code payload] eqn:E.
  cbn [Http.payload] in H. rewrite H.
  vm_compute in E. injection E as <- _. reflexivity.
Defined.

(** ** Payments of other merchants *)

(** A payment of another merchant does not exist. When the payment named
    in the request is stored for another merchant, or is not stored, the
    handler of [POST /payments/:id/refunds] and [GET
    /payments/:id/refundable] answer 404 with the same body in both cases
    and change nothing; [GET /refunds/:id] does the same for a refund that
    is not stored, whose payment is not stored, or whose payment belongs
    to another merchant. *)
Theorem foreign_payment_is_not_found
    (env : Env.t) (request : RefundRoutes.Request)
    (idempotencyKey : option string) (merchant refundId : string)
    (w : World.t) :
  Str.truthy (IdempotencyMiddleware.merchantId (RefundRoutes.hook request))
  = Some merchant ->
  let owned (paymentId : string) :=
    exists p,
      find (PaymentModel.has_id paymentId) (World.payments w) = Some p
      /\ Payment.merchant_id p = merchant in
  (~ owned (RefundRoutes.id request) ->
   RefundRoutes.createRefundHandler env request idempotencyKey w
   = Tx.Ends
       (Returned (RefundRoutes.not_found "Payment" (RefundRoutes.id request)))
       w
   /\ RefundRoutes.getRefundable (Some merchant) (RefundRoutes.id request) w
      = (Returned
           (RefundRoutes.not_found "Payment" (RefundRoutes.id request)), w))
  /\ ((forall r,
         find (RefundModel.has_id refundId) (World.refunds w) = Some r ->
         ~ owned (Refund.payment_id r)) ->
      RefundRoutes.getRefund (Some merchant) refundId w
      = (Returned (RefundRoutes.not_found "Refund" refundId), w)).
Proof.
  intros Hmerchant owned. split.
  - intros Hnot.
    unfold RefundRoutes.createRefundHandler, RefundRoutes.getRefundable.
    rewrite Hmerchant. cbv zeta.
    unfold Tx.bind, Tx.call, bind, PaymentModel.getPaymentById.
    destruct (find (PaymentModel.has_id (RefundRoutes.id request))
                (World.payments w)) as [p|] eqn:Hfind; [|now split].
    unfold RefundRoutes.foreign.
    destruct (String.eqb_spec (Payment.merchant_id p) merchant) as [Heq|Hne];
      [|now split].
    exfalso. apply Hnot. now exists p.
  - intros Hnot. unfold RefundRoutes.getRefund, RefundQueries.getRefund.
    unfold bind at 1, RefundModel.getRefundById.
    destruct (find (RefundModel.has_id refundId) (World.refunds w))
      as [r|] eqn:Hr; [|reflexivity].
    specialize (Hnot r eq_refl).
    unfold bind, PaymentModel.getPaymentById.
    destruct (find (PaymentModel.has_id (Refund.payment_id r))
                (World.payments w)) as [p|] eqn:Hfind; [|reflexivity].
    unfold RefundRoutes.foreign.
    destruct (String.eqb_spec (Payment.merchant_id p) merchant) as [Heq|Hne];
      [|reflexivity].
    exfalso. apply Hnot. now exists p.
Qed.

(** Merchant [m-2] asks for a refund of a payment of merchant [m-1]. *)
Lemma foreign_payment_is_not_found_witness :
  RefundRoutes.createRefundHandler Fixture.env
    Scenario.foreign_refund_request (Some "R")
    (Fixture.with_payment (Fixture.payment PaymentStatus.completed None))
  = Tx.Ends (Returned (RefundRoutes.not_found "Payment" "pay-1"))
      (Fixture.with_payment (Fixture.payment PaymentStatus.completed None)).
Proof.
  refine (proj1 (proj1 (foreign_payment_is_not_found Fixture.env
                          Scenario.foreign_refund_request (Some "R") "m-2"
                          "re-1"
                          (Fixture.with_payment
                             (Fixture.payment PaymentStatus.completed None))
                          eq_refl) _)).
  intros (p & Hp & Hm). cbn in Hp. injection Hp as <-. discriminate.
Defined.



(** A refund that the checks refuse is answered 400 and does not use up
    its idempotency key. For a [POST /payments/:id/refunds] of the owner
    of the payment, with a fresh key, whose request the checks of
    [createRefund] refuse, the route answers 400 with the message of the
    [RefundValidationError]; no refund, payment or audit row is written
    and the provider is not called; the key is removed again, so that a
    corrected request with the same key is processed. *)
Theorem refused_refund_releases_key
    (env : Env.t) (request : RefundRoutes.Request) (key merchant : string)
    (w : World.t) (owned : Payment.t) :
  WebhookService.includes
    (IdempotencyMiddleware.method (RefundRoutes.hook request))
    ["POST"; "PUT"; "PATCH"] = true ->
  Str.truthy
    (IdempotencyMiddleware.idempotency_key_header (RefundRoutes.hook request))
  = Some key ->
  Str.truthy (IdempotencyMiddleware.merchantId (RefundRoutes.hook request))
  = Some merchant ->
  IdempotencyService.stored_record key merchant w = None ->
  find (PaymentModel.has_id (RefundRoutes.id request)) (World.payments w)
  = Some owned ->
  Payment.merchant_id owned = merchant ->
  (forall payment,
     ~ Refunds.admitted
         {| RefundService.payment_id := RefundRoutes.id request;
            RefundService.amount :=
              RefundRoutes.amount (RefundRoutes.body request);
            RefundService.reason :=
              RefundRoutes.reason (RefundRoutes.body request) |}
         payment w) ->
  exists (message : string) (w1 : World.t),
    RefundRoutes.createRefund env request w
    = Tx.Ends (Returned (RefundRoutes.bad_request message)) w1
    /\ World.refunds w1 = World.refunds w
    /\ World.payments w1 = World.payments w
    /\ World.audit_logs w1 = World.audit_logs w
    /\ World.remote_calls w1 = World.remote_calls w
    /\ IdempotencyService.stored_record key merchant w1 = None.
Proof.
  intros Hmethod Hkey Hmerchant Hfresh Hfind Howner Hnot.
  destruct (middleware_fresh env (RefundRoutes.hook request) key merchant w
              Hmethod Hkey Hmerchant Hfresh)
    as (ws & record & Hhook & _ & _ & _ & Hp & _ & Hr & _ & Ha & _ & _ & _
        & _ & Hcalls).
  unfold RefundRoutes.createRefund. unfold Tx.bind at 1.
  unfold Tx.call at 1. rewrite Hhook.
  unfold RefundRoutes.createRefundHandler. rewrite Hmerchant. cbv zeta.
  unfold Tx.bind at 1. unfold Tx.call at 1.
  unfold PaymentModel.getPaymentById at 1. rewrite Hp, Hfind.
  unfold RefundRoutes.foreign. rewrite Howner, String.eqb_refl. cbn [negb].
  unfold Tx.try_catch at 1. unfold Tx.bind at 1.
  match goal with
  | |- context [RefundService.createRefund env ?i ?a ws] =>
      destruct (createRefund_not_admitted env i a ws) as (message & ->)
  end.
  { intros payment (H1 & H2 & H3 & H4). apply (Hnot payment).
    unfold Refunds.admitted, Refunds.available, Refunds.completed_total,
      Refunds.pending_total in *.
    rewrite Hp, Hr in *. now repeat split. }
  rewrite (truthy_some _ _ Hkey).
  unfold IdempotencyHooks.idempotencyRemove.
  rewrite (truthy_some _ _ Hkey), Hmerchant.
  unfold Tx.bind, Tx.call, try_catch.
  pose proof (remove_forgets key merchant ws) as Hgone.
  destruct (IdempotencyService.remove key merchant ws) as [[[]|e] w1] eqn:Hrm;
    [|discriminate].
  cbn [snd] in Hgone. cbn.
  exists message, w1. split; [reflexivity|].
  assert (Hw1 : w1 = snd (IdempotencyService.remove key merchant ws))
    by now rewrite Hrm.
  rewrite Hw1 at 1 2 3 4. cbn.
  rewrite Hp, Hr, Ha, Hcalls. now repeat split.
Qed.

(** The owner of a completed charge of 100.0000 asks for a refund of
    200. *)
Lemma refused_refund_releases_key_witness :
  exists w1,
    RefundRoutes.createRefund Fixture.env Scenario.excessive_refund_request
      (Fixture.with_payment (Fixture.payment PaymentStatus.completed None))
    = Tx.Ends
        (Returned
           (RefundRoutes.bad_request
              "Refund amount 200 exceeds available amount 100.00")) w1
    /\ World.refunds w1 = []
    /\ IdempotencyService.stored_record "R" "m-1" w1 = None.
Proof.
  destruct (refused_refund_releases_key Fixture.env
              Scenario.excessive_refund_request "R" "m-1"
              (Fixture.with_payment
                 (Fixture.payment PaymentStatus.completed None))
              (Fixture.payment PaymentStatus.completed None)
              eq_refl eq_refl eq_refl eq_refl eq_refl eq_refl)
    as (message & w1 & Hrun & Hrefunds & _ & _ & _ & Hkey).
  - intros payment (Hfind & _ & _ & Havail).
    cbn in Hfind. injection Hfind as <-.
    vm_compute in Havail. discriminate.
  - exists w1. split; [|split; [exact Hrefunds|exact Hkey]].
    rewrite Hrun. vm_compute in Hrun. injection Hrun as -> _. reflexivity.
Defined.
